(** * ModPy: a shallow embedding of the declaration API and of the Fabric
    1.21.11 generator, with the properties its specification states.

    Python values are modelled as follows.
    - [str] is [string]; a character is a code point below 256 (Latin-1),
      on which [str.lower] and [str.isspace] are given exactly.
    - [float] is the rational the double denotes (no NaN, no infinity).
    - [dict] used as a keyed table ([_GENERATORS], [element_types]) is a
      [gmap]; [set[str]] is a [gset string]; a [dict] whose order is
      observable (a JSON payload, [events]) is an association list.
    - Objects that are shared and mutated (a [Mod], an element, the list
      that records captured actions) live in a store and are named by their
      index in it.
    - A call that can raise returns a [Result]; a call that also mutates
      returns the outcome together with the new state, so that what was
      mutated before an exception stays mutated.
    - The file system maps the path of each regular file to its text.

    The first part holds the definitions, in the order of the sources
    (generators/fabric_1_21_11.py, generators/registry.py, elements.py,
    mod.py); the second part holds the properties. *)

From Stdlib Require Import ZArith QArith Ascii String List Bool Lia.
From stdpp Require Import base option list gmap strings sorting fin_maps pretty.

Local Open Scope string_scope.
Local Open Scope list_scope.

(** ** Exceptions and results *)

Inductive exn : Type :=
| ValueError (msg : string)
| KeyError (key : string)
| AttributeError (msg : string)
| NotADirectoryError (msg : string)
| IsADirectoryError (msg : string)
| FileExistsError (msg : string)
| FileNotFoundError (msg : string)
| IndexError (msg : string)
| JSONDecodeError (msg : string)
| UserError (msg : string)
| InvalidRef.
(** [InvalidRef] is not a Python exception: it is the outcome of following
    a reference that names no object of the store, which a Python program
    cannot do. [UserError] stands for whatever a handler raises itself. *)

Inductive Result (A : Type) : Type :=
| Ok (a : A)
| Raise (e : exn).
Arguments Ok {A} a.
Arguments Raise {A} e.

Definition is_ok {A} (r : Result A) : bool :=
  match r with Ok _ => true | Raise _ => false end.

Definition rbind {A B} (r : Result A) (k : A → Result B) : Result B :=
  match r with Ok a => k a | Raise e => Raise e end.

(** ** Characters and [str] methods *)

Module Str.

Definition code (c : ascii) : N := N_of_ascii c.

Definition between (lo hi : N) (c : ascii) : bool :=
  (lo <=? code c)%N && (code c <=? hi)%N.

Definition one_of (set : string) (c : ascii) : bool :=
  existsb (Ascii.eqb c) (list_ascii_of_string set).

(** [c.isspace()] on Latin-1: TAB..CR, FS..US, SPACE, NEL, NBSP. *)
Definition isspace (c : ascii) : bool :=
  between 9 13 c || between 28 32 c || (code c =? 133)%N || (code c =? 160)%N.

(** [c.lower()] on Latin-1: A-Z and the accented capitals (all of
    0xC0..0xDE but the multiplication sign) move up by 32. *)
Definition lower_char (c : ascii) : ascii :=
  if between 65 90 c || (between 192 222 c && negb (code c =? 215)%N)
  then ascii_of_N (code c + 32)
  else c.

Definition chars (s : string) : list ascii := list_ascii_of_string s.
Definition of_chars (l : list ascii) : string := string_of_list_ascii l.

Fixpoint lstrip_chars (p : ascii → bool) (l : list ascii) : list ascii :=
  match l with
  | [] => []
  | c :: l' => if p c then lstrip_chars p l' else l
  end.

Definition rstrip_chars (p : ascii → bool) (l : list ascii) : list ascii :=
  rev (lstrip_chars p (rev l)).

Definition strip_chars (p : ascii → bool) (l : list ascii) : list ascii :=
  rstrip_chars p (lstrip_chars p l).

(** [s.lower()] *)
Definition lower (s : string) : string := of_chars (map lower_char (chars s)).

(** [s.strip()] *)
Definition strip (s : string) : string := of_chars (strip_chars isspace (chars s)).

(** [s.strip(set)] *)
Definition strip_set (set : string) (s : string) : string :=
  of_chars (strip_chars (one_of set) (chars s)).

(** [s.rstrip()] *)
Definition rstrip (s : string) : string := of_chars (rstrip_chars isspace (chars s)).

(** [s.replace(a, b)] for one-character [a] and [b] *)
Definition replace_char (a b : ascii) (s : string) : string :=
  of_chars (map (λ c, if Ascii.eqb c a then b else c) (chars s)).

(** [s.startswith(p)] and the slice [s[len(p):]] *)
Definition startswith (p s : string) : bool := String.prefix p s.
Definition drop (n : nat) (s : string) : string := of_chars (skipn n (chars s)).

(** truthiness of a [str]: non-empty *)
Definition truthy (s : string) : bool :=
  match s with EmptyString => false | _ => true end.

(** [s or d] *)
Definition or_else (s d : string) : string := if truthy s then s else d.

(** [o or d] for [o : str | None] *)
Definition opt_or (o : option string) (d : string) : string :=
  match o with Some s => or_else s d | None => d end.

(** [a or b] for two optional strings, as an optional string that is
    [None] or falsy only when both are *)
Definition opt_or_opt (a b : option string) : option string :=
  match a with
  | Some s => if truthy s then a else b
  | None => b
  end.

End Str.

(** ** Regular expressions ([re.fullmatch], [re.sub]) *)

Module Re.

Inductive regex : Type :=
| Void
| Eps
| Cls (p : ascii → bool)
| Cat (r1 r2 : regex)
| Alt (r1 r2 : regex)
| Star (r : regex).

Definition Plus (r : regex) : regex := Cat r (Star r).
Definition Opt (r : regex) : regex := Alt r Eps.
Definition Chr (c : ascii) : regex := Cls (Ascii.eqb c).

(** [r{1,n}] *)
Fixpoint UpTo (r : regex) (n : nat) : regex :=
  match n with
  | 0 => Void
  | 1 => r
  | S n' => Cat r (Opt (UpTo r n'))
  end.

Fixpoint nullable (r : regex) : bool :=
  match r with
  | Void => false
  | Eps => true
  | Cls _ => false
  | Cat r1 r2 => nullable r1 && nullable r2
  | Alt r1 r2 => nullable r1 || nullable r2
  | Star _ => true
  end.

Fixpoint deriv (c : ascii) (r : regex) : regex :=
  match r with
  | Void => Void
  | Eps => Void
  | Cls p => if p c then Eps else Void
  | Cat r1 r2 =>
      if nullable r1 then Alt (Cat (deriv c r1) r2) (deriv c r2)
      else Cat (deriv c r1) r2
  | Alt r1 r2 => Alt (deriv c r1) (deriv c r2)
  | Star r1 => Cat (deriv c r1) (Star r1)
  end.

Fixpoint accepts (r : regex) (l : list ascii) : bool :=
  match l with
  | [] => nullable r
  | c :: l' => accepts (deriv c r) l'
  end.

(** [bool(re.fullmatch(r, s))] *)
Definition fullmatch (r : regex) (s : string) : bool := accepts r (Str.chars s).

(** The language of a regular expression. *)
Inductive matches : regex → list ascii → Prop :=
| m_eps : matches Eps []
| m_cls p c : p c = true → matches (Cls p) [c]
| m_cat r1 r2 l1 l2 : matches r1 l1 → matches r2 l2 → matches (Cat r1 r2) (l1 ++ l2)
| m_alt_l r1 r2 l : matches r1 l → matches (Alt r1 r2) l
| m_alt_r r1 r2 l : matches r2 l → matches (Alt r1 r2) l
| m_star_nil r : matches (Star r) []
| m_star_cons r l1 l2 : matches r l1 → matches (Star r) l2 → matches (Star r) (l1 ++ l2).

(** [re.sub("[p]+", repl, s)]: every maximal run of characters of the
    class [p] is replaced by [repl]. [in_run] tells that the previous
    character belonged to a run already replaced. *)
Fixpoint sub_runs_chars (p : ascii → bool) (repl : list ascii) (in_run : bool)
    (l : list ascii) : list ascii :=
  match l with
  | [] => []
  | c :: l' =>
      if p c then (if in_run then [] else repl) ++ sub_runs_chars p repl true l'
      else c :: sub_runs_chars p repl false l'
  end.

Definition sub_class_plus (p : ascii → bool) (repl s : string) : string :=
  Str.of_chars (sub_runs_chars p (Str.chars repl) false (Str.chars s)).

End Re.

(** ** The identifier normalizer (generators/fabric_1_21_11.py) *)

(** [[a-z0-9/._-]] *)
Definition id_path_class (c : ascii) : bool :=
  Str.between 97 122 c || Str.between 48 57 c || Str.one_of "/._-" c.

(** [[a-z0-9_.-]] *)
Definition id_namespace_class (c : ascii) : bool :=
  Str.between 97 122 c || Str.between 48 57 c || Str.one_of "_.-" c.

(** [[a-z0-9_]] *)
Definition command_literal_class (c : ascii) : bool :=
  Str.between 97 122 c || Str.between 48 57 c || Str.one_of "_" c.

(** The value of [normalized] before [or fallback] in [_normalize_id_path]. *)
Definition _normalize_id_path_core (value : option string) : string :=
  let raw := Str.strip (Str.lower (Str.opt_or value "")) in
  let raw := Str.replace_char " " "_" raw in
  let normalized := Re.sub_class_plus (λ c, negb (id_path_class c)) "_" raw in
  Str.strip_set "_./-" (Re.sub_class_plus (Ascii.eqb "_") "_" normalized).

Definition _normalize_id_path (value : option string) (fallback : string) : string :=
  Str.or_else (_normalize_id_path_core value) fallback.

Definition _normalize_command_literal (value : option string) (fallback : string) : string :=
  let raw := Str.replace_char " " "_" (Str.strip (Str.lower (Str.opt_or value ""))) in
  let normalized := Re.sub_class_plus (λ c, negb (command_literal_class c)) "" raw in
  Str.or_else normalized fallback.

(** [s.split(sep, 1)] when [sep] occurs in [s] *)
Definition split_once (sep : ascii) (s : string) : option (string * string) :=
  (fix go (l acc : list ascii) : option (string * string) :=
     match l with
     | [] => None
     | c :: l' =>
         if Ascii.eqb c sep then Some (Str.of_chars (rev acc), Str.of_chars l')
         else go l' (c :: acc)
     end) (Str.chars s) [].

Definition _split_namespaced_id (value default_namespace : string) : string * string :=
  match split_once ":" value with
  | Some (namespace, path) =>
      (_normalize_id_path (Some namespace) default_namespace,
       _normalize_id_path (Some path) "generated")
  | None => (default_namespace, _normalize_id_path (Some value) "generated")
  end.

(** [re.split("[p]+", s)]: the pieces between the maximal runs of [p],
    empty pieces at both ends included. [cur] is the piece being read,
    last character first. *)
Fixpoint split_runs_chars (p : ascii → bool) (cur : list ascii) (in_run : bool)
    (l : list ascii) : list string :=
  match l with
  | [] => [Str.of_chars (rev cur)]
  | c :: l' =>
      if p c then
        if in_run then split_runs_chars p cur true l'
        else Str.of_chars (rev cur) :: split_runs_chars p [] true l'
      else split_runs_chars p (c :: cur) false l'
  end.

(** [c.upper()] on the characters whose capital is a Latin-1 character.
    (The capitals of sharp s, micro sign and y with diaeresis are not; the
    generator capitalizes normalized identifiers only, which are ASCII.) *)
Definition upper_char (c : ascii) : ascii :=
  if Str.between 97 122 c || (Str.between 224 254 c && negb (Str.code c =? 247)%N)
  then ascii_of_N (Str.code c - 32)
  else c.

(** [word.capitalize()] *)
Definition capitalize (s : string) : string :=
  match s with
  | EmptyString => EmptyString
  | String c s' => String (upper_char c) (Str.lower s')
  end.

(** [" ".join(words)] *)
Fixpoint join (sep : string) (words : list string) : string :=
  match words with
  | [] => ""
  | [w] => w
  | w :: ws => w ++ sep ++ join sep ws
  end.

Definition _display_name (identifier : string) : string :=
  let words := split_runs_chars (Str.one_of "_/.-") [] false (Str.chars identifier) in
  Str.or_else (join " " (map capitalize (filter (λ w, Str.truthy w = true) words))) "Generated".

(** [_is_literal_identifier]: [[a-z0-9_.-]+:[a-z0-9/._-]+] *)
Definition literal_identifier_re : Re.regex :=
  Re.Cat (Re.Plus (Re.Cls id_namespace_class))
         (Re.Cat (Re.Chr ":") (Re.Plus (Re.Cls id_path_class))).

Definition _is_literal_identifier (value : string) : bool :=
  Re.fullmatch literal_identifier_re value.

Definition _resolve_item_like_id (value mod_id : string)
    (generated_items generated_blocks : gset string) : string :=
  if _is_literal_identifier value then value
  else
    let normalized := _normalize_id_path (Some value) "generated" in
    if bool_decide (normalized ∈ generated_items) || bool_decide (normalized ∈ generated_blocks)
    then mod_id ++ ":" ++ normalized
    else "minecraft:" ++ normalized.


(** *** [normalize_path] as the specification words it

    Lower-case, whitespace to underscore, characters outside the class
    removed, repeated underscores collapsed, separators trimmed, fallback
    when nothing is left. *)

Fixpoint collapse_underscores (l : list ascii) : list ascii :=
  match l with
  | [] => []
  | c :: l' =>
      match l' with
      | c' :: _ =>
          if Ascii.eqb c "_" && Ascii.eqb c' "_" then collapse_underscores l'
          else c :: collapse_underscores l'
      | [] => [c]
      end
  end.

Definition whitespace_to_underscore (c : ascii) : ascii :=
  if Str.isspace c then "_"%char else c.

Definition normalize_path_removing (raw : option string) (fallback : string) : string :=
  let s := map Str.lower_char (Str.chars (Str.opt_or raw "")) in
  let s := map whitespace_to_underscore s in
  let s := filter (λ c, id_path_class c = true) s in
  let s := collapse_underscores s in
  let s := Str.strip_chars (Str.one_of "_./-") s in
  Str.or_else (Str.of_chars s) fallback.

(** The same, with every character outside the class turned into an
    underscore instead of being removed. *)
Definition outside_to_underscore (c : ascii) : ascii :=
  if id_path_class c then c else "_"%char.

Definition normalize_path_replacing (raw : option string) (fallback : string) : string :=
  let s := map Str.lower_char (Str.chars (Str.opt_or raw "")) in
  let s := map whitespace_to_underscore s in
  let s := map outside_to_underscore s in
  let s := collapse_underscores s in
  let s := Str.strip_chars (Str.one_of "_./-") s in
  Str.or_else (Str.of_chars s) fallback.

(** ** JSON-compatible values and ordered dictionaries *)

#[local] Set Warnings "-register-all".

Inductive json : Type :=
| JNull
| JBool (b : bool)
| JInt (n : Z)
| JFloat (x : Q)
| JStr (s : string)
| JList (l : list json)
| JDict (d : list (string * json)).

Definition assoc (A : Type) : Type := list (string * A).

(** [d.get(k)] *)
Fixpoint assoc_get {A} (k : string) (d : assoc A) : option A :=
  match d with
  | [] => None
  | (k', v) :: d' => if String.eqb k' k then Some v else assoc_get k d'
  end.

(** [d[k] = v]: an existing key keeps its place, a new one goes last. *)
Fixpoint assoc_set {A} (k : string) (v : A) (d : assoc A) : assoc A :=
  match d with
  | [] => [(k, v)]
  | (k', v') :: d' =>
      if String.eqb k' k then (k, v) :: d' else (k', v') :: assoc_set k v d'
  end.

Definition opt_json {A} (f : A → json) (o : option A) : json :=
  match o with Some a => f a | None => JNull end.

(** The record of one [mod.sendConsole(command)] call. *)
Definition console_action (command : string) : json :=
  JDict [("type", JStr "console"); ("command", JStr command)].

(** [max(a, b)] on floats: [b] when it is strictly greater, else [a].
    Floats are the rationals they denote (no NaN, no infinity). *)
Definition float_max (a b : Q) : Q := if Qle_bool b a then a else b.

(** The doubles written [0.1] and [0.01]. *)
Definition float_0_1 : Q := 3602879701896397 # 36028797018963968.
Definition float_0_01 : Q := 5764607523034235 # 576460752303423488.

(** ** Module-level tables of the Fabric generator *)

Definition _RARITIES : assoc string :=
  [("common", "COMMON"); ("uncommon", "UNCOMMON"); ("rare", "RARE"); ("epic", "EPIC")].

Definition _RECIPE_TYPES : gset string :=
  {["shaped"; "shapeless"; "smelting"; "blasting"; "smoking"; "campfire_cooking"]}.

Definition _SPAWN_GROUPS : assoc string :=
  [("monster", "MONSTER"); ("creature", "CREATURE"); ("ambient", "AMBIENT");
   ("water_creature", "WATER_CREATURE"); ("water_ambient", "WATER_AMBIENT");
   ("underground_water_creature", "UNDERGROUND_WATER_CREATURE");
   ("axolotls", "AXOLOTLS"); ("misc", "MISC")].

Definition _WORLDGEN_FEATURE_ALIASES : assoc string :=
  [("minecraft:ore_diamond", "minecraft:ore_diamond_small")].

Definition _spawn_group_constant (value : string) : string :=
  default "CREATURE" (assoc_get (Str.strip (Str.lower value)) _SPAWN_GROUPS).

(** The backslash, the double quote and the single quote. *)
Definition backslash : ascii := "092"%char.
Definition double_quote : ascii := "034"%char.
Definition single_quote : ascii := "039"%char.

(** The lower-case hexadecimal digit of a value below 16. *)
Definition hex_char (d : Z) : ascii :=
  if (d <? 10)%Z then ascii_of_N (Z.to_N (48 + d)) else ascii_of_N (Z.to_N (87 + d)).

(** [c.isprintable()] on Latin-1: all but the control characters, the
    no-break space and the soft hyphen. *)
Definition isprintable (c : ascii) : bool :=
  Str.between 32 126 c || (Str.between 161 255 c && negb (Str.code c =? 173)%N).

(** [repr(s)] for a [str]: between single quotes, or between double
    quotes when [s] holds a single quote and no double quote; the quote
    in use and the backslash are escaped, TAB, LF and CR are written
    [\t], [\n], [\r], and every other character that is not printable
    is written [\xhh]. *)
Definition repr_char (quote c : ascii) : list ascii :=
  if Ascii.eqb c quote || Ascii.eqb c backslash then [backslash; c]
  else if (Str.code c =? 9)%N then [backslash; "t"%char]
  else if (Str.code c =? 10)%N then [backslash; "n"%char]
  else if (Str.code c =? 13)%N then [backslash; "r"%char]
  else if isprintable c then [c]
  else [backslash; "x"%char;
        hex_char (Z.of_N (Str.code c) / 16); hex_char (Z.of_N (Str.code c) mod 16)].

Definition repr (s : string) : string :=
  let l := Str.chars s in
  let quote :=
    if existsb (Ascii.eqb single_quote) l && negb (existsb (Ascii.eqb double_quote) l)
    then double_quote else single_quote in
  Str.of_chars (quote :: flat_map (repr_char quote) l ++ [quote]).

(** [int | str | None] arguments of [_parse_color] *)
Inductive color_arg : Type :=
| ColorInt (n : Z)
| ColorStr (s : string).

Definition hex_digit (c : ascii) : bool := Str.between 48 57 c || Str.between 97 102 c.

Definition hex_value (c : ascii) : Z :=
  if Str.between 48 57 c then Z.of_N (Str.code c) - 48
  else Z.of_N (Str.code c) - 87.

(** [int(text, 16)] on a string of hexadecimal digits *)
Definition int_hex (text : string) : Z :=
  fold_left (λ acc c, 16 * acc + hex_value c)%Z (Str.chars text) 0%Z.

Definition _parse_color (value : option color_arg) : Result (option Z) :=
  match value with
  | None => Ok None
  | Some (ColorInt n) => Ok (Some (Z.max 0 (Z.min n 16777215)))
  | Some (ColorStr s) =>
      let text := Str.lower (Str.strip s) in
      let text := if Str.startswith "#" text then Str.drop 1 text else text in
      let text := if Str.startswith "0x" text then Str.drop 2 text else text in
      if Re.fullmatch (Re.UpTo (Re.Cls hex_digit) 6) text
      then Ok (Some (int_hex text))
      else Raise (ValueError ("Invalid RGB color value: " ++ repr s))
  end.

Definition _deep_json_copy (payload : assoc json) : assoc json := payload.

(** ** Element classes

    Every element class of the repository has the same shape: its
    [__init__] validates and normalizes its keyword arguments and ends
    with [super().__init__(mod, name=..., **properties)]. A class is
    given by its constants, the type of its keyword arguments and
    [init_fields], the part of [__init__] before that call: from
    [mod.mod_id] and the arguments to the [name] and the properties handed
    to [BaseElement.__init__], or the exception raised.

    The properties of an element are the keyword arguments its class
    passes on; for the classes of the generator they are kept as the
    record of those fields, [properties_dict] giving the [dict]. *)

Module FabricItemProps.
Record t : Type := {
  identifier : string; display_name : string;
  texture : option string; model : option string; creative_tab : option string;
  max_count : Z; durability : option Z; fireproof : bool; rarity : string }.
End FabricItemProps.

Module FabricBlockProps.
Record t : Type := {
  identifier : string; display_name : string;
  texture : option string; model : option string;
  hardness : Q; resistance : Q; luminance : Z; requires_tool : bool;
  creative_tab : option string }.
End FabricBlockProps.

Module FabricRecipeProps.
Record t : Type := {
  identifier : string; recipe_type : string; output : string; count : Z;
  pattern : list string; key : assoc string; ingredients : list string;
  input_item : option string; experience : Q; cooking_time : Z }.
End FabricRecipeProps.

Module FabricTagProps.
Record t : Type := {
  registry : string; namespace : string; identifier : string;
  values : list string; replace : bool }.
End FabricTagProps.

Module FabricEntityProps.
Record t : Type := {
  identifier : string; display_name : string; spawn_group : string;
  width : Q; height : Q; max_health : Q; movement_speed : Q; attack_damage : Q;
  creative_tab : option string;
  spawn_egg_primary : option Z; spawn_egg_secondary : option Z;
  tracking_range : Z; tracked_update_rate : Z;
  force_tracked_velocity_updates : bool }.
End FabricEntityProps.

Module FabricWorldgenProps.
Record t : Type := {
  worldgen_type : string; identifier : string; namespace : string;
  payload : option (assoc json); payload_file : option string }.
End FabricWorldgenProps.

Module FabricTabProps.
Record t : Type := { identifier : string; display_name : string; icon : option string }.
End FabricTabProps.

Module FabricCommandProps.
Record t : Type := {
  identifier : string; literal : string; display_name : string;
  permission_level : Z; response : option string }.
End FabricCommandProps.

Module FabricBiomeProps.
Record t : Type := {
  identifier : string; display_name : string; namespace : string;
  payload : option (assoc json); payload_file : option string;
  temperature : Q; downfall : Q; has_precipitation : bool;
  sky_color : Z; fog_color : Z; water_color : Z; water_fog_color : Z }.
End FabricBiomeProps.

Inductive Properties : Type :=
| PBag (d : assoc json)
| PTab (p : FabricTabProps.t)
| PCommand (p : FabricCommandProps.t)
| PBiome (p : FabricBiomeProps.t)
| PItem (p : FabricItemProps.t)
| PBlock (p : FabricBlockProps.t)
| PRecipe (p : FabricRecipeProps.t)
| PTag (p : FabricTagProps.t)
| PEntity (p : FabricEntityProps.t)
| PWorldgen (p : FabricWorldgenProps.t).

Definition json_strs (l : list string) : json := JList (map JStr l).

(** [self.properties] as the [dict] it is, keys in keyword order. *)
Definition properties_dict (props : Properties) : assoc json :=
  match props with
  | PBag d => d
  | PItem p =>
      [("identifier", JStr (FabricItemProps.identifier p));
       ("display_name", JStr (FabricItemProps.display_name p));
       ("texture", opt_json JStr (FabricItemProps.texture p));
       ("model", opt_json JStr (FabricItemProps.model p));
       ("creative_tab", opt_json JStr (FabricItemProps.creative_tab p));
       ("max_count", JInt (FabricItemProps.max_count p));
       ("durability", opt_json JInt (FabricItemProps.durability p));
       ("fireproof", JBool (FabricItemProps.fireproof p));
       ("rarity", JStr (FabricItemProps.rarity p))]
  | PBlock p =>
      [("identifier", JStr (FabricBlockProps.identifier p));
       ("display_name", JStr (FabricBlockProps.display_name p));
       ("texture", opt_json JStr (FabricBlockProps.texture p));
       ("model", opt_json JStr (FabricBlockProps.model p));
       ("hardness", JFloat (FabricBlockProps.hardness p));
       ("resistance", JFloat (FabricBlockProps.resistance p));
       ("luminance", JInt (FabricBlockProps.luminance p));
       ("requires_tool", JBool (FabricBlockProps.requires_tool p));
       ("creative_tab", opt_json JStr (FabricBlockProps.creative_tab p))]
  | PRecipe p =>
      [("identifier", JStr (FabricRecipeProps.identifier p));
       ("recipe_type", JStr (FabricRecipeProps.recipe_type p));
       ("output", JStr (FabricRecipeProps.output p));
       ("count", JInt (FabricRecipeProps.count p));
       ("pattern", json_strs (FabricRecipeProps.pattern p));
       ("key", JDict (map (λ kv, (kv.1, JStr kv.2)) (FabricRecipeProps.key p)));
       ("ingredients", json_strs (FabricRecipeProps.ingredients p));
       ("input_item", opt_json JStr (FabricRecipeProps.input_item p));
       ("experience", JFloat (FabricRecipeProps.experience p));
       ("cooking_time", JInt (FabricRecipeProps.cooking_time p))]
  | PTag p =>
      [("registry", JStr (FabricTagProps.registry p));
       ("namespace", JStr (FabricTagProps.namespace p));
       ("identifier", JStr (FabricTagProps.identifier p));
       ("values", json_strs (FabricTagProps.values p));
       ("replace", JBool (FabricTagProps.replace p))]
  | PEntity p =>
      [("identifier", JStr (FabricEntityProps.identifier p));
       ("display_name", JStr (FabricEntityProps.display_name p));
       ("spawn_group", JStr (FabricEntityProps.spawn_group p));
       ("width", JFloat (FabricEntityProps.width p));
       ("height", JFloat (FabricEntityProps.height p));
       ("max_health", JFloat (FabricEntityProps.max_health p));
       ("movement_speed", JFloat (FabricEntityProps.movement_speed p));
       ("attack_damage", JFloat (FabricEntityProps.attack_damage p));
       ("creative_tab", opt_json JStr (FabricEntityProps.creative_tab p));
       ("spawn_egg_primary", opt_json JInt (FabricEntityProps.spawn_egg_primary p));
       ("spawn_egg_secondary", opt_json JInt (FabricEntityProps.spawn_egg_secondary p));
       ("tracking_range", JInt (FabricEntityProps.tracking_range p));
       ("tracked_update_rate", JInt (FabricEntityProps.tracked_update_rate p));
       ("force_tracked_velocity_updates",
        JBool (FabricEntityProps.force_tracked_velocity_updates p))]
  | PTab p =>
      [("identifier", JStr (FabricTabProps.identifier p));
       ("display_name", JStr (FabricTabProps.display_name p));
       ("icon", opt_json JStr (FabricTabProps.icon p))]
  | PCommand p =>
      [("identifier", JStr (FabricCommandProps.identifier p));
       ("literal", JStr (FabricCommandProps.literal p));
       ("display_name", JStr (FabricCommandProps.display_name p));
       ("permission_level", JInt (FabricCommandProps.permission_level p));
       ("response", opt_json JStr (FabricCommandProps.response p))]
  | PBiome p =>
      [("identifier", JStr (FabricBiomeProps.identifier p));
       ("display_name", JStr (FabricBiomeProps.display_name p));
       ("namespace", JStr (FabricBiomeProps.namespace p));
       ("payload", opt_json JDict (FabricBiomeProps.payload p));
       ("payload_file", opt_json JStr (FabricBiomeProps.payload_file p));
       ("temperature", JFloat (FabricBiomeProps.temperature p));
       ("downfall", JFloat (FabricBiomeProps.downfall p));
       ("has_precipitation", JBool (FabricBiomeProps.has_precipitation p));
       ("sky_color", JInt (FabricBiomeProps.sky_color p));
       ("fog_color", JInt (FabricBiomeProps.fog_color p));
       ("water_color", JInt (FabricBiomeProps.water_color p));
       ("water_fog_color", JInt (FabricBiomeProps.water_fog_color p))]
  | PWorldgen p =>
      [("worldgen_type", JStr (FabricWorldgenProps.worldgen_type p));
       ("identifier", JStr (FabricWorldgenProps.identifier p));
       ("namespace", JStr (FabricWorldgenProps.namespace p));
       ("payload", opt_json JDict (FabricWorldgenProps.payload p));
       ("payload_file", opt_json JStr (FabricWorldgenProps.payload_file p))]
  end.

Record ElementClass : Type := {
  class_name : string;
  KIND : string;
  EVENT_NAMES : list string;
  Args : Type;
  init_fields : string → Args → Result (option string * Properties) }.

(** [BaseElement] itself: [__init__(self, mod, *, name=None, **properties)] *)
Definition BaseElement : ElementClass := {|
  class_name := "BaseElement";
  KIND := "element";
  EVENT_NAMES := [];
  Args := option string * assoc json;
  init_fields := λ _ args, Ok (args.1, PBag args.2) |}.

(** tests/test_custom.py *)
Module SpellArgs.
Record t : Type := { mana_cost : Z; name : option string }.
Definition defaults : t := {| mana_cost := 1; name := None |}.
End SpellArgs.

Definition Spell : ElementClass := {|
  class_name := "Spell";
  KIND := "spell";
  EVENT_NAMES := ["Cast"];
  Args := SpellArgs.t;
  init_fields := λ _ a,
    Ok (SpellArgs.name a, PBag [("mana_cost", JInt (SpellArgs.mana_cost a))]) |}.

(** *** The classes of the Fabric generator *)

(** [_normalize_id_path(creative_tab, "") if creative_tab else None] *)
Definition normalize_creative_tab (creative_tab : option string) : option string :=
  match creative_tab with
  | Some tab => if Str.truthy tab then Some (_normalize_id_path (Some tab) "") else None
  | None => None
  end.

Module FabricTabArgs.
Record t : Type := { identifier : option string; name : option string; icon : option string }.
Definition defaults : t := {| identifier := None; name := None; icon := None |}.
End FabricTabArgs.

Definition FabricTab_init (mod_id : string) (a : FabricTabArgs.t)
    : Result (option string * Properties) :=
  let tab_id :=
    _normalize_id_path
      (Str.opt_or_opt (FabricTabArgs.identifier a) (FabricTabArgs.name a)) "tab" in
  let display_name := Str.opt_or (FabricTabArgs.name a) (_display_name tab_id) in
  Ok (Some tab_id,
      PTab {|
        FabricTabProps.identifier := tab_id;
        FabricTabProps.display_name := display_name;
        FabricTabProps.icon := FabricTabArgs.icon a |}).

Definition FabricTab : ElementClass := {|
  class_name := "FabricTab";
  KIND := "tab";
  EVENT_NAMES := [];
  Args := FabricTabArgs.t;
  init_fields := FabricTab_init |}.

Module FabricItemArgs.
Record t : Type := {
  identifier : option string; name : option string;
  texture : option string; model : option string; creative_tab : option string;
  max_count : Z; durability : option Z; fireproof : bool; rarity : string }.
Definition defaults : t := {|
  identifier := None; name := None; texture := None; model := None;
  creative_tab := None; max_count := 64; durability := None; fireproof := false;
  rarity := "common" |}.
End FabricItemArgs.

Definition FabricItem_init (mod_id : string) (a : FabricItemArgs.t)
    : Result (option string * Properties) :=
  let item_id :=
    _normalize_id_path
      (Str.opt_or_opt (FabricItemArgs.identifier a) (FabricItemArgs.name a)) "item" in
  let display_name := Str.opt_or (FabricItemArgs.name a) (_display_name item_id) in
  let rarity_name :=
    default "COMMON" (assoc_get (Str.lower (FabricItemArgs.rarity a)) _RARITIES) in
  Ok (Some item_id,
      PItem {|
        FabricItemProps.identifier := item_id;
        FabricItemProps.display_name := display_name;
        FabricItemProps.texture := FabricItemArgs.texture a;
        FabricItemProps.model := FabricItemArgs.model a;
        FabricItemProps.creative_tab := normalize_creative_tab (FabricItemArgs.creative_tab a);
        FabricItemProps.max_count := Z.max 1 (FabricItemArgs.max_count a);
        FabricItemProps.durability := Z.max 1 <$> FabricItemArgs.durability a;
        FabricItemProps.fireproof := FabricItemArgs.fireproof a;
        FabricItemProps.rarity := rarity_name |}).

Definition FabricItem : ElementClass := {|
  class_name := "FabricItem";
  KIND := "item";
  EVENT_NAMES := ["Drop"; "Use"];
  Args := FabricItemArgs.t;
  init_fields := FabricItem_init |}.

Module FabricBlockArgs.
Record t : Type := {
  identifier : option string; name : option string;
  texture : option string; model : option string;
  hardness : Q; resistance : option Q; luminance : Z; requires_tool : bool;
  creative_tab : option string }.
Definition defaults : t := {|
  identifier := None; name := None; texture := None; model := None;
  hardness := 3 # 2; resistance := None; luminance := 0; requires_tool := false;
  creative_tab := None |}.
End FabricBlockArgs.

Definition FabricBlock_init (mod_id : string) (a : FabricBlockArgs.t)
    : Result (option string * Properties) :=
  let block_id :=
    _normalize_id_path
      (Str.opt_or_opt (FabricBlockArgs.identifier a) (FabricBlockArgs.name a)) "block" in
  let display_name := Str.opt_or (FabricBlockArgs.name a) (_display_name block_id) in
  let resistance_value := default (FabricBlockArgs.hardness a) (FabricBlockArgs.resistance a) in
  Ok (Some block_id,
      PBlock {|
        FabricBlockProps.identifier := block_id;
        FabricBlockProps.display_name := display_name;
        FabricBlockProps.texture := FabricBlockArgs.texture a;
        FabricBlockProps.model := FabricBlockArgs.model a;
        FabricBlockProps.hardness := FabricBlockArgs.hardness a;
        FabricBlockProps.resistance := resistance_value;
        FabricBlockProps.luminance := Z.max 0 (FabricBlockArgs.luminance a);
        FabricBlockProps.requires_tool := FabricBlockArgs.requires_tool a;
        FabricBlockProps.creative_tab :=
          normalize_creative_tab (FabricBlockArgs.creative_tab a) |}).

Definition FabricBlock : ElementClass := {|
  class_name := "FabricBlock";
  KIND := "block";
  EVENT_NAMES := ["Break"; "Place"];
  Args := FabricBlockArgs.t;
  init_fields := FabricBlock_init |}.

Module FabricRecipeArgs.
Record t : Type := {
  recipe_type : string; output : string; identifier : option string; count : Z;
  pattern : option (list string); key : option (assoc string);
  ingredients : option (list string); input_item : option string;
  experience : Q; cooking_time : Z }.
(** [recipe_type] and [output] are required. *)
Definition defaults (recipe_type output : string) : t := {|
  recipe_type := recipe_type; output := output; identifier := None; count := 1;
  pattern := None; key := None; ingredients := None; input_item := None;
  experience := 0; cooking_time := 200 |}.
End FabricRecipeArgs.

(** [x or []] for an optional list; [not x] is [or_nil x = []] *)
Definition or_nil {A} (o : option (list A)) : list A := default [] o.

Definition is_nil {A} (l : list A) : bool :=
  match l with [] => true | _ => false end.

Definition FabricRecipe_init (mod_id : string) (a : FabricRecipeArgs.t)
    : Result (option string * Properties) :=
  let recipe_type := FabricRecipeArgs.recipe_type a in
  let output := FabricRecipeArgs.output a in
  let kind := Str.strip (Str.lower recipe_type) in
  if negb (bool_decide (kind ∈ _RECIPE_TYPES)) then
    Raise (ValueError ("Unsupported recipe_type '" ++ recipe_type ++
      "'. Supported: blasting, campfire_cooking, shaped, shapeless, smelting, smoking"))
  else if String.eqb kind "shaped" &&
          (is_nil (or_nil (FabricRecipeArgs.pattern a)) ||
           is_nil (or_nil (FabricRecipeArgs.key a))) then
    Raise (ValueError "Shaped recipes require `pattern` and `key`.")
  else if String.eqb kind "shapeless" && is_nil (or_nil (FabricRecipeArgs.ingredients a)) then
    Raise (ValueError "Shapeless recipes require `ingredients`.")
  else if bool_decide (kind ∈ ({["smelting"; "blasting"; "smoking"; "campfire_cooking"]}
                                : gset string)) &&
          negb (Str.truthy (Str.opt_or (FabricRecipeArgs.input_item a) "")) then
    Raise (ValueError (kind ++ " recipes require `input_item`."))
  else
    let recipe_id :=
      _normalize_id_path
        (Some (Str.opt_or (FabricRecipeArgs.identifier a) (kind ++ "_" ++ output)))
        (kind ++ "_recipe") in
    Ok (Some recipe_id,
        PRecipe {|
          FabricRecipeProps.identifier := recipe_id;
          FabricRecipeProps.recipe_type := kind;
          FabricRecipeProps.output := output;
          FabricRecipeProps.count := Z.max 1 (FabricRecipeArgs.count a);
          FabricRecipeProps.pattern := or_nil (FabricRecipeArgs.pattern a);
          FabricRecipeProps.key := or_nil (FabricRecipeArgs.key a);
          FabricRecipeProps.ingredients := or_nil (FabricRecipeArgs.ingredients a);
          FabricRecipeProps.input_item := FabricRecipeArgs.input_item a;
          FabricRecipeProps.experience := FabricRecipeArgs.experience a;
          FabricRecipeProps.cooking_time := Z.max 1 (FabricRecipeArgs.cooking_time a) |}).

Definition FabricRecipe : ElementClass := {|
  class_name := "FabricRecipe";
  KIND := "recipe";
  EVENT_NAMES := [];
  Args := FabricRecipeArgs.t;
  init_fields := FabricRecipe_init |}.

Module FabricTagArgs.
Record t : Type := {
  registry : string; identifier : string; values : list string; replace : bool }.
End FabricTagArgs.

Definition FabricTag_init (mod_id : string) (a : FabricTagArgs.t)
    : Result (option string * Properties) :=
  let reg := Str.strip (Str.lower (FabricTagArgs.registry a)) in
  if negb (bool_decide (reg ∈ ({["item"; "block"]} : gset string))) then
    Raise (ValueError "Tag `registry` must be 'item' or 'block'.")
  else
    let '(ns, path) := _split_namespaced_id (FabricTagArgs.identifier a) mod_id in
    let name := _normalize_id_path (Some (ns ++ "_" ++ path)%string) "tag" in
    Ok (Some name,
        PTag {|
          FabricTagProps.registry := reg;
          FabricTagProps.namespace := ns;
          FabricTagProps.identifier := path;
          FabricTagProps.values := FabricTagArgs.values a;
          FabricTagProps.replace := FabricTagArgs.replace a |}).

Definition FabricTag : ElementClass := {|
  class_name := "FabricTag";
  KIND := "tag";
  EVENT_NAMES := [];
  Args := FabricTagArgs.t;
  init_fields := FabricTag_init |}.

Module FabricCommandArgs.
Record t : Type := {
  literal : option string; identifier : option string; name : option string;
  permission_level : Z; response : option string }.
Definition defaults : t := {|
  literal := None; identifier := None; name := None; permission_level := 2;
  response := None |}.
End FabricCommandArgs.

Definition FabricCommand_init (mod_id : string) (a : FabricCommandArgs.t)
    : Result (option string * Properties) :=
  let literal_name :=
    _normalize_command_literal
      (Str.opt_or_opt (FabricCommandArgs.literal a)
         (Str.opt_or_opt (FabricCommandArgs.identifier a) (FabricCommandArgs.name a)))
      "modpy" in
  let command_id :=
    _normalize_id_path (Some (Str.opt_or (FabricCommandArgs.identifier a) literal_name))
      literal_name in
  let display_name := Str.opt_or (FabricCommandArgs.name a) (_display_name command_id) in
  Ok (Some command_id,
      PCommand {|
        FabricCommandProps.identifier := command_id;
        FabricCommandProps.literal := literal_name;
        FabricCommandProps.display_name := display_name;
        FabricCommandProps.permission_level :=
          Z.max 0 (FabricCommandArgs.permission_level a);
        FabricCommandProps.response := FabricCommandArgs.response a |}).

Definition FabricCommand : ElementClass := {|
  class_name := "FabricCommand";
  KIND := "command";
  EVENT_NAMES := ["Execute"];
  Args := FabricCommandArgs.t;
  init_fields := FabricCommand_init |}.

Module FabricEntityArgs.
Record t : Type := {
  identifier : option string; name : option string; spawn_group : string;
  width : Q; height : Q; max_health : Q; movement_speed : Q; attack_damage : Q;
  creative_tab : option string;
  spawn_egg_primary : option color_arg; spawn_egg_secondary : option color_arg;
  tracking_range : Z; tracked_update_rate : Z;
  force_tracked_velocity_updates : bool }.
Definition defaults : t := {|
  identifier := None; name := None; spawn_group := "creature";
  width := 5404319552844595 # 9007199254740992;
  height := 8782019273372467 # 4503599627370496;
  max_health := 20; movement_speed := 1 # 4; attack_damage := 2;
  creative_tab := None; spawn_egg_primary := None; spawn_egg_secondary := None;
  tracking_range := 8; tracked_update_rate := 3;
  force_tracked_velocity_updates := false |}.
End FabricEntityArgs.

Definition FabricEntity_init (mod_id : string) (a : FabricEntityArgs.t)
    : Result (option string * Properties) :=
  let entity_id :=
    _normalize_id_path
      (Str.opt_or_opt (FabricEntityArgs.identifier a) (FabricEntityArgs.name a)) "entity" in
  let display_name := Str.opt_or (FabricEntityArgs.name a) (_display_name entity_id) in
  rbind (_parse_color (FabricEntityArgs.spawn_egg_primary a)) (λ primary,
  rbind (_parse_color (FabricEntityArgs.spawn_egg_secondary a)) (λ secondary,
  let secondary := match primary, secondary with Some _, None => primary | _, _ => secondary end in
  let primary := match secondary, primary with Some _, None => secondary | _, _ => primary end in
  Ok (Some entity_id,
      PEntity {|
        FabricEntityProps.identifier := entity_id;
        FabricEntityProps.display_name := display_name;
        FabricEntityProps.spawn_group :=
          _spawn_group_constant (FabricEntityArgs.spawn_group a);
        FabricEntityProps.width := float_max float_0_1 (FabricEntityArgs.width a);
        FabricEntityProps.height := float_max float_0_1 (FabricEntityArgs.height a);
        FabricEntityProps.max_health := float_max 1 (FabricEntityArgs.max_health a);
        FabricEntityProps.movement_speed :=
          float_max float_0_01 (FabricEntityArgs.movement_speed a);
        FabricEntityProps.attack_damage := float_max 0 (FabricEntityArgs.attack_damage a);
        FabricEntityProps.creative_tab :=
          normalize_creative_tab (FabricEntityArgs.creative_tab a);
        FabricEntityProps.spawn_egg_primary := primary;
        FabricEntityProps.spawn_egg_secondary := secondary;
        FabricEntityProps.tracking_range := Z.max 1 (FabricEntityArgs.tracking_range a);
        FabricEntityProps.tracked_update_rate :=
          Z.max 1 (FabricEntityArgs.tracked_update_rate a);
        FabricEntityProps.force_tracked_velocity_updates :=
          FabricEntityArgs.force_tracked_velocity_updates a |}))).

Definition FabricEntity : ElementClass := {|
  class_name := "FabricEntity";
  KIND := "entity";
  EVENT_NAMES := ["Spawn"; "Death"];
  Args := FabricEntityArgs.t;
  init_fields := FabricEntity_init |}.

Module FabricBiomeArgs.
Record t : Type := {
  identifier : option string; name : option string; namespace : option string;
  payload : option (assoc json); payload_file : option string;
  temperature : Q; downfall : Q; has_precipitation : bool;
  sky_color : Z; fog_color : Z; water_color : Z; water_fog_color : Z }.
Definition defaults : t := {|
  identifier := None; name := None; namespace := None; payload := None;
  payload_file := None;
  temperature := 3602879701896397 # 4503599627370496;
  downfall := 3602879701896397 # 9007199254740992;
  has_precipitation := true;
  sky_color := 7907327; fog_color := 12638463; water_color := 4159204;
  water_fog_color := 329011 |}.
End FabricBiomeArgs.

(** [_normalize_id_path(namespace, mod.mod_id) if namespace else mod.mod_id] *)
Definition normalize_namespace (namespace : option string) (mod_id : string) : string :=
  match namespace with
  | Some ns => if Str.truthy ns then _normalize_id_path (Some ns) mod_id else mod_id
  | None => mod_id
  end.

Definition FabricBiome_init (mod_id : string) (a : FabricBiomeArgs.t)
    : Result (option string * Properties) :=
  match FabricBiomeArgs.payload a, FabricBiomeArgs.payload_file a with
  | Some _, Some _ =>
      Raise (ValueError "Provide at most one of `payload` or `payload_file` for Biome.")
  | _, _ =>
      let biome_id :=
        _normalize_id_path
          (Str.opt_or_opt (FabricBiomeArgs.identifier a) (FabricBiomeArgs.name a)) "biome" in
      let display_name := Str.opt_or (FabricBiomeArgs.name a) (_display_name biome_id) in
      let biome_namespace := normalize_namespace (FabricBiomeArgs.namespace a) mod_id in
      Ok (Some biome_id,
          PBiome {|
            FabricBiomeProps.identifier := biome_id;
            FabricBiomeProps.display_name := display_name;
            FabricBiomeProps.namespace := biome_namespace;
            FabricBiomeProps.payload := _deep_json_copy <$> FabricBiomeArgs.payload a;
            FabricBiomeProps.payload_file := FabricBiomeArgs.payload_file a;
            FabricBiomeProps.temperature := FabricBiomeArgs.temperature a;
            FabricBiomeProps.downfall := FabricBiomeArgs.downfall a;
            FabricBiomeProps.has_precipitation := FabricBiomeArgs.has_precipitation a;
            FabricBiomeProps.sky_color := Z.max 0 (FabricBiomeArgs.sky_color a);
            FabricBiomeProps.fog_color := Z.max 0 (FabricBiomeArgs.fog_color a);
            FabricBiomeProps.water_color := Z.max 0 (FabricBiomeArgs.water_color a);
            FabricBiomeProps.water_fog_color :=
              Z.max 0 (FabricBiomeArgs.water_fog_color a) |})
  end.

Definition FabricBiome : ElementClass := {|
  class_name := "FabricBiome";
  KIND := "biome";
  EVENT_NAMES := [];
  Args := FabricBiomeArgs.t;
  init_fields := FabricBiome_init |}.

Module FabricWorldgenArgs.
Record t : Type := {
  worldgen_type : string; identifier : string; namespace : option string;
  payload : option (assoc json); payload_file : option string }.
End FabricWorldgenArgs.

Definition FabricWorldgen_init (mod_id : string) (a : FabricWorldgenArgs.t)
    : Result (option string * Properties) :=
  match FabricWorldgenArgs.payload a, FabricWorldgenArgs.payload_file a with
  | Some _, Some _ =>
      Raise (ValueError "Provide at most one of `payload` or `payload_file` for Worldgen.")
  | _, _ =>
      let wg_type :=
        _normalize_id_path (Some (FabricWorldgenArgs.worldgen_type a)) "placed_feature" in
      let wg_id := _normalize_id_path (Some (FabricWorldgenArgs.identifier a)) "worldgen" in
      let wg_namespace := normalize_namespace (FabricWorldgenArgs.namespace a) mod_id in
      Ok (Some (_normalize_id_path (Some (wg_type ++ "_" ++ wg_id)%string) "worldgen"),
          PWorldgen {|
            FabricWorldgenProps.worldgen_type := wg_type;
            FabricWorldgenProps.identifier := wg_id;
            FabricWorldgenProps.namespace := wg_namespace;
            FabricWorldgenProps.payload := _deep_json_copy <$> FabricWorldgenArgs.payload a;
            FabricWorldgenProps.payload_file := FabricWorldgenArgs.payload_file a |})
  end.

Definition FabricWorldgen : ElementClass := {|
  class_name := "FabricWorldgen";
  KIND := "worldgen";
  EVENT_NAMES := [];
  Args := FabricWorldgenArgs.t;
  init_fields := FabricWorldgen_init |}.

(** ** The generator registry (generators/registry.py) *)

Module Generator.
Record t : Type := {
  key : string;
  element_types : gmap string ElementClass }.
End Generator.

(** The state of [_GENERATORS]. Each operation returns its outcome and
    the table it leaves. *)
Definition register_generator (generator : Generator.t) (replace : bool)
    (_GENERATORS : gmap string Generator.t) : Result unit * gmap string Generator.t :=
  let key := Generator.key generator in
  if negb (Str.truthy key) then
    (Raise (ValueError "Generator key must be a non-empty string"), _GENERATORS)
  else if bool_decide (is_Some (_GENERATORS !! key)) && negb replace then
    (Raise (KeyError ("Generator '" ++ key ++ "' is already registered")), _GENERATORS)
  else (Ok (), <[key := generator]> _GENERATORS).

Definition get_generator (key : string) (_GENERATORS : gmap string Generator.t)
    : Result Generator.t :=
  match _GENERATORS !! key with
  | Some generator => Ok generator
  | None => Raise (KeyError key)
  end.

(** [sorted(_GENERATORS)]: the keys, in the order of [str] comparison *)
Definition list_generators (_GENERATORS : gmap string Generator.t) : list string :=
  merge_sort String.le (elements (dom _GENERATORS)).

(** ** The object store

    A [Mod], an element and a list of captured actions are objects that
    several places refer to and that are mutated in place; a reference is
    the index of the object in its table. Objects are never removed. *)

Module ModObj.
Record t : Type := {
  author : string;
  mod_id : string;
  name : string;
  version : string;
  generator : string;
  elements : list nat;                 (* references to elements *)
  startup_actions : list json;
  _action_capture_stack : list nat;    (* references to action lists *)
  _generator : Generator.t }.

Definition set_elements (f : list nat → list nat) (m : t) : t :=
  {| author := author m; mod_id := mod_id m; name := name m; version := version m;
     generator := generator m; elements := f (elements m);
     startup_actions := startup_actions m;
     _action_capture_stack := _action_capture_stack m; _generator := _generator m |}.

Definition set_startup_actions (f : list json → list json) (m : t) : t :=
  {| author := author m; mod_id := mod_id m; name := name m; version := version m;
     generator := generator m; elements := elements m;
     startup_actions := f (startup_actions m);
     _action_capture_stack := _action_capture_stack m; _generator := _generator m |}.

Definition set_stack (f : list nat → list nat) (m : t) : t :=
  {| author := author m; mod_id := mod_id m; name := name m; version := version m;
     generator := generator m; elements := elements m;
     startup_actions := startup_actions m;
     _action_capture_stack := f (_action_capture_stack m); _generator := _generator m |}.
End ModObj.

Module ElementObj.
Record t : Type := {
  cls : ElementClass;                  (* the class of the object *)
  mod_ : nat;                          (* [mod]: reference to the owning Mod *)
  name : string;
  properties : Properties;
  events : assoc (list nat) }.         (* event name to references to action lists *)

Definition set_events (f : assoc (list nat) → assoc (list nat)) (e : t) : t :=
  {| cls := cls e; mod_ := mod_ e; name := name e; properties := properties e;
     events := f (events e) |}.
End ElementObj.

Record Store : Type := {
  mods : list ModObj.t;
  elems : list ElementObj.t;
  lists : list (list json) }.

Definition empty_store : Store := {| mods := []; elems := []; lists := [] |}.

Definition set_mods (f : list ModObj.t → list ModObj.t) (σ : Store) : Store :=
  {| mods := f (mods σ); elems := elems σ; lists := lists σ |}.
Definition set_elems (f : list ElementObj.t → list ElementObj.t) (σ : Store) : Store :=
  {| mods := mods σ; elems := f (elems σ); lists := lists σ |}.
Definition set_lists (f : list (list json) → list (list json)) (σ : Store) : Store :=
  {| mods := mods σ; elems := elems σ; lists := f (lists σ) |}.

(** A call that mutates a state [S] and may raise: the outcome and the
    state it leaves. *)
Definition ST (S A : Type) : Type := S → Result A * S.

Definition ret {S A} (a : A) : ST S A := λ σ, (Ok a, σ).
Definition throw {S A} (e : exn) : ST S A := λ σ, (Raise e, σ).
Definition bind {S A B} (c : ST S A) (k : A → ST S B) : ST S B :=
  λ σ, match c σ with
       | (Ok a, σ') => k a σ'
       | (Raise e, σ') => (Raise e, σ')
       end.

(** [try: body finally: cleanup]: [cleanup] runs on both exits; an
    exception of [cleanup] replaces the outcome of [body]. *)
Definition try_finally {S A} (body : ST S A) (cleanup : ST S unit) : ST S A :=
  λ σ, match body σ with
       | (r, σ') =>
           match cleanup σ' with
           | (Ok _, σ'') => (r, σ'')
           | (Raise e, σ'') => (Raise e, σ'')
           end
       end.

(** Calls on the object store. *)
Abbreviation M := (ST Store).

Notation "'let!' x ':=' c 'in' k" := (bind c (λ x, k))
  (at level 10, x name, c at level 100, k at level 200).
Notation "'do!' c 'in' k" := (bind c (λ _, k))
  (at level 10, c at level 100, k at level 200).

Definition get_mod (m : nat) : M ModObj.t :=
  λ σ, match mods σ !! m with Some o => (Ok o, σ) | None => (Raise InvalidRef, σ) end.
Definition get_elem (e : nat) : M ElementObj.t :=
  λ σ, match elems σ !! e with Some o => (Ok o, σ) | None => (Raise InvalidRef, σ) end.
Definition get_list (a : nat) : M (list json) :=
  λ σ, match lists σ !! a with Some o => (Ok o, σ) | None => (Raise InvalidRef, σ) end.

Definition update_mod (m : nat) (f : ModObj.t → ModObj.t) : M unit :=
  λ σ, match mods σ !! m with
       | Some _ => (Ok (), set_mods (alter f m) σ)
       | None => (Raise InvalidRef, σ)
       end.
Definition update_elem (e : nat) (f : ElementObj.t → ElementObj.t) : M unit :=
  λ σ, match elems σ !! e with
       | Some _ => (Ok (), set_elems (alter f e) σ)
       | None => (Raise InvalidRef, σ)
       end.
Definition update_list (a : nat) (f : list json → list json) : M unit :=
  λ σ, match lists σ !! a with
       | Some _ => (Ok (), set_lists (alter f a) σ)
       | None => (Raise InvalidRef, σ)
       end.

(** A new, empty [list] object. *)
Definition new_list : M nat :=
  λ σ, (Ok (length (lists σ)), set_lists (λ ls, ls ++ [[]]) σ).
Definition new_elem (o : ElementObj.t) : M nat :=
  λ σ, (Ok (length (elems σ)), set_elems (λ es, es ++ [o]) σ).
Definition new_mod (o : ModObj.t) : M nat :=
  λ σ, (Ok (length (mods σ)), set_mods (λ ms, ms ++ [o]) σ).

(** [[f(x) for x in xs]] for a call [f] on the state *)
Fixpoint mapM {S A B} (f : A → ST S B) (xs : list A) : ST S (list B) :=
  match xs with
  | [] => ret []
  | x :: xs' =>
      let! y := f x in
      let! ys := mapM f xs' in
      ret (y :: ys)
  end.

(** ** The element model (elements.py) *)

Module Element.

(** [BaseElement.__init__(self, mod, *, name=None, **properties)], for
    an object of class [cls] *)
Definition __init__ (cls : ElementClass) (mod_ : nat) (name : option string)
    (properties : Properties) : M nat :=
  new_elem {|
    ElementObj.cls := cls;
    ElementObj.mod_ := mod_;
    ElementObj.name := Str.opt_or name (KIND cls);
    ElementObj.properties := properties;
    ElementObj.events := [] |}.

(** [cls(mod, ...)]: the [__init__] of [cls], which ends in
    [BaseElement.__init__] *)
Definition construct (cls : ElementClass) (mod_ : nat) (args : Args cls) : M nat :=
  let! o := get_mod mod_ in
  match init_fields cls (ModObj.mod_id o) args with
  | Raise e => throw e
  | Ok (name, properties) => __init__ cls mod_ name properties
  end.

(** One event slot, its action lists read from the store. *)
Definition event_json (slot : string * list nat) : M (string * json) :=
  let! recorded := mapM get_list slot.2 in
  ret (slot.1, JList (map JList recorded)).

(** [to_dict(self)] *)
Definition to_dict (self : nat) : M json :=
  let! o := get_elem self in
  let! events := mapM event_json (ElementObj.events o) in
  ret (JDict [("kind", JStr (KIND (ElementObj.cls o)));
              ("name", JStr (ElementObj.name o));
              ("properties", JDict (properties_dict (ElementObj.properties o)));
              ("events", JDict events)]).

End Element.

(** ** The Mod aggregate (mod.py) *)

Module Mod.

(** [Mod(author=, generator=, mod_id=, name=, version=)]. The registry
    is read when the object is constructed. *)
Definition __init__ (_GENERATORS : gmap string Generator.t)
    (author generator mod_id name version : string) : M nat :=
  match get_generator generator _GENERATORS with
  | Raise e => throw e
  | Ok g =>
      new_mod {|
        ModObj.author := author; ModObj.mod_id := mod_id; ModObj.name := name;
        ModObj.version := version; ModObj.generator := generator;
        ModObj.elements := []; ModObj.startup_actions := [];
        ModObj._action_capture_stack := []; ModObj._generator := g |}
  end.

(** The callable [factory] that [__getattr__] returns: a closure over
    [element_type] and [self]. *)
Record factory : Type := { element_type : ElementClass; self_ : nat }.

(** [factory(...)]: the call of the closure with keyword arguments *)
Definition call (f : factory) (kwargs : Args (element_type f)) : M nat :=
  Element.construct (element_type f) (self_ f) kwargs.

(** [__getattr__(self, name)], the hook Python calls for an attribute
    that is neither a field nor a method of the object *)
Definition __getattr__ (self : nat) (name : string) : M factory :=
  let! o := get_mod self in
  match Generator.element_types (ModObj._generator o) !! name with
  | None => throw (AttributeError name)
  | Some element_type => ret {| element_type := element_type; self_ := self |}
  end.

Definition default_mod_id : string := "examplemod".
Definition default_name : string := "Example Mod".
Definition default_version : string := "0.1.0".

(** [_run_action_capture(self, func)]; [func] is any callable on the store. *)
Definition _run_action_capture (self : nat) (func : M unit) : M nat :=
  let! actions := new_list in
  do! update_mod self (ModObj.set_stack (λ st, st ++ [actions])) in
  do! try_finally func
        (let! o := get_mod self in
         match ModObj._action_capture_stack o with
         | [] => throw (IndexError "pop from empty list")
         | _ => update_mod self (ModObj.set_stack (removelast (A:=nat)))
         end) in
  ret actions.

(** [sendConsole(self, command)] *)
Definition sendConsole (self : nat) (command : string) : M unit :=
  let action := console_action command in
  let! o := get_mod self in
  match last (ModObj._action_capture_stack o) with
  | Some top => update_list top (λ acts, acts ++ [action])
  | None =>
      update_mod self (ModObj.set_startup_actions (λ acts, acts ++ [action]))
  end.

(** [add(self, element)] *)
Definition add (self : nat) (element : nat) : M nat :=
  do! update_mod self (ModObj.set_elements (λ es, es ++ [element])) in
  ret element.

(** [to_manifest(self)] *)
Definition to_manifest (self : nat) : M json :=
  let! o := get_mod self in
  let! elements := mapM Element.to_dict (ModObj.elements o) in
  ret (JDict [("author", JStr (ModObj.author o));
              ("generator", JStr (ModObj.generator o));
              ("mod_id", JStr (ModObj.mod_id o));
              ("name", JStr (ModObj.name o));
              ("version", JStr (ModObj.version o));
              ("startup_actions", JList (ModObj.startup_actions o));
              ("elements", JList elements)]).

End Mod.

(** *** Event registration: [@element.Event.<name>] *)

Module _ElementEventNamespace.

(** [__getattr__(self, name)(func)]: the attribute lookup and the call
    of the decorator it returns *)
Definition __getattr__ (element : nat) (name : string) (func : M unit) : M unit :=
  let! o := get_elem element in
  if negb (bool_decide (name ∈ EVENT_NAMES (ElementObj.cls o))) then
    throw (AttributeError
             (class_name (ElementObj.cls o) ++ " has no event '" ++ name ++ "'"))
  else
    let! actions := Mod._run_action_capture (ElementObj.mod_ o) func in
    update_elem element
      (ElementObj.set_events
         (λ events, assoc_set name (default [] (assoc_get name events) ++ [actions]) events)).

End _ElementEventNamespace.

(** ** Handlers

    A handler is a zero-argument procedure that uses the declaration API:
    it sends console commands, registers handlers in turn, returns or
    raises. *)

Inductive proc : Type :=
| Return
| Throw (e : exn)
| SendConsole (mod_ : nat) (command : string) (next : proc)
| OnEvent (element : nat) (event : string) (handler : proc) (next : proc).

Fixpoint exec (p : proc) : M unit :=
  match p with
  | Return => ret ()
  | Throw e => throw e
  | SendConsole mod_ command next =>
      do! Mod.sendConsole mod_ command in exec next
  | OnEvent element event handler next =>
      do! _ElementEventNamespace.__getattr__ element event (exec handler) in exec next
  end.

(** [def handler(): mod.sendConsole(c1); ...; mod.sendConsole(cn)] *)
Definition sends (mod_ : nat) (commands : list string) : proc :=
  fold_right (SendConsole mod_) Return commands.

(** ** Paths and the file system

    A path is the list of its components, as [pathlib] keeps them: empty
    components and [.] are dropped when a string is parsed, [..] is kept,
    an absolute path starts with the component ["/"]. The file system
    maps the resolved path of every regular file to its text; a directory
    exists when some file lies below it. Paths are resolved lexically:
    there are no symbolic links. *)

Module Path.

Abbreviation t := (list string).

Definition parts (s : string) : list string :=
  filter (λ c, c ≠ "" ∧ c ≠ ".")
    (split_runs_chars (Ascii.eqb "/") [] false (Str.chars s)).

(** [p / segment] *)
Definition div (p : t) (segment : string) : t :=
  if Str.startswith "/" segment then "/" :: parts segment else p ++ parts segment.

(** [Path(s)] *)
Definition of_string (s : string) : t := div [] s.

(** [p.parent] *)
Definition parent (p : t) : t := removelast p.

Fixpoint resolve_onto (seen : list string) (p : t) : t :=
  match p with
  | [] => rev seen
  | c :: p' =>
      if String.eqb c ".." then
        match seen with
        | [] => resolve_onto [".."] p'
        | top :: below =>
            if String.eqb top "/" then resolve_onto seen p'
            else if String.eqb top ".." then resolve_onto (".." :: seen) p'
            else resolve_onto below p'
        end
      else resolve_onto (c :: seen) p'
  end.

(** The path with its [..] steps taken. *)
Definition resolve (p : t) : t := resolve_onto [] p.

(** The name [n] cut before its last dot, when that dot is neither its
    first nor its last character ([n] without its suffix). [after] holds
    the characters already passed, [r] the others, last first. *)
Fixpoint stem_chars (r after : list ascii) : option (list ascii) :=
  match r with
  | [] => None
  | c :: r' =>
      if Ascii.eqb c "." then
        match r', after with
        | _ :: _, _ :: _ => Some (rev r')
        | _, _ => None
        end
      else stem_chars r' (c :: after)
  end.

Definition stem (name : string) : string :=
  match stem_chars (rev (Str.chars name)) [] with
  | Some s => Str.of_chars s
  | None => name
  end.

(** [p.with_suffix(suffix)] *)
Definition with_suffix (suffix : string) (p : t) : t :=
  match last p with
  | Some name => removelast p ++ [(stem name ++ suffix)%string]
  | None => p
  end.

(** [str(p)] *)
Definition to_string (p : t) : string :=
  match p with
  | "/" :: p' => "/" ++ join "/" p'
  | _ => join "/" p
  end.

End Path.

Module FS.

Abbreviation t := (gmap (list string) string).

Definition is_file (p : Path.t) (fs : t) : bool :=
  bool_decide (is_Some (fs !! Path.resolve p)).

Definition below (dir file : list string) : Prop := dir `prefix_of` file ∧ file ≠ dir.

Definition is_dir (p : Path.t) (fs : t) : bool :=
  bool_decide (set_Exists (below (Path.resolve p)) (dom fs)).

(** [p.exists()] *)
Definition exists_ (p : Path.t) (fs : t) : bool := is_file p fs || is_dir p fs.

(** The proper ancestors of a resolved path, nearest last. *)
Definition ancestors (p : list string) : list (list string) :=
  map (λ n, take n p) (seq 1 (length p - 1)).

End FS.

(** Calls on the file system. *)
Abbreviation IO := (ST FS.t).

(** [shutil.rmtree(p)] *)
Definition rmtree (p : Path.t) : IO unit :=
  λ fs,
    if FS.is_file p fs then (Raise (NotADirectoryError (Path.to_string p)), fs)
    else if FS.is_dir p fs then
      (Ok (), filter (λ kv, ¬ Path.resolve p `prefix_of` kv.1) fs)
    else (Raise (FileNotFoundError (Path.to_string p)), fs).

(** [p.parent.mkdir(parents=True, exist_ok=True); p.write_text(text)] *)
Definition write_file (p : Path.t) (text : string) : IO unit :=
  λ fs,
    let target := Path.resolve p in
    if bool_decide (is_Some (fs !! Path.parent target)) then
      (Raise (FileExistsError (Path.to_string (Path.parent p))), fs)
    else if bool_decide (Exists (λ a, is_Some (fs !! a)) (FS.ancestors target)) then
      (Raise (NotADirectoryError (Path.to_string (Path.parent p))), fs)
    else if FS.is_dir p fs then (Raise (IsADirectoryError (Path.to_string p)), fs)
    else (Ok (), <[target := text]> fs).

(** [p.read_text()] of a path known to be a regular file *)
Definition read_file (p : Path.t) : IO string :=
  λ fs,
    match fs !! Path.resolve p with
    | Some text => (Ok text, fs)
    | None => (Raise (FileNotFoundError (Path.to_string p)), fs)
    end.

(** [for x in xs: f(x)] *)
Fixpoint forM_ {S A} (xs : list A) (f : A → ST S unit) : ST S unit :=
  match xs with
  | [] => ret ()
  | x :: xs' => do! f x in forM_ xs' f
  end.

(** A read of the object store from a call on the file system: the
    store is not changed, an exception of the read goes through. *)
Definition reading {A} (σ : Store) (read : M A) : IO A :=
  λ fs, ((read σ).1, fs).

(** ** The Fabric generator: what it is given

    The JSON codec of the Python library, and the writers of the build
    files, metadata, Java sources and README. The properties below hold
    whatever these are; the assets, the data files, the manifest and the
    order of the steps are those of the generator. *)

Definition hooks_t : Type := assoc (list (string * string)).

Record Backend : Type := {
  (** [json.dumps(payload, indent=2)] *)
  json_dumps : json → string;
  (** [json.loads(text)] *)
  json_loads : string → Result json;
  _write_injected_java : Store → Path.t → string → list ElementObj.t → IO hooks_t;
  _write_gradle_files : Path.t → ModObj.t → string → IO unit;
  _write_fabric_metadata : Path.t → ModObj.t → string → string → bool → bool → IO unit;
  _write_java_files :
    Store → Path.t → ModObj.t → string →
    list ElementObj.t → list ElementObj.t → list ElementObj.t →
    list ElementObj.t → list ElementObj.t → list string → hooks_t → bool → bool → IO unit;
  _write_readme : Path.t → ModObj.t → IO unit }.

(** ** The Fabric generator: helpers *)

Definition alnum_class (c : ascii) : bool :=
  Str.between 97 122 c || Str.between 65 90 c || Str.between 48 57 c.

(** [_camel] *)
Definition _camel (value : string) : string :=
  let parts :=
    filter (λ part, Str.truthy part = true)
      (split_runs_chars (λ c, negb (alnum_class c)) [] false (Str.chars value)) in
  Str.or_else
    (join "" (map (λ part, match part with
                           | EmptyString => EmptyString
                           | String c rest => String (upper_char c) rest
                           end) parts))
    "Generated".

(** [_package_safe] *)
Definition _package_safe (value fallback : string) : string :=
  Str.or_else
    (Str.strip_set "_"
       (Re.sub_class_plus (λ c, negb (command_literal_class c)) "_" (Str.lower value)))
    fallback.

(** [_commands_from_actions]; every action is a record made by
    [sendConsole], whose ["command"] is a string. *)
Definition _commands_from_actions (actions : list json) : list string :=
  omap (λ action,
          match action with
          | JDict d =>
              match assoc_get "type" d, assoc_get "command" d with
              | Some (JStr "console"), Some (JStr command) =>
                  if Str.truthy command then Some command else None
              | _, _ => None
              end
          | _ => None
          end) actions.

(** [_rgb_hex]: [f"#{max(0, min(int(value), 0xFFFFFF)):06x}"] *)
Definition _rgb_hex (value : Z) : string :=
  let v := Z.max 0 (Z.min value 16777215) in
  String "#"
    (Str.of_chars (map (λ i, hex_char ((v / 16 ^ Z.of_nat i) mod 16)%Z) [5; 4; 3; 2; 1; 0])).

(** [isinstance(element, cls)]; a class is known by its name. *)
Definition is_instance (cls : string) (element : ElementObj.t) : bool :=
  String.eqb (class_name (ElementObj.cls element)) cls.

(** ** The Fabric generator: data files *)

Module Fabric12111Generator.

Local Open Scope string_scope.

Definition key : string := "minecraft-fabric-1.21.11".
Definition minecraft_version : string := "1.21.11".
Definition yarn_mappings : string := "1.21.11+build.1".
Definition loom_version : string := "1.13.3".
Definition loader_version : string := "0.18.2".
Definition fabric_api_version : string := "0.139.4+1.21.11".

Section Writers.
Context (B : Backend).

Definition _write_text (path : Path.t) (content : string) : IO unit :=
  write_file path (Str.rstrip content ++ String "010" "").

Definition _write_json (path : Path.t) (payload : assoc json) : IO unit :=
  write_file path (json_dumps B (JDict payload) ++ String "010" "").

Definition generated_names (elements : list ElementObj.t) : gset string :=
  list_to_set (map ElementObj.name elements).

Definition item_ref (value mod_id : string) (items blocks : gset string) : json :=
  JDict [("item", JStr (_resolve_item_like_id value mod_id items blocks))].

(** [_copy_file_if_exists(source, target)]; [shutil.copy2] copies into
    [target] when it is a directory. *)
Definition _copy_file_if_exists (source : option string) (target : Path.t) : IO bool :=
  if negb (Str.truthy (Str.opt_or source "")) then ret false
  else
    let source_path := Path.of_string (Str.opt_or source "") in
    λ fs,
      if negb (FS.is_file source_path fs) then (Ok false, fs)
      else
        (let! text := read_file source_path in
         let destination :=
           match last source_path with
           | Some base => if FS.is_dir target fs then (target ++ [base])%list else target
           | None => target
           end in
         do! write_file destination text in
         ret true) fs.

(** [element.properties.get("display_name", element.name)], [.get("model")],
    [.get("texture")] and [.get("spawn_egg_primary")] *)
Definition display_name_of (element : ElementObj.t) : string :=
  match ElementObj.properties element with
  | PTab p => FabricTabProps.display_name p
  | PItem p => FabricItemProps.display_name p
  | PBlock p => FabricBlockProps.display_name p
  | PCommand p => FabricCommandProps.display_name p
  | PEntity p => FabricEntityProps.display_name p
  | PBiome p => FabricBiomeProps.display_name p
  | PBag d =>
      match assoc_get "display_name" d with
      | Some (JStr s) => s
      | _ => ElementObj.name element
      end
  | _ => ElementObj.name element
  end.

Definition model_of (element : ElementObj.t) : option string :=
  match ElementObj.properties element with
  | PItem p => FabricItemProps.model p
  | PBlock p => FabricBlockProps.model p
  | _ => None
  end.

Definition texture_of (element : ElementObj.t) : option string :=
  match ElementObj.properties element with
  | PItem p => FabricItemProps.texture p
  | PBlock p => FabricBlockProps.texture p
  | _ => None
  end.

Definition spawn_egg_primary_of (element : ElementObj.t) : option Z :=
  match ElementObj.properties element with
  | PEntity p => FabricEntityProps.spawn_egg_primary p
  | _ => None
  end.

(** [str(x)] for [x : str | None] *)
Definition str_of_optional (x : option string) : string := default "None" x.

(** The texture of an item or a block: the file is copied, or its name
    joins [missing_assets] and a marker is written next to the place of
    the texture ([texture_path.with_suffix(".missing.txt")]). *)
Definition write_texture (assets_dir : Path.t) (folder : string) (element : ElementObj.t)
    (missing_assets : list string) : IO (list string) :=
  let texture_path :=
    Path.div (Path.div (Path.div assets_dir "textures") folder)
      (ElementObj.name element ++ ".png") in
  let! copied := _copy_file_if_exists (texture_of element) texture_path in
  if copied then ret missing_assets
  else
    do! _write_text (Path.with_suffix ".missing.txt" texture_path)
          ("Missing texture source: " ++ str_of_optional (texture_of element)) in
    ret (missing_assets ++ [str_of_optional (texture_of element)])%list.

(** [for x in xs: acc = f(x, acc)] *)
Fixpoint foldM {S A C} (f : A → C → ST S C) (xs : list A) (acc : C) : ST S C :=
  match xs with
  | [] => ret acc
  | x :: xs' => let! acc' := f x acc in foldM f xs' acc'
  end.

Definition _write_assets (assets_dir : Path.t) (mod_id : string)
    (tabs items blocks entities : list ElementObj.t) : IO unit :=
  let lang_entries : assoc json :=
    fold_left (λ lang tab,
                 assoc_set ("itemGroup." ++ mod_id ++ "." ++ ElementObj.name tab)
                   (JStr (display_name_of tab)) lang) tabs [] in
  let! state :=
    foldM (λ item (state : assoc json * list string),
      let lang :=
        assoc_set ("item." ++ mod_id ++ "." ++ ElementObj.name item)
          (JStr (display_name_of item)) state.1 in
      let model_path :=
        Path.div (Path.div (Path.div assets_dir "models") "item")
          (ElementObj.name item ++ ".json") in
      let! copied := _copy_file_if_exists (model_of item) model_path in
      do! (if copied then ret ()
           else _write_json model_path
                  [("parent", JStr "minecraft:item/generated");
                   ("textures",
                    JDict [("layer0", JStr (mod_id ++ ":item/" ++ ElementObj.name item))])]) in
      let! missing := write_texture assets_dir "item" item state.2 in
      ret (lang, missing)) items (lang_entries, []) in
  let! state :=
    foldM (λ block (state : assoc json * list string),
      let lang :=
        assoc_set ("block." ++ mod_id ++ "." ++ ElementObj.name block)
          (JStr (display_name_of block)) state.1 in
      do! _write_json
            (Path.div (Path.div assets_dir "blockstates") (ElementObj.name block ++ ".json"))
            [("variants",
              JDict [("", JDict [("model",
                                  JStr (mod_id ++ ":block/" ++ ElementObj.name block))])])] in
      let model_path :=
        Path.div (Path.div (Path.div assets_dir "models") "block")
          (ElementObj.name block ++ ".json") in
      let! copied := _copy_file_if_exists (model_of block) model_path in
      do! (if copied then ret ()
           else _write_json model_path
                  [("parent", JStr "minecraft:block/cube_all");
                   ("textures",
                    JDict [("all", JStr (mod_id ++ ":block/" ++ ElementObj.name block))])]) in
      do! _write_json
            (Path.div (Path.div (Path.div assets_dir "models") "item")
               (ElementObj.name block ++ ".json"))
            [("parent", JStr (mod_id ++ ":block/" ++ ElementObj.name block))] in
      let! missing := write_texture assets_dir "block" block state.2 in
      ret (lang, missing)) blocks state in
  let! lang_entries :=
    foldM (λ entity (lang : assoc json),
      let lang :=
        assoc_set ("entity." ++ mod_id ++ "." ++ ElementObj.name entity)
          (JStr (display_name_of entity)) lang in
      match spawn_egg_primary_of entity with
      | Some _ =>
          let lang :=
            assoc_set ("item." ++ mod_id ++ "." ++ ElementObj.name entity ++ "_spawn_egg")
              (JStr (display_name_of entity ++ " Spawn Egg")) lang in
          do! _write_json
                (Path.div (Path.div (Path.div assets_dir "models") "item")
                   (ElementObj.name entity ++ "_spawn_egg.json"))
                [("parent", JStr "minecraft:item/template_spawn_egg")] in
          ret lang
      | None => ret lang
      end) entities state.1 in
  do! _write_json (Path.div (Path.div assets_dir "lang") "en_us.json") lang_entries in
  if is_nil state.2 then ret ()
  else
    _write_json (Path.div assets_dir "modpy_missing_assets.json")
      [("missing",
        json_strs (filter (λ asset, Str.truthy asset = true ∧ asset ≠ "None") state.2))].

(** The JSON document of one recipe. *)
Definition recipe_payload (mod_id : string) (generated_items generated_blocks : gset string)
    (props : FabricRecipeProps.t) : assoc json :=
  let recipe_type := FabricRecipeProps.recipe_type props in
  let output :=
    _resolve_item_like_id (FabricRecipeProps.output props) mod_id
      generated_items generated_blocks in
  if String.eqb recipe_type "shaped" then
    let key_payload :=
      fold_left (λ acc entry,
                   assoc_set entry.1 (item_ref entry.2 mod_id generated_items generated_blocks)
                     acc)
        (FabricRecipeProps.key props) [] in
    [("type", JStr "minecraft:crafting_shaped");
     ("pattern", json_strs (FabricRecipeProps.pattern props));
     ("key", JDict key_payload);
     ("result", JDict [("item", JStr output); ("count", JInt (FabricRecipeProps.count props))])]
  else if String.eqb recipe_type "shapeless" then
    [("type", JStr "minecraft:crafting_shapeless");
     ("ingredients",
      JList (map (λ ingredient, item_ref ingredient mod_id generated_items generated_blocks)
               (FabricRecipeProps.ingredients props)));
     ("result", JDict [("item", JStr output); ("count", JInt (FabricRecipeProps.count props))])]
  else
    [("type", JStr ("minecraft:" ++ recipe_type));
     ("ingredient",
      item_ref (default "None" (FabricRecipeProps.input_item props)) mod_id
        generated_items generated_blocks);
     ("result", JStr output);
     ("experience", JFloat (FabricRecipeProps.experience props));
     ("cookingtime", JInt (FabricRecipeProps.cooking_time props))].

Definition _write_recipes (data_dir : Path.t) (mod_id : string)
    (items blocks recipes : list ElementObj.t) : IO unit :=
  let generated_items := generated_names items in
  let generated_blocks := generated_names blocks in
  forM_ recipes (λ recipe,
    match ElementObj.properties recipe with
    | PRecipe props =>
        let payload := recipe_payload mod_id generated_items generated_blocks props in
        let '(namespace, path) :=
          _split_namespaced_id (FabricRecipeProps.identifier props) mod_id in
        _write_json
          (Path.div (Path.div (Path.div data_dir namespace) "recipes") (path ++ ".json"))
          payload
    | _ => throw (KeyError "recipe_type")
    end).

(** The JSON document of one tag. *)
Definition tag_payload (mod_id : string) (generated_items generated_blocks : gset string)
    (props : FabricTagProps.t) : assoc json :=
  let values :=
    map (λ value, _resolve_item_like_id value mod_id generated_items generated_blocks)
      (FabricTagProps.values props) in
  [("replace", JBool (FabricTagProps.replace props)); ("values", json_strs values)].

Definition _write_tags (data_dir : Path.t) (mod_id : string)
    (items blocks tags : list ElementObj.t) : IO unit :=
  let generated_items := generated_names items in
  let generated_blocks := generated_names blocks in
  forM_ tags (λ tag,
    match ElementObj.properties tag with
    | PTag props =>
        let registry_folder :=
          if String.eqb (FabricTagProps.registry props) "item" then "items" else "blocks" in
        _write_json
          (Path.div
             (Path.div (Path.div (Path.div data_dir (FabricTagProps.namespace props)) "tags")
                registry_folder)
             (FabricTagProps.identifier props ++ ".json"))
          (tag_payload mod_id generated_items generated_blocks props)
    | _ => throw (KeyError "values")
    end).

Definition _write_block_loot_tables (data_dir : Path.t) (mod_id : string)
    (blocks : list ElementObj.t) : IO unit :=
  forM_ blocks (λ block,
    let payload :=
      [("type", JStr "minecraft:block");
       ("pools",
        JList [JDict
          [("rolls", JFloat 1);
           ("entries",
            JList [JDict [("type", JStr "minecraft:item");
                          ("name", JStr (mod_id ++ ":" ++ ElementObj.name block))]]);
           ("conditions",
            JList [JDict [("condition", JStr "minecraft:survives_explosion")]])]])] in
    let file := ElementObj.name block ++ ".json" in
    do! _write_json
          (Path.div (Path.div (Path.div (Path.div data_dir mod_id) "loot_tables") "blocks") file)
          payload in
    _write_json
      (Path.div (Path.div (Path.div (Path.div data_dir mod_id) "loot_table") "blocks") file)
      payload).

Definition _resolve_json_payload (payload : option (assoc json))
    (payload_file : option string) (label : string) : IO (assoc json) :=
  if Str.truthy (Str.opt_or payload_file "") then
    let file := Str.opt_or payload_file "" in
    let source_path := Path.of_string file in
    λ fs,
      if negb (FS.is_file source_path fs) then
        (Raise (FileNotFoundError (label ++ " payload_file does not exist: " ++ file)), fs)
      else
        (let! text := read_file source_path in
         match json_loads B text with
         | Raise e => throw e
         | Ok (JDict loaded) => ret loaded
         | Ok _ =>
             throw (ValueError (label ++ " payload_file must decode to a JSON object."))
         end) fs
  else
    match payload with
    | None => ret []
    | Some payload => ret (_deep_json_copy payload)
    end.

Definition default_biome_payload (props : FabricBiomeProps.t) : assoc json :=
  [("has_precipitation", JBool (FabricBiomeProps.has_precipitation props));
   ("temperature", JFloat (FabricBiomeProps.temperature props));
   ("downfall", JFloat (FabricBiomeProps.downfall props));
   ("attributes",
    JDict [("minecraft:visual/sky_color", JStr (_rgb_hex (FabricBiomeProps.sky_color props)));
           ("minecraft:visual/fog_color", JStr (_rgb_hex (FabricBiomeProps.fog_color props)));
           ("minecraft:visual/water_fog_color",
            JStr (_rgb_hex (FabricBiomeProps.water_fog_color props)))]);
   ("effects", JDict [("water_color", JStr (_rgb_hex (FabricBiomeProps.water_color props)))]);
   ("carvers",
    json_strs ["minecraft:cave"; "minecraft:cave_extra_underground"; "minecraft:canyon"]);
   ("features", JList []);
   ("spawners",
    JDict [("ambient", JList []); ("axolotls", JList []); ("creature", JList []);
           ("misc", JList []); ("monster", JList []);
           ("underground_water_creature", JList []); ("water_ambient", JList []);
           ("water_creature", JList [])]);
   ("spawn_costs", JDict [])].

Definition _write_biomes (data_dir : Path.t) (biomes : list ElementObj.t) : IO unit :=
  forM_ biomes (λ biome,
    match ElementObj.properties biome with
    | PBiome props =>
        let! payload :=
          _resolve_json_payload (FabricBiomeProps.payload props)
            (FabricBiomeProps.payload_file props)
            ("Biome '" ++ ElementObj.name biome ++ "'") in
        let payload := if is_nil payload then default_biome_payload props else payload in
        _write_json
          (Path.div
             (Path.div (Path.div (Path.div data_dir (FabricBiomeProps.namespace props))
                          "worldgen") "biome")
             (FabricBiomeProps.identifier props ++ ".json"))
          payload
    | _ => throw (KeyError "has_precipitation")
    end).

(** The three lines of [_write_worldgen_entries] between resolving the
    payload and writing it. *)
Definition alias_placed_feature (worldgen_type : string) (payload : assoc json)
    : assoc json :=
  if String.eqb worldgen_type "placed_feature" then
    match assoc_get "feature" payload with
    | Some (JStr feature_id) =>
        assoc_set "feature"
          (JStr (default feature_id (assoc_get feature_id _WORLDGEN_FEATURE_ALIASES)))
          payload
    | _ => payload
    end
  else payload.

Definition worldgen_path (data_dir : Path.t) (props : FabricWorldgenProps.t) : Path.t :=
  Path.div
    (Path.div (Path.div (Path.div data_dir (FabricWorldgenProps.namespace props)) "worldgen")
       (FabricWorldgenProps.worldgen_type props))
    (FabricWorldgenProps.identifier props ++ ".json").

Definition _write_worldgen_entry (data_dir : Path.t) (entry : ElementObj.t) : IO unit :=
  match ElementObj.properties entry with
  | PWorldgen props =>
      let! payload :=
        _resolve_json_payload (FabricWorldgenProps.payload props)
          (FabricWorldgenProps.payload_file props)
          ("Worldgen '" ++ ElementObj.name entry ++ "'") in
      let payload := alias_placed_feature (FabricWorldgenProps.worldgen_type props) payload in
      _write_json (worldgen_path data_dir props) payload
  | _ => throw (KeyError "worldgen_type")
  end.

Definition _write_worldgen_entries (data_dir : Path.t) (worldgens : list ElementObj.t)
    : IO unit :=
  forM_ worldgens (_write_worldgen_entry data_dir).

Definition _write_data_files (data_dir : Path.t) (mod_id : string)
    (items blocks recipes tags biomes worldgens : list ElementObj.t) : IO unit :=
  do! _write_recipes data_dir mod_id items blocks recipes in
  do! _write_tags data_dir mod_id items blocks tags in
  do! _write_block_loot_tables data_dir mod_id blocks in
  do! _write_biomes data_dir biomes in
  _write_worldgen_entries data_dir worldgens.

Definition _write_manifest (σ : Store) (manifest_dir : Path.t) (mod_ : nat) : IO unit :=
  let! manifest := reading σ (Mod.to_manifest mod_) in
  match manifest with
  | JDict manifest =>
      let manifest :=
        assoc_set "generator_details"
          (JDict [("minecraft_version", JStr minecraft_version);
                  ("loader_version", JStr loader_version);
                  ("fabric_api_version", JStr fabric_api_version)])
          manifest in
      _write_json (Path.div manifest_dir "manifest.json") manifest
  | _ => throw (ValueError "manifest")
  end.

(** [root], the directory the project is generated in *)
Definition root_of (output_dir : Path.t) (mod_id : string) : Path.t :=
  Path.div output_dir (mod_id ++ "-fabric-" ++ minecraft_version).

(** [compile(self, mod, output_dir)] *)
Definition compile (σ : Store) (mod_ : nat) (output_dir : Path.t) : IO Path.t :=
  let! mod_obj := reading σ (get_mod mod_) in
  let mod_id := ModObj.mod_id mod_obj in
  let root := root_of output_dir mod_id in
  do! (λ fs, if FS.exists_ root fs then rmtree root fs else (Ok (), fs)) in
  let package_mod_fragment := _package_safe mod_id "generated" in
  let package_name := "modpy.generated." ++ package_mod_fragment in
  let package_dir :=
    Path.div (Path.div (Path.div (Path.div root "src") "main") "java")
      (Str.replace_char "." "/" package_name) in
  let resources_dir := Path.div (Path.div (Path.div root "src") "main") "resources" in
  let assets_dir := Path.div (Path.div resources_dir "assets") mod_id in
  let data_dir := Path.div resources_dir "data" in
  let manifest_dir := Path.div (Path.div data_dir mod_id) "modpy" in
  let main_class := _camel mod_id ++ "Mod" in
  let author_fragment := _package_safe (ModObj.author mod_obj) "author" in
  let! elements := reading σ (mapM get_elem (ModObj.elements mod_obj)) in
  let tabs := filter (λ e, is_instance "FabricTab" e = true) elements in
  let items := filter (λ e, is_instance "FabricItem" e = true) elements in
  let blocks := filter (λ e, is_instance "FabricBlock" e = true) elements in
  let recipes := filter (λ e, is_instance "FabricRecipe" e = true) elements in
  let tags := filter (λ e, is_instance "FabricTag" e = true) elements in
  let java_sources := filter (λ e, is_instance "FabricJavaSource" e = true) elements in
  let commands := filter (λ e, is_instance "FabricCommand" e = true) elements in
  let entities := filter (λ e, is_instance "FabricEntity" e = true) elements in
  let biomes := filter (λ e, is_instance "FabricBiome" e = true) elements in
  let worldgens := filter (λ e, is_instance "FabricWorldgen" e = true) elements in
  let startup_commands := _commands_from_actions (ModObj.startup_actions mod_obj) in
  let! injected_hooks := _write_injected_java B σ root package_name java_sources in
  let has_client := negb (is_nil (default [] (assoc_get "client" injected_hooks))) in
  let has_server := negb (is_nil (default [] (assoc_get "server" injected_hooks))) in
  do! _write_gradle_files B root mod_obj author_fragment in
  do! _write_fabric_metadata B resources_dir mod_obj package_name main_class
        has_client has_server in
  do! _write_manifest σ manifest_dir mod_ in
  do! _write_java_files B σ package_dir mod_obj main_class tabs items blocks commands
        entities startup_commands injected_hooks has_client has_server in
  do! _write_assets assets_dir mod_id tabs items blocks entities in
  do! _write_data_files data_dir mod_id items blocks recipes tags biomes worldgens in
  do! _write_readme B root mod_obj in
  ret root.

End Writers.

End Fabric12111Generator.

(** ** The Fabric generator: Java symbols and literals *)

(** [s.upper()] for a string over [[A-Za-z0-9_]] (see [upper_char]) *)
Definition upper (s : string) : string := Str.of_chars (map upper_char (Str.chars s)).

(** [_java_const] *)
Definition _java_const (value : string) : string :=
  Str.or_else
    (upper (Str.strip_set "_" (Re.sub_class_plus (λ c, negb (alnum_class c)) "_" value)))
    "UNNAMED".

(** [s.replace(a, b)] for a one-character [a] *)
Definition replace_char_with (a : ascii) (b : string) (s : string) : string :=
  Str.of_chars (flat_map (λ c, if Ascii.eqb c a then Str.chars b else [c]) (Str.chars s)).

(** [_java_string] *)
Definition _java_string (value : string) : string :=
  let escaped :=
    replace_char_with double_quote (String backslash (String double_quote ""))
      (replace_char_with backslash (String backslash (String backslash "")) value) in
  String double_quote (escaped ++ String double_quote "").

(** ** Objects of the tests (tests/test_custom.py, tests/test_fabric_generator.py) *)

(** [NoItemGenerator], which offers the category [Spell] only. *)
Definition NoItemGenerator : Generator.t := {|
  Generator.key := "demo-no-item-1.0";
  Generator.element_types := {["Spell" := Spell]} |}.

(** A generator that keeps the [key = ""] of [GeneratorBase]. *)
Definition UnnamedGenerator : Generator.t := {|
  Generator.key := "";
  Generator.element_types := ∅ |}.

(** A store holding one Mod, [Mod(author="tester", mod_id="demo_mod", ...)]. *)
Definition tester_mod : ModObj.t := {|
  ModObj.author := "tester"; ModObj.mod_id := "demo_mod"; ModObj.name := "Demo Mod";
  ModObj.version := "0.1.0"; ModObj.generator := "demo-no-item-1.0";
  ModObj.elements := []; ModObj.startup_actions := [];
  ModObj._action_capture_stack := []; ModObj._generator := NoItemGenerator |}.

Definition tester_store : Store := {| mods := [tester_mod]; elems := []; lists := [] |}.

(** A backend whose JSON encoder prints nothing, whose decoder rejects
    every text and whose writers write nothing. *)
Definition silent_backend : Backend := {|
  json_dumps := λ _, "";
  json_loads := λ _, Raise (JSONDecodeError "Expecting value");
  _write_injected_java := λ _ _ _ _, ret [("main", []); ("client", []); ("server", [])];
  _write_gradle_files := λ _ _ _, ret ();
  _write_fabric_metadata := λ _ _ _ _ _ _, ret ();
  _write_java_files := λ _ _ _ _ _ _ _ _ _ _ _ _ _, ret ();
  _write_readme := λ _ _, ret () |}.

(** The worldgen entry of tests/test_fabric_generator.py, as
    [FabricWorldgen.__init__] stores it for the mod [demo_mod]. *)
Definition ruby_ore_patch_props : FabricWorldgenProps.t := {|
  FabricWorldgenProps.worldgen_type := "placed_feature";
  FabricWorldgenProps.identifier := "ruby_ore_patch";
  FabricWorldgenProps.namespace := "demo_mod";
  FabricWorldgenProps.payload :=
    Some [("feature", JStr "minecraft:ore_diamond"); ("placement", JList [])];
  FabricWorldgenProps.payload_file := None |}.

Definition ruby_ore_patch : ElementObj.t := {|
  ElementObj.cls := FabricWorldgen;
  ElementObj.mod_ := 0;
  ElementObj.name := "placed_feature_ruby_ore_patch";
  ElementObj.properties := PWorldgen ruby_ore_patch_props;
  ElementObj.events := [] |}.

(** A file left under the root by an earlier compilation. *)
Definition stale_tree : FS.t :=
  {[ ["build"; "demo_mod-fabric-1.21.11"; "stale.txt"] := "left over" ]}.

(** ** Auxiliary definitions used in the proofs *)

Definition is_underscore : ascii → bool := Ascii.eqb "_".
Definition is_separator : ascii → bool := Str.one_of "_./-".
Definition outside_class (c : ascii) : bool := negb (id_path_class c).

(** [re.sub("_+", "_", .)] and [re.sub("[^a-z0-9/._-]+", "_", .)] on characters *)
Definition squeeze : bool → list ascii → list ascii :=
  Re.sub_runs_chars is_underscore ["_"%char].
Definition mask : bool → list ascii → list ascii :=
  Re.sub_runs_chars outside_class ["_"%char].

(** The capture stacks of all Mods, in the order of the store. *)
Definition stacks (σ : Store) : list (list nat) :=
  ModObj._action_capture_stack <$> mods σ.

(** [σ'] holds the objects of [σ] and possibly more. *)
Definition extends (σ σ' : Store) : Prop :=
  elems σ `prefix_of` elems σ' ∧ lists σ `prefix_of` lists σ'.

(** The elements of the Fabric generator that have events, declared with
    the display name ["Foo"] and no identifier (a Command also without a
    literal, an Entity with spawn-egg colours that parse). *)
Inductive declared_foo : ∀ cls : ElementClass, Args cls → Prop :=
| foo_item (a : FabricItemArgs.t) :
    FabricItemArgs.identifier a = None → FabricItemArgs.name a = Some "Foo" →
    declared_foo FabricItem a
| foo_block (a : FabricBlockArgs.t) :
    FabricBlockArgs.identifier a = None → FabricBlockArgs.name a = Some "Foo" →
    declared_foo FabricBlock a
| foo_command (a : FabricCommandArgs.t) :
    FabricCommandArgs.literal a = None → FabricCommandArgs.identifier a = None →
    FabricCommandArgs.name a = Some "Foo" →
    declared_foo FabricCommand a
| foo_entity (a : FabricEntityArgs.t) :
    FabricEntityArgs.identifier a = None → FabricEntityArgs.name a = Some "Foo" →
    is_ok (_parse_color (FabricEntityArgs.spawn_egg_primary a)) = true →
    is_ok (_parse_color (FabricEntityArgs.spawn_egg_secondary a)) = true →
    declared_foo FabricEntity a.

(** No two underscores in a row. *)
Fixpoint no_double_underscore (l : list ascii) : bool :=
  match l with
  | c :: l' =>
      match l' with
      | c' :: _ => negb (is_underscore c && is_underscore c') && no_double_underscore l'
      | [] => true
      end
  | [] => true
  end.

(** A normal path: non-empty, over [[a-z0-9/._-]], no separator at either
    end, no two underscores in a row. *)
Definition normal_path (s : string) : bool :=
  let l := Str.chars s in
  Str.truthy s && forallb id_path_class l
  && negb (from_option is_separator false (head l))
  && negb (from_option is_separator false (last l))
  && no_double_underscore l.


Definition ruby_smelting_args : FabricRecipeArgs.t := {|
  FabricRecipeArgs.recipe_type := " Smelting"; FabricRecipeArgs.output := "Ruby";
  FabricRecipeArgs.identifier := Some "minecraft:ruby"; FabricRecipeArgs.count := 1;
  FabricRecipeArgs.pattern := None; FabricRecipeArgs.key := None;
  FabricRecipeArgs.ingredients := None; FabricRecipeArgs.input_item := Some "Ruby Ore";
  FabricRecipeArgs.experience := 0; FabricRecipeArgs.cooking_time := 200 |}.

(** A regular file where the root of the project should be. *)
Definition file_at_root : FS.t :=
  {[ ["build"; "demo_mod-fabric-1.21.11"] := "not a directory" ]}.

(** [p] and then [q]: the body [p], with [q] where [p] returns. *)
Fixpoint then_ (p q : proc) : proc :=
  match p with
  | Return => q
  | Throw e => Throw e
  | SendConsole mod_ command next => SendConsole mod_ command (then_ next q)
  | OnEvent element event handler next => OnEvent element event handler (then_ next q)
  end.

(** What the decorator [@element.Event.<event>] does to the element once
    the handler has run: the context [actions] joins the event's list. *)
Definition record_handler (event : string) (actions : nat) : ElementObj.t → ElementObj.t :=
  ElementObj.set_events
    (λ events, assoc_set event (default [] (assoc_get event events) ++ [actions]) events).

(** The [Spell] of tests/test_custom.py, declared for the Mod of
    [tester_store], alone and next to a second one. *)
Definition foo_spell : ElementObj.t := {|
  ElementObj.cls := Spell; ElementObj.mod_ := 0; ElementObj.name := "Foo";
  ElementObj.properties := PBag [("mana_cost", JInt 1)]; ElementObj.events := [] |}.

Definition bar_spell : ElementObj.t := {|
  ElementObj.cls := Spell; ElementObj.mod_ := 0; ElementObj.name := "Bar";
  ElementObj.properties := PBag [("mana_cost", JInt 2)]; ElementObj.events := [] |}.

Definition spell_store : Store :=
  {| mods := [tester_mod]; elems := [foo_spell; bar_spell]; lists := [] |}.

(** A second Mod beside the first. *)
Definition other_mod : ModObj.t := {|
  ModObj.author := "tester"; ModObj.mod_id := "other_mod"; ModObj.name := "Other Mod";
  ModObj.version := "0.1.0"; ModObj.generator := "demo-no-item-1.0";
  ModObj.elements := []; ModObj.startup_actions := [];
  ModObj._action_capture_stack := []; ModObj._generator := NoItemGenerator |}.

Definition two_mods_store : Store :=
  {| mods := [tester_mod; other_mod]; elems := [foo_spell; bar_spell]; lists := [] |}.

(** [[A-Z0-9_]], the characters of a Java constant *)
Definition java_const_class (c : ascii) : bool :=
  Str.between 65 90 c || Str.between 48 57 c || Ascii.eqb c "_".

(** *** Java string literals

    How the Java compiler reads a string literal (JLS 3.3, 3.10.5 and
    3.10.7). Characters are code points; the text of a source file is
    first rid of its Unicode escapes, then the literal is read. *)

(** The first pass. A backslash that follows an even number of
    backslashes may start a Unicode escape: backslash, one or more [u],
    four hexadecimal digits. [Pending] holds such a backslash, [Marker]
    has seen its [u], [Digits todo acc] is reading the digits. *)
Inductive unicode_state : Type :=
| Plain
| Pending
| Marker
| Digits (todo : nat) (acc : N).

Definition java_hex_value (c : ascii) : option N :=
  if Str.between 48 57 c then Some (Str.code c - 48)%N
  else if Str.between 97 102 c then Some (Str.code c - 87)%N
  else if Str.between 65 70 c then Some (Str.code c - 55)%N
  else None.

Fixpoint unicode_escapes (st : unicode_state) (l : list ascii) : option (list N) :=
  match l with
  | [] =>
      match st with
      | Plain => Some []
      | Pending => Some [92%N]
      | Marker | Digits _ _ => None
      end
  | c :: l' =>
      match st with
      | Plain =>
          if Ascii.eqb c backslash then unicode_escapes Pending l'
          else option_map (cons (Str.code c)) (unicode_escapes Plain l')
      | Pending =>
          if Ascii.eqb c "u" then unicode_escapes Marker l'
          else option_map (λ r, 92%N :: Str.code c :: r) (unicode_escapes Plain l')
      | Marker =>
          if Ascii.eqb c "u" then unicode_escapes Marker l'
          else
            match java_hex_value c with
            | Some v => unicode_escapes (Digits 3 v) l'
            | None => None
            end
      | Digits todo acc =>
          match java_hex_value c, todo with
          | Some v, 1 => option_map (cons (16 * acc + v)%N) (unicode_escapes Plain l')
          | Some v, S k => unicode_escapes (Digits k (16 * acc + v)%N) l'
          | _, _ => None
          end
      end
  end.

(** The second pass, after the opening quote: the characters up to the
    closing quote, which must be the last character. A line terminator
    (LF, CR) is no character of a literal; a backslash starts an escape
    sequence: [\b \s \t \n \f \r], the quotes, the backslash, or
    up to three octal digits (below [\400]). *)
Inductive literal_state : Type :=
| Text
| Escape
| Octal (acc : N) (more : nat).

Definition simple_escape (c : N) : option N :=
  if (c =? 98)%N then Some 8%N
  else if (c =? 115)%N then Some 32%N
  else if (c =? 116)%N then Some 9%N
  else if (c =? 110)%N then Some 10%N
  else if (c =? 102)%N then Some 12%N
  else if (c =? 114)%N then Some 13%N
  else if (c =? 34)%N || (c =? 39)%N || (c =? 92)%N then Some c
  else None.

Definition octal_digit (c : N) : option N :=
  if (48 <=? c)%N && (c <=? 55)%N then Some (c - 48)%N else None.

Fixpoint string_characters (st : literal_state) (l : list N) : option (list N) :=
  match l with
  | [] => None
  | c :: l' =>
      let text :=
        if (c =? 34)%N then match l' with [] => Some [] | _ :: _ => None end
        else if (c =? 92)%N then string_characters Escape l'
        else if (c =? 10)%N || (c =? 13)%N then None
        else option_map (cons c) (string_characters Text l') in
      match st with
      | Text => text
      | Escape =>
          match octal_digit c with
          | Some d => string_characters (Octal d (if (d <=? 3)%N then 2 else 1)) l'
          | None =>
              match simple_escape c with
              | Some v => option_map (cons v) (string_characters Text l')
              | None => None
              end
          end
      | Octal acc more =>
          match octal_digit c, more with
          | Some d, S k => string_characters (Octal (8 * acc + d)%N k) l'
          | _, _ => option_map (cons acc) text
          end
      end
  end.

(** The code points a text denotes when it is one Java string literal,
    [None] when it is none. *)
Definition read_java_literal (s : string) : option (list N) :=
  match unicode_escapes Plain (Str.chars s) with
  | Some (c :: body) => if (c =? 34)%N then string_characters Text body else None
  | _ => None
  end.

(** LF and CR *)
Definition is_line_terminator (c : ascii) : bool :=
  (Str.code c =? 10)%N || (Str.code c =? 13)%N.

(** What [_java_string] does to one character. *)
Definition java_escape (c : ascii) : list ascii :=
  if Ascii.eqb c backslash then [backslash; backslash]
  else if Ascii.eqb c double_quote then [backslash; double_quote]
  else [c].

(** A block as [FabricBlock.__init__] stores it for [name="Ruby Block"]. *)
Definition ruby_block : ElementObj.t := {|
  ElementObj.cls := FabricBlock; ElementObj.mod_ := 0; ElementObj.name := "ruby_block";
  ElementObj.properties := PBlock {|
    FabricBlockProps.identifier := "ruby_block";
    FabricBlockProps.display_name := "Ruby Block";
    FabricBlockProps.texture := None; FabricBlockProps.model := None;
    FabricBlockProps.hardness := 3 # 2; FabricBlockProps.resistance := 3 # 2;
    FabricBlockProps.luminance := 0; FabricBlockProps.requires_tool := false;
    FabricBlockProps.creative_tab := None |};
  ElementObj.events := [] |}.

(** A rendering of a JSON value that shows all of it (one line, strings
    between single quotes; not the layout of [json.dumps]), and a backend
    that encodes with it. *)
Fixpoint show_json (j : json) : string :=
  (match j with
   | JNull => "null"
   | JBool b => if b then "true" else "false"
   | JInt n => pretty n
   | JFloat x => pretty (Qnum x) ++ "/" ++ pretty (Z.pos (Qden x))
   | JStr s => "'" ++ s ++ "'"
   | JList l =>
       "[" ++ (fix items (l : list json) : string :=
                 match l with
                 | [] => ""
                 | x :: l' =>
                     show_json x ++ match l' with [] => "" | _ :: _ => ", " ++ items l' end
                 end) l ++ "]"
   | JDict d =>
       "{" ++ (fix members (d : list (string * json)) : string :=
                 match d with
                 | [] => ""
                 | (k, v) :: d' =>
                     "'" ++ k ++ "': " ++ show_json v
                     ++ match d' with [] => "" | _ :: _ => ", " ++ members d' end
                 end) d ++ "}"
   end)%string.

Definition showing_backend : Backend := {|
  json_dumps := show_json;
  json_loads := λ _, Raise (JSONDecodeError "Expecting value");
  _write_injected_java := λ _ _ _ _, ret [("main", []); ("client", []); ("server", [])];
  _write_gradle_files := λ _ _ _, ret ();
  _write_fabric_metadata := λ _ _ _ _ _ _, ret ();
  _write_java_files := λ _ _ _ _ _ _ _ _ _ _ _ _ _, ret ();
  _write_readme := λ _ _, ret () |}.

(** The text [_write_json] leaves for a payload. *)
Definition json_text (B : Backend) (payload : assoc json) : string :=
  (json_dumps B (JDict payload) ++ String "010" "")%string.

(** The file of a recipe, as [_write_recipes] places it. *)
Definition recipe_file (data_dir : Path.t) (mod_id : string) (props : FabricRecipeProps.t)
    : Path.t :=
  let '(namespace, path) := _split_namespaced_id (FabricRecipeProps.identifier props) mod_id in
  Path.div (Path.div (Path.div data_dir namespace) "recipes") (path ++ ".json")%string.

(** The smelting recipe of [ruby_smelting_args], as [FabricRecipe.__init__]
    stores it for the mod [demo_mod]. *)
Definition ruby_smelting_props : FabricRecipeProps.t := {|
  FabricRecipeProps.identifier := "minecraft_ruby";
  FabricRecipeProps.recipe_type := "smelting";
  FabricRecipeProps.output := "Ruby";
  FabricRecipeProps.count := 1;
  FabricRecipeProps.pattern := [];
  FabricRecipeProps.key := [];
  FabricRecipeProps.ingredients := [];
  FabricRecipeProps.input_item := Some "Ruby Ore";
  FabricRecipeProps.experience := 0;
  FabricRecipeProps.cooking_time := 200 |}.

Definition ruby_smelting : ElementObj.t := {|
  ElementObj.cls := FabricRecipe; ElementObj.mod_ := 0;
  ElementObj.name := "minecraft_ruby";
  ElementObj.properties := PRecipe ruby_smelting_props;
  ElementObj.events := [] |}.

(** The loot table of a block and its two files, as
    [_write_block_loot_tables] has them. *)
Definition block_loot_table (mod_id : string) (block : ElementObj.t) : assoc json :=
  [("type", JStr "minecraft:block");
   ("pools",
    JList [JDict
      [("rolls", JFloat 1);
       ("entries",
        JList [JDict [("type", JStr "minecraft:item");
                      ("name", JStr (mod_id ++ ":" ++ ElementObj.name block)%string)]]);
       ("conditions",
        JList [JDict [("condition", JStr "minecraft:survives_explosion")]])]])].

Definition loot_table_file (data_dir : Path.t) (mod_id folder : string) (block : ElementObj.t)
    : Path.t :=
  Path.div (Path.div (Path.div (Path.div data_dir mod_id) folder) "blocks")
    (ElementObj.name block ++ ".json")%string.

(** A second block, whose name leads back to the files of another. *)
Definition stray_block : ElementObj.t := {|
  ElementObj.cls := FabricBlock; ElementObj.mod_ := 0;
  ElementObj.name := "y/../../../loot_tables/blocks/ruby_block";
  ElementObj.properties := PBlock {|
    FabricBlockProps.identifier := "y/../../../loot_tables/blocks/ruby_block";
    FabricBlockProps.display_name := "Stray";
    FabricBlockProps.texture := None; FabricBlockProps.model := None;
    FabricBlockProps.hardness := 3 # 2; FabricBlockProps.resistance := 3 # 2;
    FabricBlockProps.luminance := 0; FabricBlockProps.requires_tool := false;
    FabricBlockProps.creative_tab := None |};
  ElementObj.events := [] |}.

(** The manifest of a Mod whose elements serialize to [elements]. *)
Definition manifest_of (owner : ModObj.t) (elements : list json) : json :=
  JDict [("author", JStr (ModObj.author owner));
         ("generator", JStr (ModObj.generator owner));
         ("mod_id", JStr (ModObj.mod_id owner));
         ("name", JStr (ModObj.name owner));
         ("version", JStr (ModObj.version owner));
         ("startup_actions", JList (ModObj.startup_actions owner));
         ("elements", JList elements)].

(** The names of the elements a manifest lists, in its order. *)
Definition manifest_names (manifest : json) : list string :=
  match manifest with
  | JDict d =>
      match assoc_get "elements" d with
      | Some (JList elements) =>
          omap (λ element,
                  match element with
                  | JDict e =>
                      match assoc_get "name" e with Some (JStr n) => Some n | _ => None end
                  | _ => None
                  end) elements
      | _ => []
      end
  | _ => []
  end.

(** Two items, declared by their display names only. *)
Definition foo_item_args : FabricItemArgs.t := {|
  FabricItemArgs.identifier := None; FabricItemArgs.name := Some "Foo";
  FabricItemArgs.texture := None; FabricItemArgs.model := None;
  FabricItemArgs.creative_tab := None; FabricItemArgs.max_count := 64;
  FabricItemArgs.durability := None; FabricItemArgs.fireproof := false;
  FabricItemArgs.rarity := "common" |}.

Definition bar_item_args : FabricItemArgs.t := {|
  FabricItemArgs.identifier := None; FabricItemArgs.name := Some "Bar";
  FabricItemArgs.texture := None; FabricItemArgs.model := None;
  FabricItemArgs.creative_tab := None; FabricItemArgs.max_count := 64;
  FabricItemArgs.durability := None; FabricItemArgs.fireproof := false;
  FabricItemArgs.rarity := "common" |}.
(** * Properties *)

(** ** The helpers on concrete inputs *)

Example normalize_examples :
  _normalize_id_path (Some "  Ruby Block ") "item" = "ruby_block" ∧
  _normalize_id_path (Some "a!b") "item" = "a_b" ∧
  _normalize_id_path (Some "--") "item" = "item" ∧
  _normalize_id_path None "item" = "item" ∧
  _normalize_id_path (Some "Gems/Ruby.X") "item" = "gems/ruby.x" ∧
  _normalize_id_path (Some "a/../b") "item" = "a/../b" ∧
  _normalize_id_path (Some "_x_") "item" = "x" ∧
  _normalize_id_path
    (Some (String "009" ("A" ++ String (ascii_of_N 160) " b__c!!d.."))%string) "item"
    = "a_b_c_d" ∧
  _normalize_id_path (Some (String (ascii_of_N 201) " cole")) "item" = "cole" ∧
  _normalize_id_path (Some ("x" ++ String "010" "y")%string) "item" = "x_y" ∧
  _normalize_command_literal (Some "Say Hi!") "modpy" = "say_hi".
Proof. repeat split; vm_compute; reflexivity. Qed.

Example helper_examples :
  _display_name "ruby_block" = "Ruby Block" ∧
  _display_name "a/b.c-d" = "A B C D" ∧
  _display_name "" = "Generated" ∧
  _split_namespaced_id "c:gems/ruby" "demo" = ("c", "gems/ruby") ∧
  _is_literal_identifier "minecraft:stone" = true ∧
  _is_literal_identifier "Minecraft:stone" = false ∧
  _is_literal_identifier "a:b:c" = false ∧
  _resolve_item_like_id "Ruby" "demo" {["ruby"]} ∅ = "demo:ruby" ∧
  _resolve_item_like_id "stone" "demo" {["ruby"]} ∅ = "minecraft:stone" ∧
  _parse_color (Some (ColorStr "#B90f3f")) = Ok (Some 12128063%Z) ∧
  _parse_color (Some (ColorStr "0x1234567"))
    = Raise (ValueError "Invalid RGB color value: '0x1234567'") ∧
  _parse_color (Some (ColorInt (-4))) = Ok (Some 0%Z) ∧
  _camel "demo_mod" = "DemoMod" ∧
  _camel "my-cool mod2x" = "MyCoolMod2x" ∧
  _camel "!!" = "Generated" ∧
  _package_safe "Demo Mod!" "generated" = "demo_mod" ∧
  _package_safe "--" "generated" = "generated" ∧
  _rgb_hex 7907327 = "#78a7ff" ∧
  _rgb_hex (-4) = "#000000" ∧
  _rgb_hex 329011 = "#050533".
Proof. repeat split; vm_compute; reflexivity. Qed.

Example path_examples :
  Path.div (Path.div (Path.div ["build"] "demo_mod-fabric-1.21.11") "src") "main"
    = ["build"; "demo_mod-fabric-1.21.11"; "src"; "main"] ∧
  Path.div ["a"] "b/../c" = ["a"; "b"; ".."; "c"] ∧
  Path.div ["a"] "/etc/x" = ["/"; "etc"; "x"] ∧
  Path.of_string "a/./b//c" = ["a"; "b"; "c"] ∧
  Path.resolve ["a"; "b"; ".."; "c"] = ["a"; "c"] ∧
  Path.resolve [".."; "a"] = [".."; "a"] ∧
  Path.to_string ["/"; "etc"; "x"] = "/etc/x" ∧
  Path.with_suffix ".missing.txt" ["d"; "x.png"] = ["d"; "x.missing.txt"] ∧
  Path.with_suffix ".missing.txt" ["d"; ".b.png"] = ["d"; ".b.missing.txt"] ∧
  Path.with_suffix ".missing.txt" ["d"; ".png"] = ["d"; ".png.missing.txt"] ∧
  Path.with_suffix ".missing.txt" ["d"; "x."] = ["d"; "x..missing.txt"] ∧
  Path.with_suffix ".missing.txt" ["d"; "a..png"] = ["d"; "a..missing.txt"] ∧
  Path.with_suffix ".missing.txt" ["d"; "..png"] = ["d"; "..missing.txt"].
Proof. repeat split; vm_compute; reflexivity. Qed.

(** ** Ordered dictionaries *)

Lemma assoc_set_same {A} k (v : A) d : assoc_get k d = Some v → assoc_set k v d = d.
Proof.
  induction d as [|[k' v'] d IH]; simpl; [done|].
  destruct (String.eqb_spec k' k) as [->|Hne].
  - by intros [= ->].
  - intros H. by rewrite IH.
Qed.

Lemma assoc_get_set_eq {A} k (v : A) d : assoc_get k (assoc_set k v d) = Some v.
Proof.
  induction d as [|[k' v'] d IH]; simpl.
  - by rewrite String.eqb_refl.
  - destruct (String.eqb_spec k' k) as [->|Hne]; simpl.
    + by rewrite String.eqb_refl.
    + destruct (String.eqb_spec k' k); [done|]. apply IH.
Qed.

Lemma assoc_get_set_ne {A} k k0 (v : A) d :
  k0 ≠ k → assoc_get k0 (assoc_set k v d) = assoc_get k0 d.
Proof.
  intros Hne. induction d as [|[k' v'] d IH]; simpl.
  - destruct (String.eqb_spec k k0); [congruence | done].
  - destruct (String.eqb_spec k' k) as [->|Hk]; simpl.
    + destruct (String.eqb_spec k k0); [congruence | done].
    + destruct (String.eqb_spec k' k0); [done | apply IH].
Qed.

Lemma assoc_get_fresh {A} k (d : assoc A) : k ∉ map fst d → assoc_get k d = None.
Proof.
  induction d as [|[k' v] d IH]; simpl; [done|].
  intros Hk. destruct (String.eqb_spec k' k) as [->|Hne].
  - exfalso. apply Hk. left.
  - apply IH. intros Hin. apply Hk. by right.
Qed.

Lemma assoc_get_fold_set {A B} (f : A → B) (l : assoc A) : ∀ (acc : assoc B) k,
  NoDup (map fst l) →
  assoc_get k (fold_left (λ acc entry, assoc_set entry.1 (f entry.2) acc) l acc)
  = match assoc_get k l with
    | Some r => Some (f r)
    | None => assoc_get k acc
    end.
Proof.
  induction l as [|[k' r] l IH]; intros acc k Hnodup; simpl; [done|].
  apply NoDup_cons in Hnodup as [Hfresh Hnodup].
  rewrite IH by done. destruct (String.eqb_spec k' k) as [->|Hne].
  - rewrite (assoc_get_fresh k l Hfresh). apply assoc_get_set_eq.
  - destruct (assoc_get k l); [done|]. by apply assoc_get_set_ne.
Qed.

(** ** Lists of characters: stripping *)

Lemma forallb_rev {A} (p : A → bool) (l : list A) : forallb p (rev l) = forallb p l.
Proof.
  induction l as [|x l IH]; simpl; [done|].
  rewrite forallb_app, IH. simpl. rewrite andb_true_r. apply andb_comm.
Qed.

Section Strip.
Context (p : ascii → bool).

Lemma lstrip_all l : forallb p l = true → Str.lstrip_chars p l = [].
Proof.
  induction l as [|c l IH]; simpl; [done|].
  intros [Hc Hl]%andb_true_iff. rewrite Hc. auto.
Qed.

Lemma lstrip_app_all a l :
  forallb p a = true → Str.lstrip_chars p (a ++ l) = Str.lstrip_chars p l.
Proof.
  induction a as [|c a IH]; simpl; [done|].
  intros [Hc Ha]%andb_true_iff. rewrite Hc. auto.
Qed.

Lemma lstrip_snoc_keep l c :
  p c = false → Str.lstrip_chars p (l ++ [c]) = Str.lstrip_chars p l ++ [c].
Proof.
  intros Hc. induction l as [|d l IH]; simpl.
  - by rewrite Hc.
  - destruct (p d); [apply IH | done].
Qed.

Lemma lstrip_app_keep l b :
  Str.lstrip_chars p l ≠ [] → Str.lstrip_chars p (l ++ b) = Str.lstrip_chars p l ++ b.
Proof.
  induction l as [|d l IH]; simpl; [done|].
  destruct (p d); [apply IH | done].
Qed.

Lemma lstrip_head l c l' : Str.lstrip_chars p l = c :: l' → p c = false.
Proof.
  induction l as [|d l IH]; simpl; [done|].
  destruct (p d) eqn:Hd; [apply IH|].
  intros [= <- _]. done.
Qed.

Lemma lstrip_split l : ∃ a, l = a ++ Str.lstrip_chars p l ∧ forallb p a = true.
Proof.
  induction l as [|d l [a [Ha Hp]]]; simpl.
  - by exists [].
  - destruct (p d) eqn:Hd.
    + exists (d :: a). simpl. rewrite Hd, Hp. split; [by f_equal | done].
    + by exists [].
Qed.

Lemma rstrip_app_all l b :
  forallb p b = true → Str.rstrip_chars p (l ++ b) = Str.rstrip_chars p l.
Proof.
  intros Hb. unfold Str.rstrip_chars. rewrite rev_app_distr.
  rewrite lstrip_app_all; [done|]. by rewrite forallb_rev.
Qed.

Lemma rstrip_cons_keep c l :
  p c = false → Str.rstrip_chars p (c :: l) = c :: Str.rstrip_chars p l.
Proof.
  intros Hc. unfold Str.rstrip_chars. simpl.
  rewrite lstrip_snoc_keep by done. rewrite rev_app_distr. done.
Qed.

Lemma rstrip_last l l' c : Str.rstrip_chars p l = l' ++ [c] → p c = false.
Proof.
  unfold Str.rstrip_chars. intros H.
  apply (f_equal (@rev ascii)) in H. rewrite rev_involutive, rev_app_distr in H.
  simpl in H. by apply lstrip_head in H.
Qed.

Lemma rstrip_split l : ∃ b, l = Str.rstrip_chars p l ++ b ∧ forallb p b = true.
Proof.
  destruct (lstrip_split (rev l)) as [a [Ha Hp]].
  exists (rev a). split.
  - unfold Str.rstrip_chars. rewrite <- rev_app_distr, <- Ha. by rewrite rev_involutive.
  - by rewrite forallb_rev.
Qed.

Lemma strip_split l :
  ∃ a b, l = a ++ Str.strip_chars p l ++ b ∧ forallb p a = true ∧ forallb p b = true.
Proof.
  destruct (lstrip_split l) as [a [Ha Hpa]].
  destruct (rstrip_split (Str.lstrip_chars p l)) as [b [Hb Hpb]].
  exists a, b. unfold Str.strip_chars. rewrite <- Hb. done.
Qed.

(** Stripping ignores what it would strip anyway. *)
Lemma strip_app_all a l b :
  forallb p a = true → forallb p b = true →
  Str.strip_chars p (a ++ l ++ b) = Str.strip_chars p l.
Proof.
  intros Ha Hb. unfold Str.strip_chars. rewrite lstrip_app_all by done.
  destruct (Str.lstrip_chars p l) as [|c l'] eqn:Hl.
  - destruct (lstrip_split l) as [a' [Ha' Hpa']]. rewrite Hl, app_nil_r in Ha'. subst a'.
    rewrite lstrip_all; [done|]. rewrite forallb_app. by rewrite Hpa', Hb.
  - rewrite lstrip_app_keep by (by rewrite Hl). rewrite Hl. by apply rstrip_app_all.
Qed.

(** What is left starts and ends with a character that is kept. *)
Lemma strip_head l c l' : Str.strip_chars p l = c :: l' → p c = false.
Proof.
  unfold Str.strip_chars. destruct (Str.lstrip_chars p l) as [|d m] eqn:Hl.
  - done.
  - pose proof (lstrip_head _ _ _ Hl) as Hd.
    rewrite rstrip_cons_keep by done. intros [= <- _]. done.
Qed.

Lemma strip_last l l' c : Str.strip_chars p l = l' ++ [c] → p c = false.
Proof. unfold Str.strip_chars. apply rstrip_last. Qed.

Lemma strip_Forall (Q : ascii → Prop) l : Forall Q l → Forall Q (Str.strip_chars p l).
Proof.
  intros H. destruct (strip_split l) as (a & b & Hl & _).
  rewrite Hl in H. apply Forall_app in H as [_ H]. by apply Forall_app in H as [H _].
Qed.

End Strip.

(** ** Regular expressions: the matcher decides the language *)

Module ReFacts.
Import Re.

Lemma nullable_matches r : nullable r = true ↔ matches r [].
Proof.
  split.
  - induction r; simpl; try done.
    + intros _. constructor.
    + intros [H1 H2]%andb_true_iff. apply (m_cat _ _ [] []); auto.
    + intros [H|H]%orb_true_iff; [apply m_alt_l | apply m_alt_r]; auto.
    + intros _. constructor.
  - intros H. remember [] as l eqn:Hl.
    induction H; simpl; try done.
    + apply app_eq_nil in Hl as [-> ->]. rewrite IHmatches1, IHmatches2; done.
    + rewrite IHmatches; done.
    + rewrite IHmatches, orb_true_r; done.
Qed.

Lemma deriv_sound c r : ∀ l, matches (deriv c r) l → matches r (c :: l).
Proof.
  induction r as [| |p|r1 IH1 r2 IH2|r1 IH1 r2 IH2|r1 IH1]; simpl; intros l H.
  - inversion H.
  - inversion H.
  - destruct (p c) eqn:Hp; inversion H; subst. by constructor.
  - assert (Hcat : ∀ l, matches (Cat (deriv c r1) r2) l → matches (Cat r1 r2) (c :: l)).
    { intros l0 H0. inversion H0; subst.
      apply (m_cat r1 r2 (c :: l1) l2); auto. }
    destruct (nullable r1) eqn:Hn; [|by apply Hcat].
    inversion H; subst; [by apply Hcat|].
    apply (m_cat r1 r2 [] (c :: l)); [by apply nullable_matches | auto].
  - inversion H; subst; [apply m_alt_l | apply m_alt_r]; auto.
  - inversion H; subst. apply (m_star_cons r1 (c :: l1) l2); auto.
Qed.

Lemma deriv_complete r l0 :
  matches r l0 → ∀ c l, l0 = c :: l → matches (deriv c r) l.
Proof.
  induction 1 as [|p d Hp|r1 r2 l1 l2 H1 IH1 H2 IH2|r1 r2 l1 H1 IH1|r1 r2 l1 H1 IH1
                   |r1|r1 l1 l2 H1 IH1 H2 IH2]; intros c l Hl; simpl.
  - done.
  - injection Hl as -> <-. rewrite Hp. constructor.
  - destruct l1 as [|d l1]; simpl in Hl.
    + subst l2. apply nullable_matches in H1. rewrite H1.
      apply m_alt_r. by apply IH2.
    + injection Hl as -> <-.
      assert (matches (Cat (deriv c r1) r2) (l1 ++ l2)) by (apply m_cat; auto).
      destruct (nullable r1); [by apply m_alt_l | done].
  - apply m_alt_l. by apply IH1.
  - apply m_alt_r. by apply IH1.
  - done.
  - destruct l1 as [|d l1]; simpl in Hl.
    + by apply IH2.
    + injection Hl as -> <-. apply m_cat; auto.
Qed.

Lemma accepts_matches r l : accepts r l = true ↔ matches r l.
Proof.
  revert r. induction l as [|c l IH]; intros r; simpl.
  - apply nullable_matches.
  - rewrite IH. split; [apply deriv_sound|].
    intros H. by eapply deriv_complete.
Qed.

Lemma matches_star_cls p l :
  matches (Star (Cls p)) l ↔ Forall (λ c, p c = true) l.
Proof.
  split.
  - intros H. remember (Star (Cls p)) as r eqn:Hr.
    induction H; try done.
    injection Hr as ->. inversion H; subst. simpl. constructor; auto.
  - induction 1 as [|c l Hc _ IH]; [constructor|].
    apply (m_star_cons _ [c] l); [by constructor | done].
Qed.

(** [re.fullmatch("[p]*", s)] holds when every character of [s] is in [p]. *)
Lemma fullmatch_star_cls p s :
  fullmatch (Star (Cls p)) s = true ↔ Forall (λ c, p c = true) (Str.chars s).
Proof. unfold fullmatch. by rewrite accepts_matches, matches_star_cls. Qed.

End ReFacts.

(** ** The normalizer, on lists of characters *)

Lemma chars_of_chars l : Str.chars (Str.of_chars l) = l.
Proof. apply list_ascii_of_string_of_list_ascii. Qed.

Lemma of_chars_chars s : Str.of_chars (Str.chars s) = s.
Proof. apply string_of_list_ascii_of_string. Qed.


Lemma space_outside c : Str.isspace c = true → id_path_class c = false.
Proof. destruct c as [[] [] [] [] [] [] [] []]; vm_compute; congruence. Qed.



Lemma outside_to_underscore_space c :
  outside_to_underscore (whitespace_to_underscore c) = outside_to_underscore c.
Proof.
  unfold whitespace_to_underscore, outside_to_underscore.
  destruct (Str.isspace c) eqn:Hs; [|done].
  by rewrite (space_outside _ Hs).
Qed.

Lemma outside_to_underscore_blank c :
  outside_to_underscore (if Ascii.eqb c " " then "_"%char else c) = outside_to_underscore c.
Proof. destruct (Ascii.eqb_spec c " ") as [->|]; done. Qed.

(** The characters kept by the code's normalization, before [or fallback]. *)
Lemma core_chars value :
  Str.chars (_normalize_id_path_core value) =
  Str.strip_chars is_separator
    (squeeze false
       (mask false
          (map (λ c, if Ascii.eqb c " " then "_"%char else c)
             (Str.strip_chars Str.isspace
                (map Str.lower_char (Str.chars (Str.opt_or value ""))))))).
Proof.
  unfold _normalize_id_path_core, Str.strip_set, Re.sub_class_plus, Str.replace_char,
    Str.strip, Str.lower.
  by rewrite !chars_of_chars.
Qed.

(** Collapsing as the specification words it is [re.sub("_+", "_", .)]. *)
Lemma collapse_squeeze l :
  squeeze false l = collapse_underscores l ∧
  collapse_underscores ("_"%char :: l) = "_"%char :: squeeze true l.
Proof.
  induction l as [|c l [IHa IHb]]; [done|].
  unfold squeeze in *. split.
  - change (Re.sub_runs_chars is_underscore ["_"%char] false (c :: l)) with
      (if is_underscore c then ["_"%char] ++ Re.sub_runs_chars is_underscore ["_"%char] true l
       else c :: Re.sub_runs_chars is_underscore ["_"%char] false l).
    unfold is_underscore at 1. destruct (Ascii.eqb_spec "_" c) as [<-|Hc].
    + by rewrite IHb.
    + rewrite IHa. simpl. destruct l; [done|].
      destruct (Ascii.eqb_spec c "_"); [congruence | done].
  - change (Re.sub_runs_chars is_underscore ["_"%char] true (c :: l)) with
      (if is_underscore c then [] ++ Re.sub_runs_chars is_underscore ["_"%char] true l
       else c :: Re.sub_runs_chars is_underscore ["_"%char] false l).
    unfold is_underscore at 1. destruct (Ascii.eqb_spec "_" c) as [<-|Hc].
    + change (collapse_underscores ("_"%char :: "_"%char :: l))
        with (collapse_underscores ("_"%char :: l)). by rewrite IHb.
    + change (collapse_underscores ("_"%char :: c :: l)) with
        (if Ascii.eqb "_" "_" && Ascii.eqb c "_" then collapse_underscores (c :: l)
         else "_"%char :: collapse_underscores (c :: l)).
      destruct (Ascii.eqb_spec c "_"); [congruence|]. simpl.
      f_equal. rewrite IHa. destruct l; [done|].
      destruct (Ascii.eqb_spec c "_"); [congruence | done].
Qed.

(** Replacing each run of outside characters by one underscore and then
    collapsing underscores is collapsing after replacing each outside
    character. *)
Lemma squeeze_mask l : ∀ b r, (b = true → r = true) →
  squeeze r (mask b l) = squeeze r (map outside_to_underscore l).
Proof.
  unfold squeeze, mask.
  induction l as [|c l IH]; intros b r Hbr; [done|].
  change (map outside_to_underscore (c :: l))
    with (outside_to_underscore c :: map outside_to_underscore l).
  destruct (id_path_class c) eqn:Hc.
  - assert (outside_to_underscore c = c) as -> by (unfold outside_to_underscore; by rewrite Hc).
    cbn [Re.sub_runs_chars]. unfold outside_class at 1. rewrite Hc. cbn [negb Re.sub_runs_chars].
    destruct (is_underscore c); f_equal; apply IH; done.
  - assert (outside_to_underscore c = "_"%char) as ->
      by (unfold outside_to_underscore; by rewrite Hc).
    cbn [Re.sub_runs_chars]. unfold outside_class at 1. rewrite Hc. cbn [negb].
    change (is_underscore "_") with true. cbn iota.
    destruct b.
    + rewrite (Hbr eq_refl). cbn [app]. apply IH; done.
    + cbn [app Re.sub_runs_chars]. change (is_underscore "_") with true. cbn iota.
      f_equal. apply IH; done.
Qed.

Lemma squeeze_inside b l :
  Forall (λ c, id_path_class c = true) l → Forall (λ c, id_path_class c = true) (squeeze b l).
Proof.
  unfold squeeze. intros H. revert b.
  induction H as [|c l Hc _ IH]; intros b; simpl; [done|].
  destruct (is_underscore c).
  - destruct b; simpl; [apply IH|]. constructor; [done | apply IH].
  - constructor; [done | apply IH].
Qed.

Lemma mask_inside b l : Forall (λ c, id_path_class c = true) (mask b l).
Proof.
  unfold mask. revert b. induction l as [|c l IH]; intros b; simpl; [done|].
  unfold outside_class at 1. destruct (id_path_class c) eqn:Hc; simpl.
  - constructor; [done | apply IH].
  - destruct b; simpl; [apply IH|]. constructor; [done | apply IH].
Qed.

(** Underscores around the text do not survive the trimming. *)
Lemma squeeze_lstrip r l :
  Str.lstrip_chars is_separator (squeeze r l) = Str.lstrip_chars is_separator (squeeze false l).
Proof.
  unfold squeeze. destruct l as [|c l]; [done|]. simpl.
  destruct (is_underscore c) eqn:Hc; [|done].
  destruct r; simpl; [|done]. done.
Qed.

Lemma squeeze_strip r l :
  Str.strip_chars is_separator (squeeze r l) = Str.strip_chars is_separator (squeeze false l).
Proof. unfold Str.strip_chars. by rewrite squeeze_lstrip. Qed.

Lemma squeeze_underscores r a :
  forallb is_underscore a = true → forallb is_separator (squeeze r a) = true.
Proof.
  unfold squeeze. revert r. induction a as [|c a IH]; intros r; simpl; [done|].
  intros [Hc Ha]%andb_true_iff. rewrite Hc.
  destruct r; simpl; [by apply IH|]. by apply IH.
Qed.

Lemma squeeze_app_l r a l :
  forallb is_underscore a = true →
  ∃ a' r', squeeze r (a ++ l) = a' ++ squeeze r' l ∧ forallb is_separator a' = true.
Proof.
  unfold squeeze. revert r. induction a as [|c a IH]; intros r; simpl.
  - intros _. by exists [], r.
  - intros [Hc Ha]%andb_true_iff. rewrite Hc.
    destruct (IH true Ha) as (a' & r' & Heq & Ha').
    exists ((if r then [] else ["_"%char]) ++ a'), r'. split.
    + by rewrite Heq, <- app_assoc.
    + rewrite forallb_app, Ha'. by destruct r.
Qed.

Lemma squeeze_app_r r l b :
  forallb is_underscore b = true →
  ∃ b', squeeze r (l ++ b) = squeeze r l ++ b' ∧ forallb is_separator b' = true.
Proof.
  intros Hb. revert r. induction l as [|c l IH]; intros r.
  - exists (squeeze r b). split; [done | by apply squeeze_underscores].
  - unfold squeeze in *. simpl. destruct (is_underscore c).
    + destruct (IH true) as (b' & Heq & Hb'). exists b'. by rewrite Heq, <- app_assoc.
    + destruct (IH false) as (b' & Heq & Hb'). exists b'. by rewrite Heq.
Qed.

Lemma strip_squeeze_padded a l b :
  forallb is_underscore a = true → forallb is_underscore b = true →
  Str.strip_chars is_separator (squeeze false (a ++ l ++ b)) =
  Str.strip_chars is_separator (squeeze false l).
Proof.
  intros Ha Hb.
  destruct (squeeze_app_l false a (l ++ b) Ha) as (a' & r' & -> & Ha').
  destruct (squeeze_app_r r' l b Hb) as (b' & -> & Hb').
  rewrite strip_app_all by done. apply squeeze_strip.
Qed.

Lemma spaces_to_underscores a :
  forallb Str.isspace a = true → forallb is_underscore (map outside_to_underscore a) = true.
Proof.
  induction a as [|c a IH]; simpl; [done|].
  intros [Hc Ha]%andb_true_iff. rewrite IH by done.
  unfold outside_to_underscore. by rewrite (space_outside _ Hc).
Qed.

(** The code's pipeline and the replacing pipeline keep the same characters. *)
Lemma core_chars_replacing value :
  Str.chars (_normalize_id_path_core value) =
  Str.strip_chars is_separator
    (collapse_underscores
       (map outside_to_underscore
          (map whitespace_to_underscore
             (map Str.lower_char (Str.chars (Str.opt_or value "")))))).
Proof.
  rewrite core_chars.
  set (L := map Str.lower_char (Str.chars (Str.opt_or value ""))).
  rewrite squeeze_mask by done.
  rewrite !map_map.
  rewrite (map_ext _ _ outside_to_underscore_blank).
  rewrite (map_ext _ _ outside_to_underscore_space).
  rewrite <- (proj1 (collapse_squeeze _)).
  destruct (strip_split Str.isspace L) as (a & b & HL & Ha & Hb).
  rewrite HL at 2. rewrite !map_app.
  symmetry. apply strip_squeeze_padded; by apply spaces_to_underscores.
Qed.

(** ** The identifier normalizer *)


Lemma or_else_nonempty s d : s ≠ "" → Str.or_else s d = s.
Proof. unfold Str.or_else. destruct s; [done|]. done. Qed.

Lemma chars_inj s1 s2 : Str.chars s1 = Str.chars s2 → s1 = s2.
Proof. intros H. by rewrite <- (of_chars_chars s1), <- (of_chars_chars s2), H. Qed.

(** C3, as the specification words it, fails: on ["a!b"] the code keeps an
    underscore where the exclamation mark was, while removing the
    character would give ["ab"]. *)
Lemma normalize_path_does_not_remove :
  _normalize_id_path (Some "a!b") "item" = "a_b" ∧
  normalize_path_removing (Some "a!b") "item" = "ab" ∧
  _normalize_id_path (Some "a!b") "item" ≠ normalize_path_removing (Some "a!b") "item".
Proof. repeat split; vm_compute; congruence. Qed.

(** C3, amended: [_normalize_id_path] lower-cases its input, turns
    whitespace and every other character outside [[a-z0-9/._-]] into an
    underscore, collapses repeated underscores into one, trims leading and
    trailing separators, and returns the fallback exactly when nothing is
    left. It is a total function: it never raises. *)
Theorem normalize_path_replaces value fallback :
  _normalize_id_path value fallback = normalize_path_replacing value fallback.
Proof.
  unfold _normalize_id_path, normalize_path_replacing.
  f_equal. apply chars_inj. rewrite chars_of_chars. apply core_chars_replacing.
Qed.

(** C4: when the normalization leaves something, the output of
    [_normalize_id_path] matches [[a-z0-9/._-]*] and neither starts nor
    ends with one of the separators [_], [.], [/], [-]. *)
Theorem normalize_path_shape value fallback :
  _normalize_id_path_core value ≠ "" →
  let out := _normalize_id_path value fallback in
  Re.fullmatch (Re.Star (Re.Cls id_path_class)) out = true ∧
  (∀ c rest, Str.chars out = c :: rest → Str.one_of "_./-" c = false) ∧
  (∀ front c, Str.chars out = front ++ [c] → Str.one_of "_./-" c = false).
Proof.
  intros Hne out. subst out. unfold _normalize_id_path.
  rewrite or_else_nonempty by done.
  split; [|split].
  - apply ReFacts.fullmatch_star_cls. rewrite core_chars.
    apply strip_Forall, squeeze_inside, mask_inside.
  - intros c rest. rewrite core_chars. apply strip_head.
  - intros front c. rewrite core_chars. apply strip_last.
Qed.

Lemma normalize_path_shape_witness :
  Re.fullmatch (Re.Star (Re.Cls id_path_class))
    (_normalize_id_path (Some "  Ruby Block! ") "item") = true.
Proof.
  apply (normalize_path_shape (Some "  Ruby Block! ") "item").
  vm_compute. discriminate.
Defined.

(** ** Cross-reference resolution *)

Lemma matches_plus_cls p l :
  Re.matches (Re.Plus (Re.Cls p)) l ↔ l ≠ [] ∧ Forall (λ c, p c = true) l.
Proof.
  unfold Re.Plus. split.
  - intros H. inversion H as [| |r1 r2 l1 l2 H1 H2| | | |]; subst; clear H.
    inversion H1; subst. apply ReFacts.matches_star_cls in H2.
    split; [done|]. constructor; done.
  - intros [Hne Hall]. destruct Hall as [|c l Hc Hl]; [done|].
    apply (Re.m_cat _ _ [c] l); [by constructor|].
    by apply ReFacts.matches_star_cls.
Qed.

(** The strict literal shape: a non-empty namespace over [[a-z0-9_.-]], a
    colon, a non-empty path over [[a-z0-9/._-]]. *)
Lemma is_literal_identifier_shape value :
  _is_literal_identifier value = true ↔
  ∃ namespace path,
    Str.chars value = namespace ++ ":"%char :: path ∧
    namespace ≠ [] ∧ Forall (λ c, id_namespace_class c = true) namespace ∧
    path ≠ [] ∧ Forall (λ c, id_path_class c = true) path.
Proof.
  unfold _is_literal_identifier, Re.fullmatch, literal_identifier_re.
  rewrite ReFacts.accepts_matches. split.
  - intros H. inversion H as [| |r1 r2 ns rest Hns Hrest| | | |]; subst; clear H.
    inversion Hrest as [| |r1 r2 colon path Hcolon Hpath| | | |]; subst; clear Hrest.
    inversion Hcolon as [|p c Hc| | | | |]; subst; clear Hcolon.
    apply Ascii.eqb_eq in Hc as <-.
    apply matches_plus_cls in Hns as [? ?]. apply matches_plus_cls in Hpath as [? ?].
    exists ns, path. done.
  - intros (ns & path & -> & ? & ? & ? & ?).
    apply Re.m_cat; [by apply matches_plus_cls|].
    apply (Re.m_cat _ _ [":"%char] path); [|by apply matches_plus_cls].
    constructor. by apply Ascii.eqb_eq.
Qed.

(** C1: a value that already is a strict [namespace:path] literal is used
    as it is; any other value is normalized as a path and qualified with
    the mod's id when the normalized name is a declared item or, failing
    that, a declared block, and with ["minecraft"] otherwise. *)
Theorem resolve_item_like_id_cases value mod_id (generated_items generated_blocks : gset string) :
  let resolved := _resolve_item_like_id value mod_id generated_items generated_blocks in
  let normalized := _normalize_id_path (Some value) "generated" in
  (_is_literal_identifier value = true → resolved = value) ∧
  (_is_literal_identifier value = false →
     (normalized ∈ generated_items → resolved = (mod_id ++ ":" ++ normalized)%string) ∧
     (normalized ∉ generated_items → normalized ∈ generated_blocks →
        resolved = (mod_id ++ ":" ++ normalized)%string) ∧
     (normalized ∉ generated_items → normalized ∉ generated_blocks →
        resolved = ("minecraft:" ++ normalized)%string)).
Proof.
  intros resolved normalized. subst resolved. unfold _resolve_item_like_id.
  fold normalized. split.
  - by intros ->.
  - intros ->. repeat split.
    + intros Hi. by rewrite (bool_decide_eq_true_2 _ Hi).
    + intros Hi Hb. by rewrite (bool_decide_eq_false_2 _ Hi), (bool_decide_eq_true_2 _ Hb).
    + intros Hi Hb. by rewrite (bool_decide_eq_false_2 _ Hi), (bool_decide_eq_false_2 _ Hb).
Qed.

Lemma resolve_item_like_id_cases_witness :
  _resolve_item_like_id "c:gems/ruby" "demo_mod" {["ruby"]} {["ruby_block"]} = "c:gems/ruby" ∧
  _resolve_item_like_id "Ruby" "demo_mod" {["ruby"]} {["ruby_block"]} = "demo_mod:ruby" ∧
  _resolve_item_like_id "ruby block" "demo_mod" {["ruby"]} {["ruby_block"]}
    = "demo_mod:ruby_block" ∧
  _resolve_item_like_id "Stone" "demo_mod" {["ruby"]} {["ruby_block"]} = "minecraft:stone".
Proof.
  pose proof (resolve_item_like_id_cases "c:gems/ruby" "demo_mod" {["ruby"]} {["ruby_block"]})
    as Hliteral.
  pose proof (resolve_item_like_id_cases "Ruby" "demo_mod" {["ruby"]} {["ruby_block"]})
    as Hitem.
  pose proof (resolve_item_like_id_cases "ruby block" "demo_mod" {["ruby"]} {["ruby_block"]})
    as Hblock.
  pose proof (resolve_item_like_id_cases "Stone" "demo_mod" {["ruby"]} {["ruby_block"]})
    as Hother.
  cbv zeta in *.
  destruct Hliteral as [Hliteral _].
  destruct Hitem as [_ Hitem], Hblock as [_ Hblock], Hother as [_ Hother].
  destruct Hitem as (Hitem & _ & _); [vm_compute; reflexivity|].
  destruct Hblock as (_ & Hblock & _); [vm_compute; reflexivity|].
  destruct Hother as (_ & _ & Hother); [vm_compute; reflexivity|].
  vm_compute (_normalize_id_path _ _) in *.
  split; [|split; [|split]].
  - apply Hliteral. vm_compute. reflexivity.
  - apply Hitem. set_solver.
  - apply Hblock; set_solver.
  - apply Hother; set_solver.
Defined.

(** ** Where the generator resolves cross-references

    The recipe output, the key entries of a shaped recipe, the
    ingredients of a shapeless one, the input of a cooking recipe and the
    values of a tag all go through [_resolve_item_like_id]. *)

Lemma cross_references_are_resolved (mod_id : string)
    (generated_items generated_blocks : gset string) :
  let resolve value :=
    _resolve_item_like_id value mod_id generated_items generated_blocks in
  (∀ tag : FabricTagProps.t,
     assoc_get "values"
       (Fabric12111Generator.tag_payload mod_id generated_items generated_blocks tag)
     = Some (json_strs (map resolve (FabricTagProps.values tag)))) ∧
  (∀ recipe : FabricRecipeProps.t,
     let payload :=
       Fabric12111Generator.recipe_payload mod_id generated_items generated_blocks recipe in
     let result :=
       JDict [("item", JStr (resolve (FabricRecipeProps.output recipe)));
              ("count", JInt (FabricRecipeProps.count recipe))] in
     (FabricRecipeProps.recipe_type recipe = "shaped" →
        NoDup (map fst (FabricRecipeProps.key recipe)) →
        assoc_get "result" payload = Some result ∧
        ∃ key_payload,
          assoc_get "key" payload = Some (JDict key_payload) ∧
          ∀ symbol reference,
            assoc_get symbol (FabricRecipeProps.key recipe) = Some reference →
            assoc_get symbol key_payload = Some (JDict [("item", JStr (resolve reference))])) ∧
     (FabricRecipeProps.recipe_type recipe = "shapeless" →
        assoc_get "result" payload = Some result ∧
        assoc_get "ingredients" payload
        = Some (JList (map (λ ingredient, JDict [("item", JStr (resolve ingredient))])
                         (FabricRecipeProps.ingredients recipe)))) ∧
     (FabricRecipeProps.recipe_type recipe ≠ "shaped" →
      FabricRecipeProps.recipe_type recipe ≠ "shapeless" →
        assoc_get "result" payload
        = Some (JStr (resolve (FabricRecipeProps.output recipe))) ∧
        ∀ input, FabricRecipeProps.input_item recipe = Some input →
          assoc_get "ingredient" payload = Some (JDict [("item", JStr (resolve input))]))).
Proof.
  intros resolve. split; [done|].
  intros recipe payload result. subst payload.
  unfold Fabric12111Generator.recipe_payload. split; [|split].
  - intros -> Hnodup. simpl. split; [done|].
    eexists. split; [reflexivity|].
    intros symbol reference Hkey.
    rewrite (assoc_get_fold_set
               (λ r, Fabric12111Generator.item_ref r mod_id generated_items generated_blocks))
      by done.
    by rewrite Hkey.
  - intros ->. done.
  - intros Hshaped Hshapeless.
    destruct (String.eqb_spec (FabricRecipeProps.recipe_type recipe) "shaped"); [done|].
    destruct (String.eqb_spec (FabricRecipeProps.recipe_type recipe) "shapeless"); [done|].
    split; [done|]. intros input ->. done.
Qed.

(** ** The generator registry *)

Lemma truthy_nonempty s : s ≠ "" → Str.truthy s = true.
Proof. by destruct s. Qed.

(** C7: registering under a key that is present, without [replace], fails
    with a [KeyError] and leaves the registry as it was; with [replace]
    it succeeds and the key then yields the new generator; an empty key
    always fails; looking up an absent key fails with a [KeyError]; the
    listing holds exactly the registered keys, once each, in increasing
    order. *)
Theorem registry_contract (generator : Generator.t) (registry : gmap string Generator.t) :
  let key := Generator.key generator in
  (key ≠ "" → is_Some (registry !! key) →
     register_generator generator false registry =
       (Raise (KeyError ("Generator '" ++ key ++ "' is already registered")), registry)) ∧
  (key ≠ "" →
     register_generator generator true registry = (Ok (), <[key := generator]> registry) ∧
     get_generator key (<[key := generator]> registry) = Ok generator) ∧
  (key = "" → ∀ replace,
     register_generator generator replace registry =
       (Raise (ValueError "Generator key must be a non-empty string"), registry)) ∧
  (∀ absent, registry !! absent = None →
     get_generator absent registry = Raise (KeyError absent)) ∧
  Sorted String.le (list_generators registry) ∧
  NoDup (list_generators registry) ∧
  (∀ k, k ∈ list_generators registry ↔ is_Some (registry !! k)).
Proof.
  intros key. unfold register_generator, get_generator, list_generators. fold key.
  split; [|split; [|split; [|split; [|split; [|split]]]]].
  - intros Hne Hin. rewrite (truthy_nonempty _ Hne). simpl.
    by rewrite (bool_decide_eq_true_2 _ Hin).
  - intros Hne. rewrite (truthy_nonempty _ Hne). simpl. rewrite andb_false_r.
    split; [done|]. by rewrite lookup_insert_eq.
  - intros -> replace. done.
  - intros absent ->. done.
  - apply Sorted_merge_sort. apply _.
  - rewrite merge_sort_Permutation. apply NoDup_elements.
  - intros k. rewrite merge_sort_Permutation, elem_of_elements, elem_of_dom. done.
Qed.

Lemma registry_contract_witness :
  (register_generator NoItemGenerator false {["demo-no-item-1.0" := NoItemGenerator]}).1 =
    Raise (KeyError "Generator 'demo-no-item-1.0' is already registered") ∧
  (register_generator NoItemGenerator true {["demo-no-item-1.0" := NoItemGenerator]}).1 = Ok () ∧
  (register_generator UnnamedGenerator true ∅).1 =
    Raise (ValueError "Generator key must be a non-empty string") ∧
  get_generator "does-not-exist" {["demo-no-item-1.0" := NoItemGenerator]} =
    Raise (KeyError "does-not-exist").
Proof.
  pose proof (registry_contract NoItemGenerator {["demo-no-item-1.0" := NoItemGenerator]})
    as (Hdup & Hreplace & _ & Habsent & _).
  pose proof (registry_contract UnnamedGenerator ∅) as (_ & _ & Hempty & _).
  split; [|split; [|split]].
  - rewrite Hdup; [done | done |]. simpl. by rewrite lookup_singleton_eq.
  - destruct Hreplace as [-> _]; done.
  - rewrite Hempty; done.
  - apply Habsent. by rewrite lookup_singleton_ne.
Defined.

(** ** Construction of a Mod and its element factories *)

Lemma lookup_snoc {A} (l : list A) (x : A) : (l ++ [x]) !! length l = Some x.
Proof. by rewrite list_lookup_middle. Qed.

(** C8: constructing a Mod with a generator key that the registry does
    not hold raises [KeyError] at once and creates nothing, so no element
    can be declared; with a registered key the Mod is created and bound
    to that key's generator; asking it for a category the generator does
    not offer raises [AttributeError], and asking for one it offers gives
    a factory whose call constructs an element of that category's class
    with this Mod as owner. *)
Theorem mod_construction (registry : gmap string Generator.t)
    (author generator mod_id name version : string) (σ : Store) :
  (registry !! generator = None →
     Mod.__init__ registry author generator mod_id name version σ
       = (Raise (KeyError generator), σ)) ∧
  (∀ g, registry !! generator = Some g →
     let self := length (mods σ) in
     ∃ σ',
       Mod.__init__ registry author generator mod_id name version σ = (Ok self, σ') ∧
       elems σ' = elems σ ∧
       ModObj._generator <$> mods σ' !! self = Some g ∧
       ModObj.elements <$> mods σ' !! self = Some [] ∧
       (∀ category, Generator.element_types g !! category = None →
          Mod.__getattr__ self category σ' = (Raise (AttributeError category), σ')) ∧
       (∀ category cls, Generator.element_types g !! category = Some cls →
          let factory := {| Mod.element_type := cls; Mod.self_ := self |} in
          Mod.__getattr__ self category σ' = (Ok factory, σ') ∧
          ∀ kwargs declared_name properties,
            init_fields cls mod_id kwargs = Ok (declared_name, properties) →
            Mod.call factory kwargs σ' =
              (Ok (length (elems σ')),
               set_elems (λ es, es ++ [{|
                 ElementObj.cls := cls;
                 ElementObj.mod_ := self;
                 ElementObj.name := Str.opt_or declared_name (KIND cls);
                 ElementObj.properties := properties;
                 ElementObj.events := [] |}]) σ'))).
Proof.
  split.
  - intros Hnone. unfold Mod.__init__, get_generator. by rewrite Hnone.
  - intros g Hg self. subst self. unfold Mod.__init__, get_generator. rewrite Hg.
    eexists. split; [reflexivity|]. simpl.
    split; [done|]. rewrite lookup_snoc. simpl.
    split; [done|]. split; [done|]. split.
    + intros category Hcat. unfold Mod.__getattr__, bind, get_mod. simpl.
      rewrite lookup_snoc. simpl. by rewrite Hcat.
    + intros category cls Hcat.
      unfold Mod.__getattr__, bind, get_mod. simpl.
      rewrite lookup_snoc. simpl. rewrite Hcat. split; [done|].
      intros kwargs declared_name properties Hinit.
      unfold Mod.call, Element.construct, bind, get_mod. simpl.
      rewrite lookup_snoc. simpl. by rewrite Hinit.
Qed.

Lemma mod_construction_witness :
  (Mod.__init__ {["demo-no-item-1.0" := NoItemGenerator]}
     "tester" "does-not-exist" "examplemod" "Example Mod" "0.1.0" empty_store).1
    = Raise (KeyError "does-not-exist") ∧
  (Mod.__init__ {["demo-no-item-1.0" := NoItemGenerator]}
     "author" "demo-no-item-1.0" "examplemod" "Arcana" "0.1.0" empty_store).1 = Ok 0.
Proof.
  pose proof (mod_construction {["demo-no-item-1.0" := NoItemGenerator]}
                "tester" "does-not-exist" "examplemod" "Example Mod" "0.1.0" empty_store)
    as [Hmissing _].
  pose proof (mod_construction {["demo-no-item-1.0" := NoItemGenerator]}
                "author" "demo-no-item-1.0" "examplemod" "Arcana" "0.1.0" empty_store)
    as [_ Hfound].
  split.
  - rewrite Hmissing; [done|]. by rewrite lookup_singleton_ne.
  - destruct (Hfound NoItemGenerator) as (σ' & -> & _); [|done].
    by rewrite lookup_singleton_eq.
Defined.

(** ** Numeric fields of Item and Entity *)

Lemma float_max_lower a b : (a <= float_max a b)%Q.
Proof.
  unfold float_max. destruct (Qle_bool b a) eqn:Hle.
  - apply Qle_refl.
  - apply Qlt_le_weak, Qnot_le_lt. intros H%Qle_bool_iff. congruence.
Qed.

(** C9, as stated, fails: an Item declared with [max_count=0] and
    [durability=-5] and an Entity declared with [width=-1] and
    [max_health=0] are constructed without error, the fields silently
    raised to 1, 1, 0.1 and 1.0. *)
Lemma out_of_range_fields_are_accepted :
  FabricItem_init "demo_mod"
    {| FabricItemArgs.identifier := Some "ruby"; FabricItemArgs.name := None;
       FabricItemArgs.texture := None; FabricItemArgs.model := None;
       FabricItemArgs.creative_tab := None; FabricItemArgs.max_count := 0;
       FabricItemArgs.durability := Some (-5)%Z; FabricItemArgs.fireproof := false;
       FabricItemArgs.rarity := "common" |}
  = Ok (Some "ruby",
        PItem {| FabricItemProps.identifier := "ruby";
                 FabricItemProps.display_name := "Ruby";
                 FabricItemProps.texture := None; FabricItemProps.model := None;
                 FabricItemProps.creative_tab := None; FabricItemProps.max_count := 1;
                 FabricItemProps.durability := Some 1%Z; FabricItemProps.fireproof := false;
                 FabricItemProps.rarity := "COMMON" |}) ∧
  ∃ p, FabricEntity_init "demo_mod"
         {| FabricEntityArgs.identifier := Some "guard"; FabricEntityArgs.name := None;
            FabricEntityArgs.spawn_group := "monster";
            FabricEntityArgs.width := -1; FabricEntityArgs.height := 2;
            FabricEntityArgs.max_health := 0; FabricEntityArgs.movement_speed := 1 # 4;
            FabricEntityArgs.attack_damage := 2; FabricEntityArgs.creative_tab := None;
            FabricEntityArgs.spawn_egg_primary := None;
            FabricEntityArgs.spawn_egg_secondary := None;
            FabricEntityArgs.tracking_range := 8; FabricEntityArgs.tracked_update_rate := 3;
            FabricEntityArgs.force_tracked_velocity_updates := false |}
       = Ok (Some "guard", PEntity p) ∧
       FabricEntityProps.width p = float_0_1 ∧ FabricEntityProps.max_health p = 1%Q.
Proof. split; [vm_compute; reflexivity|]. eexists. vm_compute. repeat split. Qed.

(** C9, amended: construction does not reject an out-of-range numeric
    field, it clamps it. An Item is always constructed, with [max_count]
    and [durability] raised to at least 1; an Entity is constructed
    whenever its two spawn-egg colours parse, with [width] and [height]
    raised to at least 0.1, [max_health] to at least 1.0,
    [movement_speed] to at least 0.01, [attack_damage] to at least 0.0,
    [tracking_range] and [tracked_update_rate] to at least 1; the element
    stored holds the clamped values. *)
Theorem numeric_fields_are_clamped :
  (∀ (σ : Store) (self : nat) (owner : ModObj.t) (a : FabricItemArgs.t),
     mods σ !! self = Some owner →
     ∃ σ' stored p,
       Element.construct FabricItem self a σ = (Ok (length (elems σ)), σ') ∧
       elems σ' !! length (elems σ) = Some stored ∧
       ElementObj.properties stored = PItem p ∧
       FabricItemProps.max_count p = Z.max 1 (FabricItemArgs.max_count a) ∧
       FabricItemProps.durability p = Z.max 1 <$> FabricItemArgs.durability a ∧
       (1 ≤ FabricItemProps.max_count p)%Z ∧
       (∀ d, FabricItemProps.durability p = Some d → (1 ≤ d)%Z)) ∧
  (∀ (σ : Store) (self : nat) (owner : ModObj.t) (a : FabricEntityArgs.t) primary secondary,
     mods σ !! self = Some owner →
     _parse_color (FabricEntityArgs.spawn_egg_primary a) = Ok primary →
     _parse_color (FabricEntityArgs.spawn_egg_secondary a) = Ok secondary →
     ∃ σ' stored p,
       Element.construct FabricEntity self a σ = (Ok (length (elems σ)), σ') ∧
       elems σ' !! length (elems σ) = Some stored ∧
       ElementObj.properties stored = PEntity p ∧
       FabricEntityProps.width p = float_max float_0_1 (FabricEntityArgs.width a) ∧
       FabricEntityProps.height p = float_max float_0_1 (FabricEntityArgs.height a) ∧
       FabricEntityProps.max_health p = float_max 1 (FabricEntityArgs.max_health a) ∧
       FabricEntityProps.movement_speed p
         = float_max float_0_01 (FabricEntityArgs.movement_speed a) ∧
       FabricEntityProps.attack_damage p = float_max 0 (FabricEntityArgs.attack_damage a) ∧
       FabricEntityProps.tracking_range p = Z.max 1 (FabricEntityArgs.tracking_range a) ∧
       FabricEntityProps.tracked_update_rate p
         = Z.max 1 (FabricEntityArgs.tracked_update_rate a) ∧
       (float_0_1 <= FabricEntityProps.width p)%Q ∧
       (float_0_1 <= FabricEntityProps.height p)%Q ∧
       (1 <= FabricEntityProps.max_health p)%Q ∧
       (float_0_01 <= FabricEntityProps.movement_speed p)%Q ∧
       (0 <= FabricEntityProps.attack_damage p)%Q).
Proof.
  split.
  - intros σ self owner a Hself.
    unfold Element.construct, bind, get_mod. rewrite Hself. simpl.
    do 3 eexists. split; [reflexivity|]. simpl. rewrite lookup_snoc.
    split; [reflexivity|]. simpl. split; [reflexivity|].
    split; [reflexivity|]. split; [reflexivity|]. simpl. split; [lia|].
    intros d. destruct (FabricItemArgs.durability a); simpl; [|done].
    intros [= <-]. lia.
  - intros σ self owner a primary secondary Hself Hp Hs.
    unfold Element.construct, bind, get_mod. rewrite Hself. simpl.
    unfold FabricEntity_init. rewrite Hp, Hs. simpl.
    do 3 eexists. split; [reflexivity|]. simpl. rewrite lookup_snoc.
    split; [reflexivity|]. simpl. split; [reflexivity|].
    repeat (split; [reflexivity|]). simpl.
    repeat split; apply float_max_lower.
Qed.

Lemma numeric_fields_are_clamped_witness :
  (Element.construct FabricItem 0
     {| FabricItemArgs.identifier := Some "ruby"; FabricItemArgs.name := None;
        FabricItemArgs.texture := None; FabricItemArgs.model := None;
        FabricItemArgs.creative_tab := None; FabricItemArgs.max_count := 0;
        FabricItemArgs.durability := Some (-5)%Z; FabricItemArgs.fireproof := false;
        FabricItemArgs.rarity := "common" |} tester_store).1 = Ok 0 ∧
  (Element.construct FabricEntity 0
     {| FabricEntityArgs.identifier := Some "guard"; FabricEntityArgs.name := None;
        FabricEntityArgs.spawn_group := "monster";
        FabricEntityArgs.width := -1; FabricEntityArgs.height := 2;
        FabricEntityArgs.max_health := 0; FabricEntityArgs.movement_speed := 1 # 4;
        FabricEntityArgs.attack_damage := 2; FabricEntityArgs.creative_tab := None;
        FabricEntityArgs.spawn_egg_primary := Some (ColorStr "#b90f3f");
        FabricEntityArgs.spawn_egg_secondary := None;
        FabricEntityArgs.tracking_range := 8; FabricEntityArgs.tracked_update_rate := 3;
        FabricEntityArgs.force_tracked_velocity_updates := false |} tester_store).1 = Ok 0.
Proof.
  destruct numeric_fields_are_clamped as [Hitem Hentity].
  split.
  - edestruct (Hitem tester_store 0 tester_mod) as (σ' & stored & p & -> & _); done.
  - edestruct (Hentity tester_store 0 tester_mod) as (σ' & stored & p & -> & _);
      [done | vm_compute; reflexivity | vm_compute; reflexivity | done].
Defined.

(** ** Action capture *)

Lemma stacks_alter_stack f m σ :
  stacks (set_mods (alter (ModObj.set_stack f) m) σ) = alter f m (stacks σ).
Proof. unfold stacks. simpl. apply list_fmap_alter, Forall_true. done. Qed.

Lemma stacks_alter_startup f m σ :
  stacks (set_mods (alter (ModObj.set_startup_actions f) m) σ) = stacks σ.
Proof.
  unfold stacks. simpl.
  rewrite (list_fmap_alter _ _ id) by (by apply Forall_true). by apply list_alter_id.
Qed.


Lemma stacks_lookup_inv σ m st :
  stacks σ !! m = Some st → ∃ o, mods σ !! m = Some o ∧ ModObj._action_capture_stack o = st.
Proof.
  unfold stacks. rewrite list_lookup_fmap.
  destruct (mods σ !! m) as [o|]; simpl; [|done]. intros [= <-]. by exists o.
Qed.

Lemma sendConsole_stacks m command σ :
  stacks (Mod.sendConsole m command σ).2 = stacks σ.
Proof.
  unfold Mod.sendConsole, bind, get_mod.
  destruct (mods σ !! m) as [o|]; [|done].
  destruct (last (ModObj._action_capture_stack o)) as [top|].
  - unfold update_list. by destruct (lists σ !! top).
  - unfold update_mod. destruct (mods σ !! m); [|done]. simpl.
    apply stacks_alter_startup.
Qed.

(** Popping what was pushed restores the stacks. *)
Lemma pop_push_stacks (ss : list (list nat)) m a :
  alter (removelast (A:=nat)) m (alter (λ st, st ++ [a]) m ss) = ss.
Proof.
  rewrite list_alter_alter_eq. apply list_alter_id.
  intros st. simpl. apply removelast_last.
Qed.

(** What [_run_action_capture] does around a callable that leaves the
    stacks as it found them. *)
Lemma run_action_capture_eq self func σ o :
  mods σ !! self = Some o →
  let actions := length (lists σ) in
  let σ1 := set_mods (alter (ModObj.set_stack (λ st, st ++ [actions])) self)
              (set_lists (λ ls, ls ++ [[]]) σ) in
  stacks (func σ1).2 = stacks σ1 →
  Mod._run_action_capture self func σ =
    (match (func σ1).1 with Ok _ => Ok actions | Raise e => Raise e end,
     set_mods (alter (ModObj.set_stack (removelast (A:=nat))) self) (func σ1).2).
Proof.
  intros Hself actions σ1 Hfunc.
  unfold Mod._run_action_capture, bind, new_list, update_mod, try_finally, get_mod, ret.
  simpl. rewrite Hself. fold actions. fold σ1.
  destruct (func σ1) as [r σ2] eqn:Hrun. simpl in *.
  assert (stacks σ1 !! self = Some (ModObj._action_capture_stack o ++ [actions])) as Hst.
  { unfold σ1. rewrite stacks_alter_stack, list_lookup_alter_eq.
    unfold stacks. simpl. by rewrite list_lookup_fmap, Hself. }
  rewrite <- Hfunc in Hst. apply stacks_lookup_inv in Hst as (o2 & Ho2 & Hstack).
  rewrite Ho2, Hstack.
  destruct (ModObj._action_capture_stack o ++ [actions]) eqn:Happ.
  { by apply app_eq_nil in Happ as [_ ?]. }
  rewrite Ho2. by destruct r.
Qed.

Lemma run_action_capture_stacks self func σ :
  (∀ τ, stacks (func τ).2 = stacks τ) →
  stacks (Mod._run_action_capture self func σ).2 = stacks σ.
Proof.
  intros Hfunc. destruct (mods σ !! self) as [o|] eqn:Hself.
  - rewrite (run_action_capture_eq _ _ _ o Hself) by apply Hfunc. simpl.
    rewrite stacks_alter_stack, Hfunc, stacks_alter_stack. apply pop_push_stacks.
  - unfold Mod._run_action_capture, bind, new_list, update_mod. simpl. by rewrite Hself.
Qed.

(** A handler leaves every capture stack as it found it. *)
Lemma exec_stacks p : ∀ σ, stacks (exec p σ).2 = stacks σ.
Proof.
  induction p as [|e|m command next IH|element event handler IHh next IHn]; intros σ; simpl.
  - done.
  - done.
  - unfold bind. pose proof (sendConsole_stacks m command σ) as Hs.
    destruct (Mod.sendConsole m command σ) as [[[]|e] σ']; simpl in *; [|done].
    by rewrite IH.
  - unfold bind at 1.
    assert (stacks (_ElementEventNamespace.__getattr__ element event (exec handler) σ).2
            = stacks σ) as Hs.
    { unfold _ElementEventNamespace.__getattr__, bind, get_elem.
      destruct (elems σ !! element) as [o|]; [|done].
      destruct (negb _); [done|].
      pose proof (run_action_capture_stacks (ElementObj.mod_ o) (exec handler) σ IHh) as Hc.
      destruct (Mod._run_action_capture _ _ σ) as [[a|e] σ']; simpl in *; [|done].
      unfold update_elem. by destruct (elems σ' !! element). }
    destruct (_ElementEventNamespace.__getattr__ _ _ _ σ) as [[[]|e] σ']; simpl in *; [|done].
    by rewrite IHn.
Qed.

Lemma alter_snoc {A} (f : A → A) (l : list A) (x : A) :
  alter f (length l) (l ++ [x]) = l ++ [f x].
Proof. induction l as [|y l IH]; simpl; [done|]. by f_equal. Qed.

Lemma store_eta σ : {| mods := mods σ; elems := elems σ; lists := lists σ |} = σ.
Proof. by destruct σ. Qed.

Lemma pop_push_mods (ms : list ModObj.t) m a :
  alter (ModObj.set_stack (removelast (A:=nat))) m
    (alter (ModObj.set_stack (λ st, st ++ [a])) m ms) = ms.
Proof.
  rewrite list_alter_alter_eq. apply list_alter_id.
  intros [? ? ? ? ? ? ? st ?]. unfold ModObj.set_stack. simpl.
  by rewrite removelast_last.
Qed.

(** One [sendConsole] under an active context. *)
Lemma sendConsole_captured self command σ o below top recorded :
  mods σ !! self = Some o →
  ModObj._action_capture_stack o = below ++ [top] →
  lists σ !! top = Some recorded →
  Mod.sendConsole self command σ =
    (Ok (), set_lists (alter (λ acts, acts ++ [console_action command]) top) σ).
Proof.
  intros Hself Hstack Htop.
  unfold Mod.sendConsole, bind, get_mod, update_list.
  by rewrite Hself, Hstack, last_snoc, Htop.
Qed.

(** A handler that only sends commands appends their records, in order,
    to the innermost context. *)
Lemma exec_sends self commands : ∀ σ o below top recorded,
  mods σ !! self = Some o →
  ModObj._action_capture_stack o = below ++ [top] →
  lists σ !! top = Some recorded →
  exec (sends self commands) σ =
    (Ok (), set_lists (alter (λ acts, acts ++ map console_action commands) top) σ).
Proof.
  induction commands as [|c commands IH]; intros σ o below top recorded Hself Hstack Htop.
  - simpl. unfold ret, set_lists. rewrite list_alter_id; [|intros; apply app_nil_r].
    by rewrite store_eta.
  - simpl. unfold bind. rewrite (sendConsole_captured _ _ _ o below top recorded) by done.
    fold (sends self commands).
    rewrite (IH _ o below top (recorded ++ [console_action c])); [|done|done|].
    + unfold set_lists. simpl. rewrite list_alter_alter_eq. do 2 f_equal.
      apply list_alter_ext; [|done]. intros acts _. simpl. by rewrite <- app_assoc.
    + simpl. by rewrite list_lookup_alter_eq, Htop.
Qed.

(** Capturing a handler that only sends commands. *)
Lemma run_action_capture_sends self commands σ owner :
  mods σ !! self = Some owner →
  Mod._run_action_capture self (exec (sends self commands)) σ =
    (Ok (length (lists σ)),
     {| mods := mods σ; elems := elems σ;
        lists := lists σ ++ [map console_action commands] |}).
Proof.
  intros Hself.
  rewrite (run_action_capture_eq self _ σ owner Hself) by apply exec_stacks.
  set (actions := length (lists σ)).
  set (pushed := set_mods _ (set_lists _ σ)).
  rewrite (exec_sends self commands pushed
             (ModObj.set_stack (λ st, st ++ [actions]) owner)
             (ModObj._action_capture_stack owner) actions []).
  - simpl. unfold set_mods, set_lists. simpl. f_equal.
    rewrite pop_push_mods. unfold actions. by rewrite alter_snoc.
  - unfold pushed. simpl. by rewrite list_lookup_alter_eq, Hself.
  - done.
  - unfold pushed. simpl. apply lookup_snoc.
Qed.

(** C5: [_run_action_capture] pushes a new empty context, runs the
    handler once and pops the context again, whether the handler returns
    or raises, and then returns the context or lets the exception
    through; a handler that calls [sendConsole] several times yields the
    records of these calls, one each, in call order; while a context is
    active [sendConsole] appends one record to the innermost one and to
    nothing else; with no active context it appends the record to the
    Mod's [startup_actions]. *)
Theorem action_capture_discipline (σ : Store) (self : nat) (owner : ModObj.t) :
  mods σ !! self = Some owner →
  (∀ handler : proc,
     let actions := length (lists σ) in
     let pushed :=
       set_mods (alter (ModObj.set_stack (λ st, st ++ [actions])) self)
         (set_lists (λ ls, ls ++ [[]]) σ) in
     let ran := exec handler pushed in
     let popped := set_mods (alter (ModObj.set_stack (removelast (A:=nat))) self) ran.2 in
     Mod._run_action_capture self (exec handler) σ =
       (match ran.1 with Ok _ => Ok actions | Raise e => Raise e end, popped) ∧
     stacks popped = stacks σ) ∧
  (∀ commands : list string,
     Mod._run_action_capture self (exec (sends self commands)) σ =
       (Ok (length (lists σ)),
        {| mods := mods σ; elems := elems σ;
           lists := lists σ ++ [map console_action commands] |})) ∧
  (∀ command below top recorded,
     ModObj._action_capture_stack owner = below ++ [top] →
     lists σ !! top = Some recorded →
     Mod.sendConsole self command σ =
       (Ok (),
        {| mods := mods σ; elems := elems σ;
           lists := <[top := recorded ++ [console_action command]]> (lists σ) |})) ∧
  (∀ command,
     ModObj._action_capture_stack owner = [] →
     Mod.sendConsole self command σ =
       (Ok (),
        {| mods := <[self := ModObj.set_startup_actions
                               (λ acts, acts ++ [console_action command]) owner]> (mods σ);
           elems := elems σ; lists := lists σ |})).
Proof.
  intros Hself. split; [|split; [|split]].
  - intros handler actions pushed ran popped.
    split.
    + apply (run_action_capture_eq self (exec handler) σ owner Hself), exec_stacks.
    + unfold popped, ran. rewrite stacks_alter_stack, exec_stacks.
      unfold pushed. rewrite stacks_alter_stack. apply pop_push_stacks.
  - intros commands. by apply (run_action_capture_sends self commands σ owner).
  - intros command below top recorded Hstack Htop.
    rewrite (sendConsole_captured _ _ _ owner below top recorded) by done.
    unfold set_lists. do 2 f_equal.
    rewrite list_insert_alter. apply list_alter_ext; [|done].
    intros acts Hacts. congruence.
  - intros command Hstack.
    unfold Mod.sendConsole, bind, get_mod, update_mod.
    rewrite Hself, Hstack. simpl. rewrite Hself. unfold set_mods. do 2 f_equal.
    rewrite list_insert_alter. apply list_alter_ext; [|done].
    intros o Ho. congruence.
Qed.

Lemma action_capture_discipline_witness :
  Mod._run_action_capture 0 (exec (sends 0 ["say one"; "say two"])) tester_store =
    (Ok 0, {| mods := [tester_mod]; elems := [];
              lists := [[console_action "say one"; console_action "say two"]] |}) ∧
  Mod._run_action_capture 0
    (exec (SendConsole 0 "say one" (Throw (UserError "boom")))) tester_store =
    (Raise (UserError "boom"),
     {| mods := [tester_mod]; elems := []; lists := [[console_action "say one"]] |}).
Proof.
  destruct (action_capture_discipline tester_store 0 tester_mod) as (Hcapture & Hsends & _).
  - reflexivity.
  - split.
    + apply (Hsends ["say one"; "say two"]).
    + destruct (Hcapture (SendConsole 0 "say one" (Throw (UserError "boom")))) as [-> _].
      reflexivity.
Defined.

(** ** Serialization *)

(** Reading the store leaves it as it is. *)
Lemma mapM_read {A B} (f : A → M B) xs :
  (∀ x τ, (f x τ).2 = τ) → ∀ τ, (mapM f xs τ).2 = τ.
Proof.
  intros Hf. induction xs as [|x xs IH]; intros τ; simpl; [done|].
  unfold bind. specialize (Hf x τ).
  destruct (f x τ) as [[y|e] τ1]; simpl in *; subst τ1; [|done].
  specialize (IH τ). destruct (mapM f xs τ) as [[ys|e] τ2]; simpl in *; by subst τ2.
Qed.

Lemma get_list_read a τ : (get_list a τ).2 = τ.
Proof. unfold get_list. by destruct (lists τ !! a). Qed.

Lemma event_json_read slot τ : (Element.event_json slot τ).2 = τ.
Proof.
  unfold Element.event_json, bind.
  pose proof (mapM_read get_list slot.2 get_list_read τ) as H.
  destruct (mapM get_list slot.2 τ) as [[ys|e] τ1]; simpl in *; by subst.
Qed.

Lemma to_dict_read e τ : (Element.to_dict e τ).2 = τ.
Proof.
  unfold Element.to_dict, bind, get_elem.
  destruct (elems τ !! e) as [o|]; [|done].
  pose proof (mapM_read Element.event_json (ElementObj.events o) event_json_read τ) as H.
  destruct (mapM Element.event_json (ElementObj.events o) τ) as [[ys|err] τ1];
    simpl in *; by subst.
Qed.

(** The outcome of a list comprehension over reads. *)
Lemma mapM_read_cons {A B} (f : A → M B) x xs τ y ys :
  (∀ x τ, (f x τ).2 = τ) →
  (f x τ).1 = Ok y → (mapM f xs τ).1 = Ok ys → (mapM f (x :: xs) τ).1 = Ok (y :: ys).
Proof.
  intros Hf Hx Hxs. simpl. unfold bind.
  pose proof (Hf x τ) as H1. destruct (f x τ) as [r τ1]. simpl in *. subst.
  pose proof (mapM_read f xs Hf τ) as H2. destruct (mapM f xs τ) as [r τ2]. simpl in *.
  by subst.
Qed.

Lemma mapM_read_inv {A B} (f : A → M B) x xs τ rs :
  (∀ x τ, (f x τ).2 = τ) →
  (mapM f (x :: xs) τ).1 = Ok rs →
  ∃ y ys, rs = y :: ys ∧ (f x τ).1 = Ok y ∧ (mapM f xs τ).1 = Ok ys.
Proof.
  intros Hf. simpl. unfold bind.
  pose proof (Hf x τ) as H1. destruct (f x τ) as [[y|e] τ1]; simpl in *; [|done]. subst.
  pose proof (mapM_read f xs Hf τ) as H2.
  destruct (mapM f xs τ) as [[ys|e] τ2]; simpl in *; [|done].
  intros [= <-]. by exists y, ys.
Qed.

Lemma mapM_read_app {A B} (f : A → M B) xs ys τ rs rs' :
  (∀ x τ, (f x τ).2 = τ) →
  (mapM f xs τ).1 = Ok rs → (mapM f ys τ).1 = Ok rs' →
  (mapM f (xs ++ ys) τ).1 = Ok (rs ++ rs').
Proof.
  intros Hf. revert rs. induction xs as [|x xs IH]; intros rs Hxs Hys.
  - simpl in Hxs. injection Hxs as <-. done.
  - apply mapM_read_inv in Hxs as (y & ys' & -> & Hx & Hxs); [|done].
    simpl app. apply mapM_read_cons; auto.
Qed.

(** Reads that succeed keep their outcome when objects are added. *)
Lemma mapM_read_mono {A B} (f : A → M B) xs σ σ' rs :
  (∀ x τ, (f x τ).2 = τ) →
  (∀ x r, (f x σ).1 = Ok r → (f x σ').1 = Ok r) →
  (mapM f xs σ).1 = Ok rs → (mapM f xs σ').1 = Ok rs.
Proof.
  intros Hf Hmono. revert rs. induction xs as [|x xs IH]; intros rs Hxs; [done|].
  apply mapM_read_inv in Hxs as (y & ys & -> & Hx & Hxs); [|done].
  apply mapM_read_cons; auto.
Qed.

Lemma get_list_mono σ σ' a r :
  extends σ σ' → (get_list a σ).1 = Ok r → (get_list a σ').1 = Ok r.
Proof.
  intros [_ Hl]. unfold get_list. destruct (lists σ !! a) as [acts|] eqn:Ha; [|done].
  by rewrite (prefix_lookup_Some _ _ _ _ Ha Hl).
Qed.

Lemma event_json_mono σ σ' slot r :
  extends σ σ' → (Element.event_json slot σ).1 = Ok r → (Element.event_json slot σ').1 = Ok r.
Proof.
  intros Hext. unfold Element.event_json, bind.
  pose proof (mapM_read get_list slot.2 get_list_read σ) as H1.
  pose proof (mapM_read get_list slot.2 get_list_read σ') as H2.
  destruct (mapM get_list slot.2 σ) as [[ys|e] τ1] eqn:Hrun; simpl in *; [|done].
  assert ((mapM get_list slot.2 σ').1 = Ok ys) as Hrun'.
  { apply (mapM_read_mono get_list slot.2 σ σ'); [apply get_list_read| |by rewrite Hrun].
    intros a acts. by apply get_list_mono. }
  destruct (mapM get_list slot.2 σ') as [r' τ2]; simpl in *. by subst.
Qed.

Lemma to_dict_mono σ σ' e r :
  extends σ σ' → (Element.to_dict e σ).1 = Ok r → (Element.to_dict e σ').1 = Ok r.
Proof.
  intros Hext. unfold Element.to_dict, bind, get_elem.
  destruct (elems σ !! e) as [o|] eqn:He; [|done].
  rewrite (prefix_lookup_Some _ _ _ _ He (proj1 Hext)).
  pose proof (mapM_read Element.event_json (ElementObj.events o) event_json_read σ) as H1.
  pose proof (mapM_read Element.event_json (ElementObj.events o) event_json_read σ') as H2.
  destruct (mapM Element.event_json (ElementObj.events o) σ) as [[ys|err] τ1] eqn:Hrun;
    simpl in *; [|done].
  assert ((mapM Element.event_json (ElementObj.events o) σ').1 = Ok ys) as Hrun'.
  { apply (mapM_read_mono Element.event_json _ σ σ');
      [apply event_json_read| |by rewrite Hrun].
    intros slot j. by apply event_json_mono. }
  destruct (mapM Element.event_json (ElementObj.events o) σ') as [r' τ2]; simpl in *.
  by subst.
Qed.

(** C6, as stated, fails in three ways. [BaseElement.__init__] stores the
    name it is given, so the [Spell] of the tests declared with
    [name="Foo"] is serialized under the name ["Foo"], not ["foo"], and an
    Item declared with [identifier="ruby"] and [name="Foo"] is stored
    under ["ruby"]. An element that was declared, and had its handler
    registered, is not in the manifest until it is passed to [add]. And
    the manifest lists the elements in the order of the [add] calls, not
    in the order they were declared. *)
Lemma declared_foo_is_neither_normalized_nor_listed :
  ((let! spell :=
      Element.construct Spell 0
        {| SpellArgs.mana_cost := 1; SpellArgs.name := Some "Foo" |} in
    do! _ElementEventNamespace.__getattr__ spell "Cast" (exec (sends 0 ["ping"])) in
    let! _ := Mod.add 0 spell in
    Mod.to_manifest 0) tester_store).1
  = Ok (manifest_of tester_mod
          [JDict [("kind", JStr "spell"); ("name", JStr "Foo");
                  ("properties", JDict [("mana_cost", JInt 1)]);
                  ("events", JDict [("Cast", JList [JList [console_action "ping"]])])]]) ∧
  FabricItem_init "demo_mod"
    {| FabricItemArgs.identifier := Some "ruby"; FabricItemArgs.name := Some "Foo";
       FabricItemArgs.texture := None; FabricItemArgs.model := None;
       FabricItemArgs.creative_tab := None; FabricItemArgs.max_count := 64;
       FabricItemArgs.durability := None; FabricItemArgs.fireproof := false;
       FabricItemArgs.rarity := "common" |}
  = Ok (Some "ruby",
        PItem {| FabricItemProps.identifier := "ruby";
                 FabricItemProps.display_name := "Foo";
                 FabricItemProps.texture := None; FabricItemProps.model := None;
                 FabricItemProps.creative_tab := None; FabricItemProps.max_count := 64;
                 FabricItemProps.durability := None; FabricItemProps.fireproof := false;
                 FabricItemProps.rarity := "COMMON" |}) ∧
  ((let! foo := Element.construct FabricItem 0 foo_item_args in
    do! _ElementEventNamespace.__getattr__ foo "Use" (exec (sends 0 ["ping"])) in
    Mod.to_manifest 0) tester_store).1
  = Ok (manifest_of tester_mod []) ∧
  ∃ manifest,
    ((let! foo := Element.construct FabricItem 0 foo_item_args in
      let! bar := Element.construct FabricItem 0 bar_item_args in
      let! _ := Mod.add 0 bar in
      let! _ := Mod.add 0 foo in
      Mod.to_manifest 0) tester_store).1 = Ok manifest ∧
    manifest_names manifest = ["bar"; "foo"].
Proof.
  split; [vm_compute; reflexivity|]. split; [vm_compute; reflexivity|].
  split; [vm_compute; reflexivity|].
  eexists. split; [reflexivity|]. vm_compute. reflexivity.
Qed.

Lemma declared_foo_init cls kwargs mod_id :
  declared_foo cls kwargs →
  ∃ properties, init_fields cls mod_id kwargs = Ok (Some "foo", properties).
Proof.
  intros H. destruct H as [a Hid Hname|a Hid Hname|a Hlit Hid Hname|a Hid Hname Hp Hs].
  - destruct a; simpl in *; subst. by eexists.
  - destruct a; simpl in *; subst. by eexists.
  - destruct a; simpl in *; subst. by eexists.
  - destruct a; simpl in *; subst.
    unfold FabricEntity_init. simpl.
    destruct (_parse_color spawn_egg_primary); [|done].
    destruct (_parse_color spawn_egg_secondary); [|done]. simpl. by eexists.
Qed.

(** C6, amended: an Item, Block, Command or Entity of the Fabric
    generator declared with the display name ["Foo"] and no identifier
    (a Command also without a literal) is stored under the normalized
    name ["foo"]; after one handler with the single call
    [sendConsole("ping")] is registered for one of its events, its
    serialized form has its kind tag, the name ["foo"] and an events
    mapping that binds that event to exactly
    [[[{"type": "console", "command": "ping"}]]]. The manifest lists the
    elements passed to [add], in the order of these calls: as long as
    the element is not added, [to_manifest] gives the manifest without
    it; once it is added, [to_manifest] lists its serialized form after
    the forms of the elements added before it. *)
Theorem foo_serialization (σ : Store) (self : nat) (owner : ModObj.t)
    (cls : ElementClass) (kwargs : Args cls) (event : string) (prior : list json) :
  mods σ !! self = Some owner →
  declared_foo cls kwargs →
  event ∈ EVENT_NAMES cls →
  (mapM Element.to_dict (ModObj.elements owner) σ).1 = Ok prior →
  let element := length (elems σ) in
  ∃ σ1 σ2 properties,
    Element.construct cls self kwargs σ = (Ok element, σ1) ∧
    ElementObj.name <$> elems σ1 !! element = Some "foo" ∧
    _ElementEventNamespace.__getattr__ element event (exec (sends self ["ping"])) σ1
      = (Ok (), σ2) ∧
    let serialized :=
      JDict [("kind", JStr (KIND cls)); ("name", JStr "foo");
             ("properties", JDict properties);
             ("events", JDict [(event, JList [JList [console_action "ping"]])])] in
    Element.to_dict element σ2 = (Ok serialized, σ2) ∧
    (Mod.to_manifest self σ2).1 = Ok (manifest_of owner prior) ∧
    ((let! _ := Mod.add self element in Mod.to_manifest self) σ2).1
      = Ok (manifest_of owner (prior ++ [serialized])).
Proof.
  intros Hself Hfoo Hevent Hprior element.
  destruct (declared_foo_init cls kwargs (ModObj.mod_id owner) Hfoo) as [props Hinit].
  set (stored := {| ElementObj.cls := cls; ElementObj.mod_ := self;
                    ElementObj.name := "foo"; ElementObj.properties := props;
                    ElementObj.events := [] |}).
  set (σ1 := set_elems (λ es, es ++ [stored]) σ).
  set (registered := ElementObj.set_events (λ _, [(event, [length (lists σ)])]) stored).
  set (σ2 := {| mods := mods σ; elems := elems σ ++ [registered];
                lists := lists σ ++ [[console_action "ping"]] |}).
  exists σ1, σ2, (properties_dict props).
  assert (Element.construct cls self kwargs σ = (Ok element, σ1)) as Hconstruct.
  { unfold Element.construct, bind, get_mod. rewrite Hself. by rewrite Hinit. }
  assert (_ElementEventNamespace.__getattr__ element event (exec (sends self ["ping"])) σ1
          = (Ok (), σ2)) as Hregister.
  { assert (elems σ1 !! element = Some stored) as Hstored by apply lookup_snoc.
    assert (mods σ1 !! self = Some owner) as Hself1 by done.
    unfold _ElementEventNamespace.__getattr__, bind, get_elem. rewrite Hstored.
    cbn [ElementObj.cls ElementObj.mod_ stored].
    rewrite (bool_decide_eq_true_2 _ Hevent). cbn [negb].
    rewrite (run_action_capture_sends self ["ping"] σ1 owner Hself1).
    unfold update_elem. cbn [elems σ1 set_elems]. unfold element. rewrite lookup_snoc.
    unfold set_elems, σ2. cbn [mods elems lists]. f_equal. f_equal. by rewrite alter_snoc. }
  assert (Element.to_dict element σ2 =
          (Ok (JDict [("kind", JStr (KIND cls)); ("name", JStr "foo");
                      ("properties", JDict (properties_dict props));
                      ("events", JDict [(event, JList [JList [console_action "ping"]])])]),
           σ2)) as Hdict.
  { unfold Element.to_dict, bind, get_elem. simpl elems. unfold element. rewrite lookup_snoc.
    simpl. unfold Element.event_json, bind. simpl. unfold bind, get_list. simpl.
    by rewrite lookup_snoc. }
  split; [done|]. split; [by unfold σ1, element; simpl; rewrite lookup_snoc|].
  split; [done|]. split; [done|]. split.
  - unfold Mod.to_manifest, bind, get_mod. simpl mods. rewrite Hself.
    assert (extends σ σ2) as Hext by (split; simpl; by apply prefix_app_r).
    assert ((mapM Element.to_dict (ModObj.elements owner) σ2).1 = Ok prior) as Hsame.
    { apply (mapM_read_mono Element.to_dict _ σ σ2); [apply to_dict_read| |done].
      intros e r. by apply to_dict_mono. }
    destruct (mapM Element.to_dict (ModObj.elements owner) σ2) as [[ds|e] τ];
      simpl in *; [|done].
    by injection Hsame as ->.
  - unfold bind at 1. unfold Mod.add, bind, update_mod, ret. simpl mods. rewrite Hself.
    set (σ3 := set_mods _ σ2).
    unfold Mod.to_manifest, bind, get_mod.
    unfold σ3 at 1. simpl mods. rewrite list_lookup_alter_eq, Hself. simpl.
    assert (extends σ σ3) as Hext.
    { split; simpl; by apply prefix_app_r. }
    assert ((mapM Element.to_dict (ModObj.elements owner ++ [element]) σ3).1
            = Ok (prior ++ [JDict [("kind", JStr (KIND cls)); ("name", JStr "foo");
                        ("properties", JDict (properties_dict props));
                        ("events",
                         JDict [(event, JList [JList [console_action "ping"]])])]]))
      as Hall.
    { apply mapM_read_app; [apply to_dict_read| |].
      - apply (mapM_read_mono Element.to_dict _ σ σ3); [apply to_dict_read| |done].
        intros e r. by apply to_dict_mono.
      - apply (mapM_read_cons Element.to_dict element [] σ3 _ []);
          [apply to_dict_read| |done].
        apply (to_dict_mono σ2 σ3); [by split|]. by rewrite Hdict. }
    pose proof (mapM_read Element.to_dict (ModObj.elements owner ++ [element])
                  to_dict_read σ3).
    destruct (mapM Element.to_dict (ModObj.elements owner ++ [element]) σ3) as [[ds|e] τ];
      simpl in *; [|done].
    by injection Hall as ->.
Qed.

Lemma foo_serialization_witness :
  ∃ σ1 σ2 properties,
    Element.construct FabricItem 0 foo_item_args tester_store = (Ok 0, σ1) ∧
    ElementObj.name <$> elems σ1 !! 0 = Some "foo" ∧
    _ElementEventNamespace.__getattr__ 0 "Use" (exec (sends 0 ["ping"])) σ1 = (Ok (), σ2) ∧
    (Mod.to_manifest 0 σ2).1 = Ok (manifest_of tester_mod []) ∧
    ((let! _ := Mod.add 0 0 in Mod.to_manifest 0) σ2).1
      = Ok (manifest_of tester_mod
              [JDict [("kind", JStr "item"); ("name", JStr "foo");
                      ("properties", JDict properties);
                      ("events", JDict [("Use", JList [JList [console_action "ping"]])])]]).
Proof.
  destruct (foo_serialization tester_store 0 tester_mod FabricItem foo_item_args "Use" [])
    as (σ1 & σ2 & properties & Hconstruct & Hname & Hregister & _ & Hbefore & Hafter).
  - reflexivity.
  - apply foo_item; reflexivity.
  - apply list_elem_of_In. simpl. auto.
  - reflexivity.
  - exists σ1, σ2, properties. done.
Defined.

(** ** Writers over a list of elements *)

Lemma bind_eq {S A B} (c : ST S A) (k : A → ST S B) (s : S) :
  bind c k s = match c s with
               | (Ok a, s') => k a s'
               | (Raise e, s') => (Raise e, s')
               end.
Proof. done. Qed.

Lemma bind_ok {S A B} (c : ST S A) (k : A → ST S B) (s s' : S) (b : B) :
  bind c k s = (Ok b, s') → ∃ a s1, c s = (Ok a, s1) ∧ k a s1 = (Ok b, s').
Proof.
  rewrite bind_eq. destruct (c s) as [[a|e] s1]; [|done]. intros H. by exists a, s1.
Qed.

Lemma forM_ok_app {S A} (f : A → ST S unit) (xs ys : list A) (x : A) (s s' : S) :
  forM_ (xs ++ x :: ys) f s = (Ok (), s') →
  ∃ s1 s2, forM_ xs f s = (Ok (), s1) ∧ f x s1 = (Ok (), s2) ∧ forM_ ys f s2 = (Ok (), s').
Proof.
  revert s. induction xs as [|y xs IH]; intros s; cbn [app forM_].
  - intros H. apply bind_ok in H as ([] & s2 & Hx & Hys). by exists s, s2.
  - intros H. apply bind_ok in H as ([] & s0 & Hy & H).
    destruct (IH _ H) as (s1 & s2 & Hxs & Hx & Hys).
    exists s1, s2. split; [|done]. by rewrite bind_eq, Hy.
Qed.

(** A loop leaves every file that none of its steps touches. *)
Lemma forM_frame {A} (f : A → IO unit) (keeps : A → list string → Prop) (xs : list A) :
  (∀ x fs fs' p, f x fs = (Ok (), fs') → keeps x p → fs' !! p = fs !! p) →
  ∀ fs fs' p, forM_ xs f fs = (Ok (), fs') → Forall (λ x, keeps x p) xs → fs' !! p = fs !! p.
Proof.
  intros Hf. induction xs as [|x xs IH]; intros fs fs' p; cbn [forM_].
  - by intros [= <-].
  - intros H Hall. apply bind_ok in H as ([] & fs1 & Hx & Hxs).
    apply Forall_cons in Hall as [Hkeep Hall].
    rewrite (IH _ _ _ Hxs Hall). by apply (Hf x).
Qed.

Lemma write_file_ok p text fs fs' :
  write_file p text fs = (Ok (), fs') → fs' = <[Path.resolve p := text]> fs.
Proof. unfold write_file. repeat case_match; try done. by intros [= <-]. Qed.

Lemma write_file_writes p text fs fs' :
  write_file p text fs = (Ok (), fs') → fs' !! Path.resolve p = Some text.
Proof. intros ->%write_file_ok. apply lookup_insert_eq. Qed.

Lemma resolve_json_payload_fs (B : Backend) payload payload_file label fs :
  (Fabric12111Generator._resolve_json_payload B payload payload_file label fs).2 = fs.
Proof.
  unfold Fabric12111Generator._resolve_json_payload.
  destruct (Str.truthy _); [|by destruct payload].
  destruct (negb _); [done|]. rewrite bind_eq. unfold read_file.
  destruct (fs !! _); [|done]. by destruct (json_loads B s) as [[]|].
Qed.

(** ** Worldgen entries *)

(** One step of [_write_worldgen_entries] that returns has resolved a
    payload without touching the files and has written it, the feature
    id replaced, to the file of the entry. *)
Lemma write_worldgen_entry_ok (B : Backend) (data_dir : Path.t) (entry : ElementObj.t)
    (fs fs' : FS.t) :
  Fabric12111Generator._write_worldgen_entry B data_dir entry fs = (Ok (), fs') →
  ∃ props payload,
    ElementObj.properties entry = PWorldgen props ∧
    Fabric12111Generator._resolve_json_payload B
      (FabricWorldgenProps.payload props) (FabricWorldgenProps.payload_file props)
      ("Worldgen '" ++ ElementObj.name entry ++ "'")%string fs = (Ok payload, fs) ∧
    fs' = <[Path.resolve (Fabric12111Generator.worldgen_path data_dir props) :=
              json_text B (Fabric12111Generator.alias_placed_feature
                             (FabricWorldgenProps.worldgen_type props) payload)]> fs.
Proof.
  unfold Fabric12111Generator._write_worldgen_entry.
  destruct (ElementObj.properties entry) as [| | | | | | | | |props]; try done.
  intros H. apply bind_ok in H as (payload & fs1 & Hresolve & Hwrite).
  pose proof (resolve_json_payload_fs B (FabricWorldgenProps.payload props)
                (FabricWorldgenProps.payload_file props)
                ("Worldgen '" ++ ElementObj.name entry ++ "'")%string fs) as Hfs.
  rewrite Hresolve in Hfs. cbn [snd] in Hfs. subst fs1.
  exists props, payload. split; [done|]. split; [done|].
  by apply write_file_ok in Hwrite.
Qed.

(** C10: [_write_worldgen_entries] handles the entries in order, and
    when it returns, each entry has had its payload resolved on the files
    left by the entries before it and written to its data file
    [data_dir/<namespace>/worldgen/<worldgen_type>/<identifier>.json],
    which holds that text at the end unless a later entry has the same
    file. For an entry of type ["placed_feature"] whose resolved payload
    has the string ["minecraft:ore_diamond"] as its ["feature"], the
    payload written has ["minecraft:ore_diamond_small"] there and is
    otherwise as resolved; with any other ["feature"], and for every
    other worldgen type, the payload is written as it was resolved. *)
Theorem worldgen_feature_alias (B : Backend) (data_dir : Path.t)
    (before after : list ElementObj.t) (entry : ElementObj.t)
    (props : FabricWorldgenProps.t) (fs fs' : FS.t) :
  ElementObj.properties entry = PWorldgen props →
  Fabric12111Generator._write_worldgen_entries B data_dir (before ++ entry :: after) fs
    = (Ok (), fs') →
  let worldgen_type := FabricWorldgenProps.worldgen_type props in
  let path := Path.resolve (Fabric12111Generator.worldgen_path data_dir props) in
  ∃ fs1 payload written,
    Fabric12111Generator._write_worldgen_entries B data_dir before fs = (Ok (), fs1) ∧
    Fabric12111Generator._resolve_json_payload B
      (FabricWorldgenProps.payload props) (FabricWorldgenProps.payload_file props)
      ("Worldgen '" ++ ElementObj.name entry ++ "'")%string fs1 = (Ok payload, fs1) ∧
    Fabric12111Generator._write_worldgen_entries B data_dir after
      (<[path := json_text B written]> fs1) = (Ok (), fs') ∧
    (Forall (λ later, ∀ q, ElementObj.properties later = PWorldgen q →
                Path.resolve (Fabric12111Generator.worldgen_path data_dir q) ≠ path) after →
     fs' !! path = Some (json_text B written)) ∧
    (worldgen_type = "placed_feature" →
     assoc_get "feature" payload = Some (JStr "minecraft:ore_diamond") →
       written = assoc_set "feature" (JStr "minecraft:ore_diamond_small") payload ∧
       assoc_get "feature" written = Some (JStr "minecraft:ore_diamond_small") ∧
       ∀ k, k ≠ "feature" → assoc_get k written = assoc_get k payload) ∧
    (worldgen_type = "placed_feature" →
     assoc_get "feature" payload ≠ Some (JStr "minecraft:ore_diamond") →
       written = payload) ∧
    (worldgen_type ≠ "placed_feature" → written = payload).
Proof.
  intros Hprops Hrun worldgen_type path.
  unfold Fabric12111Generator._write_worldgen_entries in *.
  apply forM_ok_app in Hrun as (fs1 & fs2 & Hbefore & Hentry & Hafter).
  apply write_worldgen_entry_ok in Hentry as (props' & payload & Hprops' & Hresolve & ->).
  rewrite Hprops in Hprops'. injection Hprops' as <-. fold worldgen_type path in Hafter |- *.
  exists fs1, payload, (Fabric12111Generator.alias_placed_feature worldgen_type payload).
  split; [done|]. split; [done|]. split; [done|]. split; [|split; [|split]].
  - intros Hlater.
    assert (∀ later fsa fsb p,
              Fabric12111Generator._write_worldgen_entry B data_dir later fsa = (Ok (), fsb) →
              (∀ q, ElementObj.properties later = PWorldgen q →
                    Path.resolve (Fabric12111Generator.worldgen_path data_dir q) ≠ p) →
              fsb !! p = fsa !! p) as Hstep.
    { intros later fsa fsb p Hstep Hkeep.
      apply write_worldgen_entry_ok in Hstep as (q & pl & Hq & _ & ->).
      apply lookup_insert_ne. by apply Hkeep. }
    rewrite (forM_frame _ _ after Hstep _ _ path Hafter Hlater).
    apply lookup_insert_eq.
  - intros Htype Hfeature. unfold Fabric12111Generator.alias_placed_feature.
    rewrite Htype, Hfeature.
    change (String.eqb "placed_feature" "placed_feature") with true. cbv iota.
    change (default _ (assoc_get "minecraft:ore_diamond" _WORLDGEN_FEATURE_ALIASES))
      with "minecraft:ore_diamond_small".
    split; [done|]. split; [apply assoc_get_set_eq|].
    intros k Hk. by apply assoc_get_set_ne.
  - intros Htype Hfeature. unfold Fabric12111Generator.alias_placed_feature.
    rewrite Htype.
    change (String.eqb "placed_feature" "placed_feature") with true. cbv iota.
    destruct (assoc_get "feature" payload) as [[| | | |feature_id| |]|] eqn:Hget; try done.
    unfold _WORLDGEN_FEATURE_ALIASES. cbn [assoc_get].
    destruct (String.eqb_spec "minecraft:ore_diamond" feature_id) as [<-|Hne]; [done|].
    cbn [default]. by apply assoc_set_same.
  - intros Htype. unfold Fabric12111Generator.alias_placed_feature.
    destruct (String.eqb_spec worldgen_type "placed_feature"); done.
Qed.

Lemma worldgen_feature_alias_witness :
  (Fabric12111Generator._write_worldgen_entries showing_backend ["data"]
     [ruby_ore_patch] ∅).2
    !! ["data"; "demo_mod"; "worldgen"; "placed_feature"; "ruby_ore_patch.json"]
  = Some ("{'feature': 'minecraft:ore_diamond_small', 'placement': []}" ++ String "010" "")%string.
Proof.
  destruct (worldgen_feature_alias showing_backend ["data"] [] [] ruby_ore_patch
              ruby_ore_patch_props ∅
              (Fabric12111Generator._write_worldgen_entries showing_backend ["data"]
                 [ruby_ore_patch] ∅).2)
    as (fs1 & payload & written & Hbefore & Hresolve & _ & Hfile & Halias & _).
  - reflexivity.
  - apply injective_projections; [vm_compute; reflexivity | reflexivity].
  - injection Hbefore as <-. injection Hresolve as <-.
    destruct Halias as (-> & _); [reflexivity | reflexivity |].
    apply Hfile. constructor.
Defined.
(** ** Compiling over an earlier output *)

Lemma is_file_false (p : Path.t) (fs : FS.t) : fs !! Path.resolve p = None → FS.is_file p fs = false.
Proof.
  intros H. unfold FS.is_file. apply bool_decide_eq_false_2. rewrite H. by intros [? ?].
Qed.

Lemma bind_reading {A B} (σ : Store) (read : M A) (k : A → IO B) (fs : FS.t) :
  bind (reading σ read) k fs =
    match (read σ).1 with Ok a => k a fs | Raise e => (Raise e, fs) end.
Proof. unfold bind, reading. by destruct (read σ).1. Qed.

(** Where the root is not a regular file, the first step of [compile]
    leaves exactly the files that are not under the root. *)
Lemma clear_root (root : Path.t) (fs : FS.t) :
  fs !! Path.resolve root = None →
  (if FS.exists_ root fs then rmtree root fs else (Ok (), fs))
  = (Ok (), filter (λ kv, ¬ Path.resolve root `prefix_of` kv.1) fs).
Proof.
  intros Hroot. unfold FS.exists_, rmtree. rewrite (is_file_false _ _ Hroot). simpl.
  destruct (FS.is_dir root fs) eqn:Hdir; [done|].
  f_equal. symmetry. apply map_filter_id. intros k text Hk. simpl. intros Hprefix.
  apply bool_decide_eq_false_1 in Hdir. apply Hdir.
  exists k. split; [by apply elem_of_dom|]. split; [done|].
  intros ->. rewrite Hroot in Hk. done.
Qed.

Lemma cleared_agree (root : list string) (fsA fsB : FS.t) :
  (∀ p, ¬ root `prefix_of` p → fsA !! p = fsB !! p) →
  filter (λ kv, ¬ root `prefix_of` kv.1) fsA = filter (λ kv, ¬ root `prefix_of` kv.1) fsB.
Proof.
  intros Hagree. apply map_eq. intros p. apply option_eq. intros text.
  rewrite !map_lookup_filter_Some. simpl.
  split; intros [Hp Hout]; (split; [|done]); [rewrite <- Hagree | rewrite Hagree]; done.
Qed.

(** C2: [compile] first removes the root
    [output_dir/<mod_id>-fabric-1.21.11] if it exists, so what it leaves
    does not depend on what was under the root before. Two runs for the
    same Mod and output directory, from file systems that agree outside
    the root (the side inputs), end with the same outcome and the same
    files; a run over an earlier tree is the run over the file system
    without that tree, so nothing stale is left; and a second run after
    a first that changed nothing outside its root repeats the first
    exactly. (The root is a directory or absent, not a regular file.) *)
Theorem compile_replaces_root (B : Backend) (σ : Store) (mod_ : nat) (owner : ModObj.t)
    (output_dir : Path.t) :
  mods σ !! mod_ = Some owner →
  let root :=
    Path.resolve (Fabric12111Generator.root_of output_dir (ModObj.mod_id owner)) in
  let compile := Fabric12111Generator.compile B σ mod_ output_dir in
  (∀ fsA fsB : FS.t,
     fsA !! root = None → fsB !! root = None →
     (∀ p, ¬ root `prefix_of` p → fsA !! p = fsB !! p) →
     compile fsA = compile fsB) ∧
  (∀ fs : FS.t,
     fs !! root = None →
     compile fs = compile (filter (λ kv, ¬ root `prefix_of` kv.1) fs)) ∧
  (∀ fs : FS.t,
     fs !! root = None → (compile fs).2 !! root = None →
     (∀ p, ¬ root `prefix_of` p → (compile fs).2 !! p = fs !! p) →
     compile (compile fs).2 = compile fs).
Proof.
  intros Hmod root compile.
  assert (∀ fsA fsB : FS.t,
     fsA !! root = None → fsB !! root = None →
     (∀ p, ¬ root `prefix_of` p → fsA !! p = fsB !! p) →
     compile fsA = compile fsB) as Hsame.
  { intros fsA fsB HA HB Hagree.
    unfold compile, Fabric12111Generator.compile.
    rewrite !bind_reading. unfold get_mod. rewrite Hmod. cbn [fst].
    rewrite !bind_eq, !clear_root by done.
    fold root. rewrite (cleared_agree root fsA fsB Hagree). reflexivity. }
  split; [exact Hsame|]. split.
  - intros fs Hroot. apply Hsame; [done| |].
    + apply map_lookup_filter_None. by left.
    + intros p Hp. destruct (fs !! p) as [text|] eqn:Hfs.
      * symmetry. apply map_lookup_filter_Some. done.
      * symmetry. apply map_lookup_filter_None. by left.
  - intros fs Hroot Hroot' Hout. by apply Hsame.
Qed.

Lemma compile_replaces_root_witness :
  Fabric12111Generator.compile silent_backend tester_store 0 ["build"] stale_tree
    = Fabric12111Generator.compile silent_backend tester_store 0 ["build"] ∅.
Proof.
  destruct (compile_replaces_root silent_backend tester_store 0 tester_mod ["build"])
    as (Hsame & _).
  - reflexivity.
  - apply Hsame.
    + unfold stale_tree. by apply lookup_singleton_ne.
    + done.
    + intros p Hp. rewrite lookup_empty. unfold stale_tree.
      apply lookup_singleton_ne. intros <-. apply Hp.
      by exists ["stale.txt"].
Defined.

(** ** The fixed points of the normalizer *)

Lemma no_double_cons c c' l :
  no_double_underscore (c :: c' :: l)
  = negb (is_underscore c && is_underscore c') && no_double_underscore (c' :: l).
Proof. done. Qed.

Lemma squeeze_no_double l :
  no_double_underscore (squeeze false l) = true ∧
  no_double_underscore (squeeze true l) = true ∧
  (∀ c r, squeeze true l = c :: r → is_underscore c = false).
Proof.
  unfold squeeze. induction l as [|c l (IH1 & IH2 & IH3)]; [done|].
  cbn [Re.sub_runs_chars]. destruct (is_underscore c) eqn:Hc.
  - cbn [app]. split; [|done].
    destruct (Re.sub_runs_chars is_underscore ["_"%char] true l) as [|c' r] eqn:Hr; [done|].
    rewrite no_double_cons, (IH3 c' r eq_refl), andb_false_r. exact IH2.
  - assert (no_double_underscore
              (c :: Re.sub_runs_chars is_underscore ["_"%char] false l) = true) as Hn.
    { destruct (Re.sub_runs_chars is_underscore ["_"%char] false l) as [|c' r] eqn:Hr; [done|].
      rewrite no_double_cons, Hc. exact IH1. }
    split; [done|]. split; [done|]. by intros ? ? [= <- _].
Qed.

Lemma no_double_tail c l :
  no_double_underscore (c :: l) = true → no_double_underscore l = true.
Proof. destruct l; [done|]. rewrite no_double_cons. by intros [_ ?]%andb_true_iff. Qed.

Lemma no_double_app_r a l :
  no_double_underscore (a ++ l) = true → no_double_underscore l = true.
Proof. induction a as [|c a IH]; [done|]. intros H%no_double_tail. by apply IH. Qed.

Lemma no_double_app_l l b :
  no_double_underscore (l ++ b) = true → no_double_underscore l = true.
Proof.
  induction l as [|c l IH]; [done|]. destruct l as [|c' l]; [done|].
  cbn [app] in *. rewrite !no_double_cons. intros [-> H]%andb_true_iff. by apply IH.
Qed.

Lemma squeeze_fixed l :
  no_double_underscore l = true →
  squeeze false l = l ∧
  ((∀ c r, l = c :: r → is_underscore c = false) → squeeze true l = l).
Proof.
  unfold squeeze. induction l as [|c l IH]; [done|]. intros Hn.
  destruct (IH (no_double_tail _ _ Hn)) as [IH1 IH2].
  cbn [Re.sub_runs_chars]. destruct (is_underscore c) eqn:Hc.
  - split.
    + unfold is_underscore in Hc. apply Ascii.eqb_eq in Hc as <-. cbn [app]. f_equal.
      apply IH2. intros c' r ->. rewrite no_double_cons in Hn.
      apply andb_true_iff in Hn as [Hn _]. change (is_underscore "_") with true in Hn.
      by destruct (is_underscore c').
    + intros H. by rewrite (H c l eq_refl) in Hc.
  - split; [by rewrite IH1|]. intros _. by rewrite IH1.
Qed.

Lemma mask_fixed b l : Forall (λ c, id_path_class c = true) l → mask b l = l.
Proof.
  unfold mask. intros H. revert b. induction H as [|c l Hc _ IH]; intros b; [done|].
  cbn [Re.sub_runs_chars]. unfold outside_class at 1. rewrite Hc. cbn [negb]. by rewrite IH.
Qed.

Lemma lower_inside c : id_path_class c = true → Str.lower_char c = c.
Proof. destruct c as [[] [] [] [] [] [] [] []]; vm_compute; congruence. Qed.

Lemma blank_outside c : id_path_class c = true → Ascii.eqb c " " = false.
Proof. destruct c as [[] [] [] [] [] [] [] []]; vm_compute; congruence. Qed.

Lemma space_inside c : id_path_class c = true → Str.isspace c = false.
Proof. intros H. destruct (Str.isspace c) eqn:Hs; [|done]. by rewrite (space_outside _ Hs) in H. Qed.

Lemma map_fixed {A} (f : A → A) (Q : A → Prop) l :
  (∀ x, Q x → f x = x) → Forall Q l → map f l = l.
Proof. intros Hf H. induction H as [|x l Hx _ IH]; [done|]. simpl. by rewrite Hf, IH. Qed.

(** Trimming changes nothing when neither end is in the set. *)
Lemma strip_fixed p l :
  from_option p false (head l) = false → from_option p false (last l) = false →
  Str.strip_chars p l = l.
Proof.
  intros Hh Hl. unfold Str.strip_chars, Str.rstrip_chars.
  destruct l as [|c r]; [done|]. simpl in Hh. cbn [Str.lstrip_chars]. rewrite Hh.
  destruct (exists_last (l:=c :: r)) as (f & d & Heq); [done|]. rewrite Heq in *.
  rewrite last_snoc in Hl. simpl in Hl.
  rewrite rev_app_distr. cbn [rev app Str.lstrip_chars]. rewrite Hl.
  cbn [rev]. by rewrite rev_involutive.
Qed.

Lemma forallb_Forall {A} (p : A → bool) l :
  forallb p l = true ↔ Forall (λ x, p x = true) l.
Proof.
  induction l as [|x l IH]; simpl; [done|].
  rewrite andb_true_iff, Forall_cons, IH. done.
Qed.

Lemma normal_path_spec s :
  normal_path s = true ↔
  s ≠ "" ∧ Forall (λ c, id_path_class c = true) (Str.chars s) ∧
  from_option is_separator false (head (Str.chars s)) = false ∧
  from_option is_separator false (last (Str.chars s)) = false ∧
  no_double_underscore (Str.chars s) = true.
Proof.
  unfold normal_path. cbv zeta.
  rewrite !andb_true_iff, !negb_true_iff, forallb_Forall.
  assert (Str.truthy s = true ↔ s ≠ "") as -> by (destruct s; split; done).
  tauto.
Qed.

(** What [_normalize_id_path] leaves is a normal path. *)
Lemma core_normal value :
  _normalize_id_path_core value ≠ "" → normal_path (_normalize_id_path_core value) = true.
Proof.
  intros Hne. apply normal_path_spec. split; [done|]. rewrite core_chars.
  set (M := mask false _).
  split; [apply strip_Forall, squeeze_inside, mask_inside|].
  split; [|split].
  - destruct (Str.strip_chars is_separator (squeeze false M)) as [|c r] eqn:Hs; [done|].
    simpl. by apply strip_head in Hs.
  - destruct (Str.strip_chars is_separator (squeeze false M)) as [|c r] eqn:Hs; [done|].
    destruct (exists_last (l:=c :: r)) as (f & d & Heq); [done|]. rewrite Heq in *.
    rewrite last_snoc. simpl. by apply strip_last in Hs.
  - destruct (strip_split is_separator (squeeze false M)) as (a & b & Heq & _ & _).
    pose proof (proj1 (squeeze_no_double M)) as Hn. rewrite Heq in Hn.
    by apply no_double_app_r, no_double_app_l in Hn.
Qed.

(** A normal path is left as it is. *)
Lemma core_fixed s : normal_path s = true → _normalize_id_path_core (Some s) = s.
Proof.
  intros (Hne & Hall & Hh & Hl & Hn)%normal_path_spec.
  apply chars_inj. rewrite core_chars. cbn [Str.opt_or]. rewrite or_else_nonempty by done.
  rewrite (map_fixed _ _ _ lower_inside Hall).
  rewrite (strip_fixed Str.isspace).
  - rewrite (map_fixed (λ c, if Ascii.eqb c " " then "_"%char else c)
               (λ c, id_path_class c = true)); [|intros c Hc; by rewrite blank_outside|done].
    rewrite mask_fixed by done. rewrite (proj1 (squeeze_fixed _ Hn)).
    by apply strip_fixed.
  - destruct (Str.chars s) as [|c r]; [done|]. simpl. apply space_inside.
    by inversion Hall.
  - destruct (last (Str.chars s)) as [d|] eqn:Hd; [|done]. simpl. apply space_inside.
    apply last_Some in Hd as [f Hd]. rewrite Hd in Hall.
    apply Forall_app in Hall as [_ Hall]. by inversion Hall.
Qed.

(** X1: [_normalize_id_path] is idempotent: a name it produced from the
    value (not the fallback) is returned unchanged when normalized again,
    whatever fallback is given. *)
Theorem normalize_id_path_idempotent value fallback fallback' :
  _normalize_id_path_core value ≠ "" →
  _normalize_id_path (Some (_normalize_id_path value fallback)) fallback'
  = _normalize_id_path value fallback.
Proof.
  intros Hne.
  assert (_normalize_id_path value fallback = _normalize_id_path_core value) as ->
    by by apply or_else_nonempty.
  unfold _normalize_id_path. rewrite core_fixed by by apply core_normal.
  by apply or_else_nonempty.
Qed.

Lemma normalize_id_path_idempotent_witness :
  _normalize_id_path (Some (_normalize_id_path (Some "  Ruby__Block! ") "item")) "block"
  = _normalize_id_path (Some "  Ruby__Block! ") "item".
Proof.
  apply (normalize_id_path_idempotent (Some "  Ruby__Block! ") "item" "block").
  vm_compute. discriminate.
Defined.

(** X2: the names [_normalize_id_path] can produce from a value are exactly
    the normal paths: non-empty, over [[a-z0-9/._-]], with no separator at
    either end and no two underscores in a row. *)
Theorem normalize_id_path_range s :
  normal_path s = true ↔
  ∃ value, _normalize_id_path_core value ≠ "" ∧
    ∀ fallback, _normalize_id_path value fallback = s.
Proof.
  split.
  - intros Hs. exists (Some s).
    pose proof (core_fixed s Hs) as Hfix.
    apply normal_path_spec in Hs as (Hne & _).
    split; [by rewrite Hfix|]. intros fallback. unfold _normalize_id_path.
    rewrite Hfix. by apply or_else_nonempty.
  - intros (value & Hne & Hs). rewrite <- (Hs "").
    unfold _normalize_id_path. rewrite or_else_nonempty by done. by apply core_normal.
Qed.

Lemma chars_app (a b : string) : Str.chars (a ++ b)%string = Str.chars a ++ Str.chars b.
Proof. induction a as [|c a IH]; [done|]. simpl. by rewrite <- IH. Qed.

Lemma normal_path_nonempty s : normal_path s = true → s ≠ "".
Proof. by intros (? & _)%normal_path_spec. Qed.

Lemma normal_path_inside s :
  normal_path s = true → Forall (λ c, id_path_class c = true) (Str.chars s).
Proof. by intros (_ & ? & _)%normal_path_spec. Qed.

(** With a normal fallback every result is a normal path. *)
Lemma normalize_id_path_normal value fallback :
  normal_path fallback = true → normal_path (_normalize_id_path value fallback) = true.
Proof.
  intros Hfb. unfold _normalize_id_path.
  destruct (_normalize_id_path_core value) as [|c s] eqn:Hcore; [done|].
  rewrite or_else_nonempty by done. rewrite <- Hcore. apply core_normal. by rewrite Hcore.
Qed.

Lemma chars_nonempty s : s ≠ "" → Str.chars s ≠ [].
Proof. by destruct s. Qed.

(** X3: with a mod id that is a valid namespace, what
    [_resolve_item_like_id] returns always is a strict [namespace:path]
    literal, and resolving it again returns it unchanged. *)
Theorem resolve_item_like_id_literal value mod_id (generated_items generated_blocks : gset string) :
  Re.fullmatch (Re.Plus (Re.Cls id_namespace_class)) mod_id = true →
  let resolved := _resolve_item_like_id value mod_id generated_items generated_blocks in
  _is_literal_identifier resolved = true ∧
  _resolve_item_like_id resolved mod_id generated_items generated_blocks = resolved.
Proof.
  intros Hmod resolved.
  assert (_is_literal_identifier resolved = true) as Hlit.
  { subst resolved. unfold _resolve_item_like_id.
    destruct (_is_literal_identifier value) eqn:Hv; [done|].
    pose proof (normalize_id_path_normal (Some value) "generated" eq_refl) as Hn.
    set (normalized := _normalize_id_path (Some value) "generated") in *.
    assert (∀ prefix, prefix ≠ "" →
              Forall (λ c, id_namespace_class c = true) (Str.chars prefix) →
              _is_literal_identifier (prefix ++ ":" ++ normalized) = true) as Hshape.
    { intros prefix Hne Hall. apply is_literal_identifier_shape.
      exists (Str.chars prefix), (Str.chars normalized).
      split; [by rewrite chars_app|].
      split; [by apply chars_nonempty|]. split; [done|].
      split; [by apply chars_nonempty, normal_path_nonempty | by apply normal_path_inside]. }
    destruct (_ || _).
    - unfold Re.fullmatch in Hmod.
      apply ReFacts.accepts_matches, matches_plus_cls in Hmod as [Hne Hall].
      apply Hshape; [|done]. by intros ->.
    - apply (Hshape "minecraft"); [done|]. by apply forallb_Forall. }
  split; [done|]. unfold _resolve_item_like_id at 1. by rewrite Hlit.
Qed.

Lemma resolve_item_like_id_literal_witness :
  _is_literal_identifier (_resolve_item_like_id "Ruby Block" "demo_mod" {["ruby_block"]} ∅) = true.
Proof.
  apply (resolve_item_like_id_literal "Ruby Block" "demo_mod" {["ruby_block"]} ∅).
  vm_compute. reflexivity.
Defined.

(** X4: the path [_split_namespaced_id] returns is always a normal path
    (non-empty, over [[a-z0-9/._-]], hence without a colon, whatever
    the value holds), and so is the namespace when the default is. *)
Theorem split_namespaced_id_normal value default_namespace :
  normal_path (_split_namespaced_id value default_namespace).2 = true ∧
  (normal_path default_namespace = true →
   normal_path (_split_namespaced_id value default_namespace).1 = true).
Proof.
  unfold _split_namespaced_id. destruct (split_once ":" value) as [[namespace path]|]; simpl.
  - split; [by apply normalize_id_path_normal|]. apply normalize_id_path_normal.
  - split; [by apply normalize_id_path_normal | done].
Qed.

Lemma split_namespaced_id_normal_witness :
  normal_path (_split_namespaced_id "My Mod:Gems:Ruby" "demo_mod").1 = true.
Proof.
  apply (split_namespaced_id_normal "My Mod:Gems:Ruby" "demo_mod"). vm_compute. reflexivity.
Defined.

Lemma remove_runs_inside (p : ascii → bool) b l :
  Forall (λ c, p c = true) (Re.sub_runs_chars (λ c, negb (p c)) [] b l).
Proof.
  revert b. induction l as [|c l IH]; intros b; cbn [Re.sub_runs_chars]; [done|].
  destruct (p c) eqn:Hc; cbn [negb].
  - constructor; [done | apply IH].
  - destruct b; apply IH.
Qed.

Lemma remove_runs_fixed (p : ascii → bool) b l :
  Forall (λ c, p c = true) l → Re.sub_runs_chars (λ c, negb (p c)) [] b l = l.
Proof.
  intros H. revert b. induction H as [|c l Hc _ IH]; intros b; [done|].
  cbn [Re.sub_runs_chars]. rewrite Hc. cbn [negb]. by rewrite IH.
Qed.

Lemma command_literal_inside c : command_literal_class c = true → id_path_class c = true.
Proof. destruct c as [[] [] [] [] [] [] [] []]; vm_compute; congruence. Qed.

Lemma command_literal_chars value :
  Str.chars (_normalize_command_literal value "") =
  Re.sub_runs_chars (λ c, negb (command_literal_class c)) [] false
    (map (λ c, if Ascii.eqb c " " then "_"%char else c)
       (Str.strip_chars Str.isspace (map Str.lower_char (Str.chars (Str.opt_or value ""))))).
Proof.
  unfold _normalize_command_literal, Re.sub_class_plus, Str.replace_char, Str.strip, Str.lower.
  rewrite !chars_of_chars. simpl (Str.chars "").
  set (l := Re.sub_runs_chars _ _ _ _).
  assert (∀ s, Str.or_else s "" = s) as -> by by intros [].
  apply chars_of_chars.
Qed.

Lemma command_literal_fallback value fallback :
  _normalize_command_literal value "" ≠ "" →
  _normalize_command_literal value fallback = _normalize_command_literal value "".
Proof.
  unfold _normalize_command_literal. cbv zeta.
  destruct (Re.sub_class_plus _ _ _); done.
Qed.

(** X5: a command literal that [_normalize_command_literal] derives from
    the value (not the fallback) is non-empty and over [[a-z0-9_]], so it
    holds no blank and no separator other than the underscore, and
    normalizing it again returns it unchanged. *)
Theorem normalize_command_literal_shape value fallback :
  _normalize_command_literal value "" ≠ "" →
  let out := _normalize_command_literal value fallback in
  Re.fullmatch (Re.Plus (Re.Cls command_literal_class)) out = true ∧
  ∀ fallback', _normalize_command_literal (Some out) fallback' = out.
Proof.
  intros Hne out.
  subst out. rewrite command_literal_fallback by done. set (out := _normalize_command_literal value "") in *.
  assert (Forall (λ c, command_literal_class c = true) (Str.chars out)) as Hall.
  { subst out. rewrite command_literal_chars. apply remove_runs_inside. }
  split.
  - apply ReFacts.accepts_matches, matches_plus_cls. split; [by apply chars_nonempty | done].
  - intros fb.
    enough (_normalize_command_literal (Some out) "" = out) as Hfix
      by (rewrite command_literal_fallback; by rewrite Hfix).
    apply chars_inj. rewrite command_literal_chars.
    cbn [Str.opt_or]. rewrite or_else_nonempty by done.
    assert (Forall (λ c, id_path_class c = true) (Str.chars out)) as Hin.
    { eapply Forall_impl; [exact Hall|]. apply command_literal_inside. }
    rewrite (map_fixed _ _ _ lower_inside Hin).
    rewrite (strip_fixed Str.isspace).
    + rewrite (map_fixed (λ c, if Ascii.eqb c " " then "_"%char else c)
                 (λ c, id_path_class c = true)); [|intros c Hc; by rewrite blank_outside|done].
      by apply remove_runs_fixed.
    + destruct (Str.chars out) as [|c r]; [done|]. simpl. apply space_inside.
      by inversion Hin.
    + destruct (last (Str.chars out)) as [d|] eqn:Hd; [|done]. simpl. apply space_inside.
      apply last_Some in Hd as [f Hd]. rewrite Hd in Hin.
      apply Forall_app in Hin as [_ Hin]. by inversion Hin.
Qed.

Lemma normalize_command_literal_shape_witness :
  Re.fullmatch (Re.Plus (Re.Cls command_literal_class))
    (_normalize_command_literal (Some " Give/Ruby now! ") "modpy") = true.
Proof.
  apply (normalize_command_literal_shape (Some " Give/Ruby now! ") "modpy").
  vm_compute. discriminate.
Defined.

(** ** Names of the generator's elements *)

Lemma recipe_type_normal kind :
  kind ∈ _RECIPE_TYPES → normal_path (kind ++ "_recipe") = true.
Proof.
  unfold _RECIPE_TYPES. rewrite !elem_of_union, !elem_of_singleton.
  intros [[[[[-> | ->] | ->] | ->] | ->] | ->]; reflexivity.
Qed.

Lemma recipe_name_normal (mod_id : string) (kwargs : FabricRecipeArgs.t) name properties :
  FabricRecipe_init mod_id kwargs = Ok (name, properties) →
  ∃ n, name = Some n ∧ normal_path n = true.
Proof.
  unfold FabricRecipe_init. cbv zeta.
  set (kind := Str.strip (Str.lower _)).
  destruct (bool_decide (kind ∈ _RECIPE_TYPES)) eqn:Hkind; [|done].
  apply bool_decide_eq_true in Hkind. cbn [negb].
  repeat (match goal with |- context [if ?b then Raise _ else _] => destruct b end;
          [done|]).
  intros [= <- _]. eexists. split; [done|].
  by apply normalize_id_path_normal, recipe_type_normal.
Qed.

(** X6: the name under which a tab, an item, a block, an entity, a biome,
    a recipe, a tag or a worldgen entry is declared always is a normal
    path: non-empty, over [[a-z0-9/._-]], with no separator at either end
    and no doubled underscore, whatever the arguments were. *)
Theorem fabric_element_names_are_normal (cls : ElementClass) :
  cls ∈ [FabricTab; FabricItem; FabricBlock; FabricEntity; FabricBiome;
         FabricRecipe; FabricTag; FabricWorldgen] →
  ∀ (mod_id : string) (kwargs : Args cls) name properties,
    init_fields cls mod_id kwargs = Ok (name, properties) →
    ∃ n, name = Some n ∧ normal_path n = true.
Proof.
  rewrite !elem_of_cons, elem_of_nil.
  intros [->|[->|[->|[->|[->|[->|[->|[->|[]]]]]]]]] mod_id kwargs name properties; simpl.
  - unfold FabricTab_init. intros [= <- _]. eexists. split; [done|].
    by apply normalize_id_path_normal.
  - unfold FabricItem_init. intros [= <- _]. eexists. split; [done|].
    by apply normalize_id_path_normal.
  - unfold FabricBlock_init. intros [= <- _]. eexists. split; [done|].
    by apply normalize_id_path_normal.
  - unfold FabricEntity_init.
    destruct (_parse_color _); [|done]. destruct (_parse_color _); [|done]. simpl.
    intros [= <- _]. eexists. split; [done|]. by apply normalize_id_path_normal.
  - unfold FabricBiome_init.
    destruct (FabricBiomeArgs.payload kwargs), (FabricBiomeArgs.payload_file kwargs);
      [done|..]; intros [= <- _]; (eexists; split; [done|]);
      by apply normalize_id_path_normal.
  - apply recipe_name_normal.
  - unfold FabricTag_init. cbv zeta.
    destruct (negb _); [done|]. destruct (_split_namespaced_id _ _) as [ns path].
    intros [= <- _]. eexists. split; [done|]. by apply normalize_id_path_normal.
  - unfold FabricWorldgen_init.
    destruct (FabricWorldgenArgs.payload kwargs), (FabricWorldgenArgs.payload_file kwargs);
      [done|..]; intros [= <- _]; (eexists; split; [done|]);
      by apply normalize_id_path_normal.
Qed.

Lemma fabric_element_names_are_normal_witness :
  ∃ name props,
    init_fields FabricRecipe "demo_mod" ruby_smelting_args = Ok (name, props) ∧
    ∃ n, name = Some n ∧ normal_path n = true.
Proof.
  do 2 eexists. split; [reflexivity|].
  apply (fabric_element_names_are_normal FabricRecipe ltac:(set_solver) "demo_mod"
           ruby_smelting_args _ _ eq_refl).
Defined.

(** ** Colours *)

Lemma matches_upto_cls p n l :
  Re.matches (Re.UpTo (Re.Cls p) n) l ↔
  l ≠ [] ∧ (length l ≤ n)%nat ∧ Forall (λ c, p c = true) l.
Proof.
  revert l. induction n as [|n IH]; intros l.
  - simpl. split; [intros H; inversion H|]. intros (Hne & Hlen & _). destruct l; [done|].
    simpl in Hlen. lia.
  - destruct n as [|n].
    + simpl. split.
      * intros H. inversion H; subst. split; [done|]. split; [simpl; lia|].
        constructor; done.
      * intros (Hne & Hlen & Hall). destruct l as [|c [|c' l]]; [done| |simpl in Hlen; lia].
        constructor. by inversion Hall.
    + change (Re.UpTo (Re.Cls p) (S (S n)))
        with (Re.Cat (Re.Cls p) (Re.Opt (Re.UpTo (Re.Cls p) (S n)))).
      split.
      * intros H. inversion H as [| |r1 r2 l1 l2 H1 H2| | | |]; subst; clear H.
        inversion H1; subst; clear H1. split; [done|].
        inversion H2 as [| | |r1 r2 l Hl|r1 r2 l Hl| |]; subst; clear H2.
        -- apply IH in Hl as (_ & Hlen & Hall). split; [simpl; lia|]. by constructor.
        -- inversion Hl; subst. split; [simpl; lia|]. by constructor.
      * intros (Hne & Hlen & Hall). destruct l as [|c l]; [done|].
        inversion Hall; subst. apply (Re.m_cat _ _ [c] l); [by constructor|].
        destruct l as [|c' l].
        -- apply Re.m_alt_r. constructor.
        -- apply Re.m_alt_l. apply IH. split; [done|]. split; [simpl in *; lia | done].
Qed.

Lemma hex_value_range c :
  hex_digit c = true → (0 <=? hex_value c)%Z && (hex_value c <=? 15)%Z = true.
Proof. destruct c as [[] [] [] [] [] [] [] []]; vm_compute; congruence. Qed.

Lemma int_hex_fold_range l : ∀ acc : Z,
  Forall (λ c, hex_digit c = true) l → (0 ≤ acc)%Z →
  (0 ≤ fold_left (λ acc c, 16 * acc + hex_value c) l acc
   ∧ fold_left (λ acc c, 16 * acc + hex_value c) l acc + 1 ≤ (acc + 1) * 16 ^ Z.of_nat (length l))%Z.
Proof.
  induction l as [|c l IH]; intros acc Hall Hacc.
  - simpl. lia.
  - apply Forall_cons in Hall as [Hc Hall].
    apply hex_value_range, andb_true_iff in Hc as [Hlo Hhi].
    apply Z.leb_le in Hlo, Hhi.
    destruct (IH (16 * acc + hex_value c)%Z Hall) as [IH1 IH2]; [lia|].
    cbn [fold_left length]. split; [done|].
    rewrite Nat2Z.inj_succ, Z.pow_succ_r by lia.
    assert (0 < 16 ^ Z.of_nat (length l))%Z by (apply Z.pow_pos_nonneg; lia).
    nia.
Qed.

Lemma parse_color_in_range value n :
  _parse_color value = Ok (Some n) → (0 ≤ n ≤ 16777215)%Z.
Proof.
  destruct value as [[k|s]|]; [simpl; intros [= <-]; lia| |done].
  unfold _parse_color. cbv zeta.
  set (text := if Str.startswith "0x" _ then _ else _).
  destruct (Re.fullmatch _ text) eqn:Hm; [|done]. intros [= <-].
  unfold Re.fullmatch in Hm.
  apply ReFacts.accepts_matches, matches_upto_cls in Hm as (_ & Hlen & Hall).
  destruct (int_hex_fold_range (Str.chars text) 0 Hall) as [Hlo Hhi]; [lia|].
  unfold int_hex.
  assert (16 ^ Z.of_nat (length (Str.chars text)) ≤ 16 ^ 6)%Z
    by (apply Z.pow_le_mono_r; lia).
  change (16 ^ 6)%Z with 16777216%Z in *. lia.
Qed.

(** [repr] of a string, as the message of [_parse_color] shows it:
    between single quotes, or between double quotes when the string holds
    a single quote and no double quote; the quote in use and the backslash
    are escaped, and what is not printable is written as an escape. *)
Example repr_examples :
  repr "ruby" = "'ruby'" ∧
  repr "it's" = String double_quote ("it's" ++ String double_quote "") ∧
  repr (String double_quote "red") = String single_quote (String double_quote "red'") ∧
  repr (String single_quote (String double_quote ""))
  = String single_quote (String backslash (String single_quote (String double_quote "'"))) ∧
  repr (String backslash "") = "'\\'" ∧
  repr (String "010" "") = "'\n'" ∧
  repr (String "000" "") = "'\x00'" ∧
  repr (String "160" "") = "'\xa0'" ∧
  repr (String "233" "") = String single_quote (String "233" "'").
Proof. repeat split. Qed.

(** X7: [_parse_color] returns [None] for [None] only; an integer is
    never rejected; the only failure is a [ValueError], for a string, and
    its message is ["Invalid RGB color value: "] followed by the [repr] of
    that string as it was given; and every colour returned lies between
    [0] and [0xFFFFFF], for an integer (clamped) as for a string (at most
    six hexadecimal digits). *)
Theorem parse_color_range (value : option color_arg) :
  match _parse_color value with
  | Ok (Some n) => value ≠ None ∧ (0 ≤ n ≤ 16777215)%Z
  | Ok None => value = None
  | Raise e =>
      ∃ s, value = Some (ColorStr s) ∧ e = ValueError ("Invalid RGB color value: " ++ repr s)
  end.
Proof.
  destruct (_parse_color value) as [[n|]|e] eqn:Hparse.
  - split; [by intros ->|]. by apply (parse_color_in_range value).
  - destruct value as [[k|s]|]; [done| |done].
    revert Hparse. unfold _parse_color. cbv zeta. by destruct (Re.fullmatch _ _).
  - destruct value as [[k|s]|]; [done| |done].
    exists s. split; [done|].
    revert Hparse. unfold _parse_color. cbv zeta. destruct (Re.fullmatch _ _); [done|].
    by intros [= <-].
Qed.

Lemma hex_char_facts d :
  (0 ≤ d < 16)%Z →
  hex_digit (hex_char d) = true ∧ hex_value (hex_char d) = d ∧
  Str.isspace (hex_char d) = false ∧ Str.lower_char (hex_char d) = hex_char d ∧
  hex_char d ≠ "x"%char.
Proof.
  intros Hd.
  assert (d = 0 ∨ d = 1 ∨ d = 2 ∨ d = 3 ∨ d = 4 ∨ d = 5 ∨ d = 6 ∨ d = 7 ∨ d = 8 ∨ d = 9 ∨
          d = 10 ∨ d = 11 ∨ d = 12 ∨ d = 13 ∨ d = 14 ∨ d = 15)%Z as Hcases by lia.
  repeat destruct Hcases as [->|Hcases]; try subst d; vm_compute; repeat split; congruence.
Qed.

Lemma startswith_0x c d l :
  d ≠ "x"%char → Str.startswith "0x" (Str.of_chars (c :: d :: l)) = false.
Proof.
  intros Hd. unfold Str.startswith.
  change (Str.of_chars (c :: d :: l)) with (String c (String d (Str.of_chars l))).
  cbn [String.prefix].
  destruct (ascii_dec "0" c); [|done]. destruct (ascii_dec "x" d); [|done]. by subst.
Qed.

(** X8: a colour written by [_rgb_hex] is read back by [_parse_color] as
    the same colour, clamped to [0 .. 0xFFFFFF]. *)
Theorem rgb_hex_parse_color value :
  _parse_color (Some (ColorStr (_rgb_hex value)))
  = Ok (Some (Z.max 0 (Z.min value 16777215))).
Proof.
  unfold _rgb_hex. set (v := Z.max 0 (Z.min value 16777215)).
  assert (0 ≤ v < 16777216)%Z as Hv by lia. clearbody v. cbn [map].
  change (16 ^ Z.of_nat 5)%Z with 1048576%Z. change (16 ^ Z.of_nat 4)%Z with 65536%Z.
  change (16 ^ Z.of_nat 3)%Z with 4096%Z. change (16 ^ Z.of_nat 2)%Z with 256%Z.
  change (16 ^ Z.of_nat 1)%Z with 16%Z. change (16 ^ Z.of_nat 0)%Z with 1%Z.
  set (d5 := (v / 1048576 mod 16)%Z). set (d4 := (v / 65536 mod 16)%Z).
  set (d3 := (v / 4096 mod 16)%Z). set (d2 := (v / 256 mod 16)%Z).
  set (d1 := (v / 16 mod 16)%Z). set (d0 := (v / 1 mod 16)%Z).
  assert (v = 1048576 * d5 + 65536 * d4 + 4096 * d3 + 256 * d2 + 16 * d1 + d0)%Z as Hsum.
  { subst d5 d4 d3 d2 d1 d0. 
    pose proof (Z.div_mod v 16 ltac:(lia)). pose proof (Z.div_mod (v / 16) 16 ltac:(lia)).
    pose proof (Z.div_mod (v / 256) 16 ltac:(lia)). pose proof (Z.div_mod (v / 4096) 16 ltac:(lia)).
    pose proof (Z.div_mod (v / 65536) 16 ltac:(lia)).
    pose proof (Z.div_mod (v / 1048576) 16 ltac:(lia)).
    rewrite Z.div_1_r.
    assert (v / 16 / 16 = v / 256)%Z by (rewrite Z.div_div by lia; done).
    assert (v / 256 / 16 = v / 4096)%Z by (rewrite Z.div_div by lia; done).
    assert (v / 4096 / 16 = v / 65536)%Z by (rewrite Z.div_div by lia; done).
    assert (v / 65536 / 16 = v / 1048576)%Z by (rewrite Z.div_div by lia; done).
    assert (v / 1048576 / 16 = 0)%Z
      by (rewrite Z.div_div by lia; apply Z.div_small; lia).
    lia. }
  assert (0 ≤ d5 < 16 ∧ 0 ≤ d4 < 16 ∧ 0 ≤ d3 < 16 ∧ 0 ≤ d2 < 16 ∧ 0 ≤ d1 < 16 ∧ 0 ≤ d0 < 16)%Z
    as (H5 & H4 & H3 & H2 & H1 & H0)
    by (subst d5 d4 d3 d2 d1 d0; repeat split; apply Z.mod_pos_bound; lia).
  clearbody d5 d4 d3 d2 d1 d0. subst v.
  destruct (hex_char_facts d5 H5) as (Hh5 & Hv5 & Hs5 & Hl5 & Hx5).
  destruct (hex_char_facts d4 H4) as (Hh4 & Hv4 & Hs4 & Hl4 & Hx4).
  destruct (hex_char_facts d3 H3) as (Hh3 & Hv3 & Hs3 & Hl3 & Hx3).
  destruct (hex_char_facts d2 H2) as (Hh2 & Hv2 & Hs2 & Hl2 & Hx2).
  destruct (hex_char_facts d1 H1) as (Hh1 & Hv1 & Hs1 & Hl1 & Hx1).
  destruct (hex_char_facts d0 H0) as (Hh0 & Hv0 & Hs0 & Hl0 & Hx0).
  set (L := [hex_char d5; hex_char d4; hex_char d3; hex_char d2; hex_char d1; hex_char d0]).
  unfold _parse_color.
  assert (Str.lower (Str.strip (String "#" (Str.of_chars L))) = String "#" (Str.of_chars L))
    as ->.
  { unfold Str.lower, Str.strip. apply chars_inj. rewrite !chars_of_chars.
    change (Str.chars (String "#" (Str.of_chars L))) with ("#"%char :: Str.chars (Str.of_chars L)).
    rewrite chars_of_chars. rewrite (strip_fixed Str.isspace); [| done | by subst L].
    subst L. cbn [map]. by rewrite Hl5, Hl4, Hl3, Hl2, Hl1, Hl0. }
  change (Str.startswith "#" (String "#" (Str.of_chars L))) with true. cbv iota.
  assert (Str.drop 1 (String "#" (Str.of_chars L)) = Str.of_chars L) as ->.
  { unfold Str.drop.
    change (Str.chars (String "#" (Str.of_chars L))) with ("#"%char :: Str.chars (Str.of_chars L)).
    cbn [skipn]. by rewrite chars_of_chars. }
  assert (Str.startswith "0x" (Str.of_chars L) = false) as ->.
  { subst L. by apply startswith_0x. }
  assert (Re.fullmatch (Re.UpTo (Re.Cls hex_digit) 6) (Str.of_chars L) = true) as ->.
  { unfold Re.fullmatch. rewrite chars_of_chars.
    apply ReFacts.accepts_matches, matches_upto_cls. subst L.
    split; [done|]. split; [simpl; lia|]. repeat constructor; done. }
  do 2 f_equal. unfold int_hex. rewrite chars_of_chars. subst L. cbn [fold_left].
  rewrite Hv5, Hv4, Hv3, Hv2, Hv1, Hv0. lia.
Qed.



(** ** Recipes *)

Lemma split_once_absent sep s :
  sep ∉ Str.chars s → split_once sep s = None.
Proof.
  unfold split_once. generalize (@nil ascii). induction (Str.chars s) as [|c l IH]; [done|].
  intros acc Hnot. apply not_elem_of_cons in Hnot as [Hc Hl].
  destruct (Ascii.eqb_spec c sep); [congruence|]. by apply IH.
Qed.

Lemma colon_outside c : id_path_class c = true → c ≠ ":"%char.
Proof. by intros H ->. Qed.

(** A normal path holds no colon: it is its own path, in the default
    namespace. *)
Lemma split_namespaced_id_fixed s default_namespace :
  normal_path s = true → _split_namespaced_id s default_namespace = (default_namespace, s).
Proof.
  intros Hs. unfold _split_namespaced_id. rewrite split_once_absent.
  - f_equal. unfold _normalize_id_path. rewrite core_fixed by done.
    by apply or_else_nonempty, normal_path_nonempty.
  - intros Hin. apply normal_path_inside in Hs.
    rewrite Forall_forall in Hs. by apply Hs in Hin.
Qed.

(** X10: a recipe that is accepted has one of the six recipe types, in
    lower case and trimmed; a shaped one has a pattern and a key, a
    shapeless one has ingredients, a cooking one has a non-empty input
    item; its count and cooking time are at least [1]. *)
Theorem accepted_recipes_are_complete (mod_id : string) (kwargs : FabricRecipeArgs.t)
    name props :
  FabricRecipe_init mod_id kwargs = Ok (name, PRecipe props) →
  let kind := FabricRecipeProps.recipe_type props in
  kind = Str.strip (Str.lower (FabricRecipeArgs.recipe_type kwargs)) ∧
  kind ∈ _RECIPE_TYPES ∧
  (kind = "shaped" →
     FabricRecipeProps.pattern props ≠ [] ∧ FabricRecipeProps.key props ≠ []) ∧
  (kind = "shapeless" → FabricRecipeProps.ingredients props ≠ []) ∧
  (kind ≠ "shaped" → kind ≠ "shapeless" →
     ∃ input, FabricRecipeProps.input_item props = Some input ∧ input ≠ "") ∧
  (1 ≤ FabricRecipeProps.count props)%Z ∧ (1 ≤ FabricRecipeProps.cooking_time props)%Z.
Proof.
  unfold FabricRecipe_init. cbv zeta.
  set (kind := Str.strip (Str.lower _)).
  destruct (bool_decide (kind ∈ _RECIPE_TYPES)) eqn:Hkind; [|done].
  apply bool_decide_eq_true in Hkind. cbn [negb].
  destruct (String.eqb kind "shaped" && _) eqn:Hshaped; [done|].
  destruct (String.eqb kind "shapeless" && _) eqn:Hshapeless; [done|].
  destruct (bool_decide _ && _) eqn:Hcooking; [done|].
  intros [= _ <-]. simpl.
  split; [done|]. split; [done|]. split; [|split; [|split]].
  - intros Hk. rewrite Hk in Hshaped. simpl in Hshaped.
    apply orb_false_iff in Hshaped as [Hp Hkey].
    split; intros Heq; [rewrite Heq in Hp | rewrite Heq in Hkey]; done.
  - intros Hk. rewrite Hk in Hshapeless. simpl in Hshapeless.
    intros Heq. by rewrite Heq in Hshapeless.
  - intros Hns Hnl.
    rewrite bool_decide_eq_true_2 in Hcooking.
    + simpl in Hcooking. apply negb_false_iff in Hcooking.
      destruct (FabricRecipeArgs.input_item kwargs) as [input|]; [|done].
      exists input. split; [done|]. by intros ->.
    + unfold _RECIPE_TYPES in Hkind. rewrite !elem_of_union, !elem_of_singleton in Hkind.
      rewrite !elem_of_union, !elem_of_singleton. tauto.
  - lia.
Qed.

Lemma accepted_recipes_are_complete_witness :
  ∃ name props,
    FabricRecipe_init "demo_mod" ruby_smelting_args = Ok (name, PRecipe props) ∧
    FabricRecipeProps.recipe_type props = "smelting" ∧
    ∃ input, FabricRecipeProps.input_item props = Some input ∧ input ≠ "".
Proof.
  do 2 eexists. split; [reflexivity|]. split; [reflexivity|].
  refine (proj1 (proj2 (proj2 (proj2 (proj2
            (accepted_recipes_are_complete "demo_mod" ruby_smelting_args _ _ _))))) _ _);
    [reflexivity | discriminate | discriminate].
Defined.

Lemma write_recipe_ok (B : Backend) (data_dir : Path.t) (mod_id : string)
    (generated_items generated_blocks : gset string) (recipe : ElementObj.t) (fs fs' : FS.t) :
  match ElementObj.properties recipe with
  | PRecipe props =>
      let payload :=
        Fabric12111Generator.recipe_payload mod_id generated_items generated_blocks props in
      let '(namespace, path) :=
        _split_namespaced_id (FabricRecipeProps.identifier props) mod_id in
      Fabric12111Generator._write_json B
        (Path.div (Path.div (Path.div data_dir namespace) "recipes") (path ++ ".json")%string)
        payload
  | _ => throw (KeyError "recipe_type")
  end fs = (Ok (), fs') →
  ∃ props,
    ElementObj.properties recipe = PRecipe props ∧
    fs' = <[Path.resolve (recipe_file data_dir mod_id props) :=
              json_text B (Fabric12111Generator.recipe_payload mod_id
                             generated_items generated_blocks props)]> fs.
Proof.
  destruct (ElementObj.properties recipe) as [| | | | | |props| | |]; try done.
  cbv zeta. intros H. exists props. split; [done|]. unfold recipe_file. revert H.
  destruct (_split_namespaced_id _ _) as [namespace path].
  intros H. by apply write_file_ok in H.
Qed.

(** X11: a recipe that [FabricRecipe.__init__] accepted is named by its
    identifier, and [_write_recipes] files it under the mod's own
    namespace whatever identifier was asked for: when the writer returns
    for a list of recipes, it has written the recipe's document to
    [data_dir/<mod_id>/recipes/<name>.json] after the recipes before it
    and before those after it, and that file holds the document at the
    end unless a later recipe of the list has the same file. *)
Theorem recipes_are_filed_under_the_mod (B : Backend) (data_dir : Path.t) (mod_id : string)
    (kwargs : FabricRecipeArgs.t) (name : option string) (props : FabricRecipeProps.t)
    (items blocks before after : list ElementObj.t) (recipe : ElementObj.t) (fs fs' : FS.t) :
  FabricRecipe_init mod_id kwargs = Ok (name, PRecipe props) →
  ElementObj.properties recipe = PRecipe props →
  Fabric12111Generator._write_recipes B data_dir mod_id items blocks
    (before ++ recipe :: after) fs = (Ok (), fs') →
  let file :=
    Path.resolve
      (Path.div (Path.div (Path.div data_dir mod_id) "recipes")
         (FabricRecipeProps.identifier props ++ ".json")%string) in
  let text :=
    json_text B
      (Fabric12111Generator.recipe_payload mod_id
         (Fabric12111Generator.generated_names items)
         (Fabric12111Generator.generated_names blocks) props) in
  name = Some (FabricRecipeProps.identifier props) ∧
  ∃ fs1,
    Fabric12111Generator._write_recipes B data_dir mod_id items blocks before fs
      = (Ok (), fs1) ∧
    Fabric12111Generator._write_recipes B data_dir mod_id items blocks after
      (<[file := text]> fs1) = (Ok (), fs') ∧
    (Forall (λ later, ∀ q, ElementObj.properties later = PRecipe q →
                Path.resolve (recipe_file data_dir mod_id q) ≠ file) after →
     fs' !! file = Some text).
Proof.
  intros Hinit Hprops Hrun file text.
  destruct (recipe_name_normal mod_id kwargs name (PRecipe props) Hinit) as (n & -> & Hn).
  assert (FabricRecipeProps.identifier props = n) as Hid.
  { revert Hinit. unfold FabricRecipe_init. cbv zeta.
    repeat (match goal with |- context [if ?b then Raise _ else _] => destruct b end;
            [done|]).
    by intros [= <- <-]. }
  split; [by rewrite Hid|].
  assert (recipe_file data_dir mod_id props
          = Path.div (Path.div (Path.div data_dir mod_id) "recipes")
              (FabricRecipeProps.identifier props ++ ".json")%string) as Hfile.
  { unfold recipe_file. rewrite Hid. by rewrite split_namespaced_id_fixed. }
  unfold Fabric12111Generator._write_recipes in *. cbv zeta in Hrun.
  apply forM_ok_app in Hrun as (fs1 & fs2 & Hbefore & Hrecipe & Hafter).
  apply write_recipe_ok in Hrecipe as (props' & Hprops' & ->).
  rewrite Hprops in Hprops'. injection Hprops' as <-.
  rewrite Hfile in Hafter. fold file text in Hafter.
  exists fs1. split; [done|]. split; [done|].
  intros Hlater.
  assert (∀ later fsa fsb p,
            match ElementObj.properties later with
            | PRecipe q =>
                let payload :=
                  Fabric12111Generator.recipe_payload mod_id
                    (Fabric12111Generator.generated_names items)
                    (Fabric12111Generator.generated_names blocks) q in
                let '(namespace, path) :=
                  _split_namespaced_id (FabricRecipeProps.identifier q) mod_id in
                Fabric12111Generator._write_json B
                  (Path.div (Path.div (Path.div data_dir namespace) "recipes")
                     (path ++ ".json")%string) payload
            | _ => throw (KeyError "recipe_type")
            end fsa = (Ok (), fsb) →
            (∀ q, ElementObj.properties later = PRecipe q →
                  Path.resolve (recipe_file data_dir mod_id q) ≠ p) →
            fsb !! p = fsa !! p) as Hstep.
  { intros later fsa fsb p Hstep Hkeep.
    apply write_recipe_ok in Hstep as (q & Hq & ->).
    apply lookup_insert_ne. by apply Hkeep. }
  rewrite (forM_frame _ _ after Hstep _ _ file Hafter Hlater).
  apply lookup_insert_eq.
Qed.

Lemma recipes_are_filed_under_the_mod_witness :
  (Fabric12111Generator._write_recipes showing_backend ["data"] "demo_mod" [] []
     [ruby_smelting] ∅).2
    !! ["data"; "demo_mod"; "recipes"; "minecraft_ruby.json"]
  = Some ("{'type': 'minecraft:smelting', 'ingredient': {'item': 'minecraft:ruby_ore'}, "
          ++ "'result': 'minecraft:ruby', 'experience': 0/1, 'cookingtime': 200}"
          ++ String "010" "")%string.
Proof.
  destruct (recipes_are_filed_under_the_mod showing_backend ["data"] "demo_mod"
              ruby_smelting_args (Some "minecraft_ruby") ruby_smelting_props
              [] [] [] [] ruby_smelting ∅
              (Fabric12111Generator._write_recipes showing_backend ["data"] "demo_mod" [] []
                 [ruby_smelting] ∅).2)
    as (_ & fs1 & Hbefore & _ & Hfile).
  - reflexivity.
  - reflexivity.
  - apply injective_projections; [vm_compute; reflexivity | reflexivity].
  - injection Hbefore as <-. apply Hfile. constructor.
Defined.
(** ** What the data writers read and leave *)

Lemma write_file_outcome p text fs :
  (write_file p text fs).2 = fs ∨
  (write_file p text fs = (Ok (), <[Path.resolve p := text]> fs)).
Proof. unfold write_file. repeat case_match; auto. Qed.

Lemma read_file_reads p fs : (read_file p fs).2 = fs.
Proof. unfold read_file. by case_match. Qed.

(** X12: [_resolve_json_payload] only reads: the file system is the same
    after it, whatever the outcome. A non-empty [payload_file] wins over
    [payload]: when it is no regular file the call raises
    [FileNotFoundError], when it holds a JSON object the call returns
    that object. With no [payload_file], or an empty one, the call
    returns [payload], and the empty object when there is none. *)
Theorem resolve_json_payload_reads (B : Backend) (payload : option (assoc json))
    (payload_file : option string) (label : string) (fs : FS.t) :
  let outcome := Fabric12111Generator._resolve_json_payload B payload payload_file label fs in
  outcome.2 = fs ∧
  (∀ file, payload_file = Some file → file ≠ "" →
     (fs !! Path.resolve (Path.of_string file) = None →
        outcome.1 = Raise (FileNotFoundError
                             (label ++ " payload_file does not exist: " ++ file))) ∧
     (∀ text loaded, fs !! Path.resolve (Path.of_string file) = Some text →
        json_loads B text = Ok (JDict loaded) → outcome.1 = Ok loaded)) ∧
  (payload_file = None ∨ payload_file = Some "" → outcome.1 = Ok (default [] payload)).
Proof.
  intros outcome. subst outcome. unfold Fabric12111Generator._resolve_json_payload.
  split; [|split].
  - destruct (Str.truthy _); [|by destruct payload].
    destruct (negb _); [done|]. rewrite bind_eq. unfold read_file.
    destruct (fs !! _); [|done]. by destruct (json_loads B s) as [[]|].
  - intros file -> Hfile. cbn [Str.opt_or]. rewrite or_else_nonempty by done.
    rewrite truthy_nonempty by done. split.
    + intros Hnone. by rewrite (is_file_false _ _ Hnone).
    + intros text loaded Htext Hloads. unfold FS.is_file.
      rewrite bool_decide_eq_true_2 by by rewrite Htext. cbn [negb].
      rewrite bind_eq. unfold read_file. by rewrite Htext, Hloads.
  - intros [-> | ->]; by destruct payload.
Qed.

(** X13: [_copy_file_if_exists] changes the file system only when it
    returns [True]: then the source was a regular file, and the target
    (the file of that name inside it when the target is a directory)
    holds the text of the source, every other file being as before. *)
Theorem copy_file_if_exists_copies (source : option string) (target : Path.t) (fs : FS.t) :
  let outcome := Fabric12111Generator._copy_file_if_exists source target fs in
  (outcome.1 ≠ Ok true → outcome.2 = fs) ∧
  (outcome.1 = Ok true →
   ∃ file text destination,
     source = Some file ∧ file ≠ "" ∧
     fs !! Path.resolve (Path.of_string file) = Some text ∧
     (FS.is_dir target fs = false → destination = target) ∧
     outcome.2 !! Path.resolve destination = Some text ∧
     ∀ p, p ≠ Path.resolve destination → outcome.2 !! p = fs !! p).
Proof.
  intros outcome. subst outcome. unfold Fabric12111Generator._copy_file_if_exists.
  destruct (Str.truthy (Str.opt_or source "")) eqn:Htruthy; cbn [negb]; [|done].
  destruct source as [file|]; [|done]. cbn [Str.opt_or] in *.
  assert (file ≠ "") as Hfile by (by intros ->).
  rewrite or_else_nonempty by done.
  destruct (FS.is_file (Path.of_string file) fs) eqn:Hisfile; cbn [negb]; [|done].
  rewrite bind_eq. unfold read_file.
  destruct (fs !! Path.resolve (Path.of_string file)) as [text|] eqn:Htext;
    [|by rewrite (is_file_false _ _ Htext) in Hisfile].
  set (destination := match last (Path.of_string file) with
                      | Some base => if FS.is_dir target fs then target ++ [base] else target
                      | None => target
                      end).
  rewrite bind_eq.
  destruct (write_file_outcome destination text fs) as [Hsame | Hwritten].
  - destruct (write_file destination text fs) as [[[]|e] fs'] eqn:Hwrite; simpl in Hsame;
      subst fs'.
    + simpl. split; [done|]. intros _.
      exists file, text, destination. repeat split; try done.
      * intros Hdir. subst destination. rewrite Hdir. by destruct (last _).
      * by apply write_file_writes in Hwrite.
    + simpl. split; [done|]. done.
  - rewrite Hwritten. simpl. split; [done|]. intros _.
    exists file, text, destination. repeat split; try done.
    + intros Hdir. subst destination. rewrite Hdir. by destruct (last _).
    + apply lookup_insert_eq.
    + intros p Hp. by apply lookup_insert_ne.
Qed.

Lemma assoc_set_set {A} k (v w : A) d : assoc_set k w (assoc_set k v d) = assoc_set k w d.
Proof.
  induction d as [|[k' v'] d IH]; simpl.
  - by rewrite String.eqb_refl.
  - destruct (String.eqb_spec k' k) as [->|Hne]; simpl.
    + by rewrite String.eqb_refl.
    + destruct (String.eqb_spec k' k); [done|]. by rewrite IH.
Qed.

(** X14: replacing the feature id of a placed feature is stable: a
    payload that went through the replacement is left as it is when it
    goes through it again, for every worldgen type and payload. *)
Theorem alias_placed_feature_idempotent (worldgen_type : string) (payload : assoc json) :
  Fabric12111Generator.alias_placed_feature worldgen_type
    (Fabric12111Generator.alias_placed_feature worldgen_type payload)
  = Fabric12111Generator.alias_placed_feature worldgen_type payload.
Proof.
  unfold Fabric12111Generator.alias_placed_feature.
  destruct (String.eqb worldgen_type "placed_feature"); [|done].
  destruct (assoc_get "feature" payload) as [[| | | |feature_id| |]|] eqn:Hget;
    try by rewrite Hget.
  rewrite assoc_get_set_eq, assoc_set_set. do 2 f_equal.
  unfold _WORLDGEN_FEATURE_ALIASES. cbn [assoc_get].
  destruct (String.eqb_spec "minecraft:ore_diamond" feature_id) as [<-|Hne]; cbn [default].
  - reflexivity.
  - destruct (String.eqb_spec "minecraft:ore_diamond" feature_id); done.
Qed.

(** ** Outcomes of [compile] *)

(** X15: when the root [output_dir/<mod_id>-fabric-1.21.11] is an
    existing regular file, [compile] raises [NotADirectoryError] and
    writes nothing. *)
Theorem compile_root_is_a_file (B : Backend) (σ : Store) (mod_ : nat) (owner : ModObj.t)
    (output_dir : Path.t) (fs : FS.t) :
  mods σ !! mod_ = Some owner →
  let root := Fabric12111Generator.root_of output_dir (ModObj.mod_id owner) in
  FS.is_file root fs = true →
  Fabric12111Generator.compile B σ mod_ output_dir fs
  = (Raise (NotADirectoryError (Path.to_string root)), fs).
Proof.
  intros Hmod root Hfile. unfold Fabric12111Generator.compile.
  rewrite bind_reading. unfold get_mod. rewrite Hmod. cbn [fst].
  rewrite bind_eq. fold root. unfold FS.exists_, rmtree. by rewrite Hfile.
Qed.

Lemma compile_root_is_a_file_witness :
  Fabric12111Generator.compile silent_backend tester_store 0 ["build"] file_at_root
  = (Raise (NotADirectoryError "build/demo_mod-fabric-1.21.11"), file_at_root).
Proof.
  apply (compile_root_is_a_file silent_backend tester_store 0 tester_mod ["build"]).
  - reflexivity.
  - vm_compute. reflexivity.
Defined.

(** X16: when [compile] returns, it returns the root
    [output_dir/<mod_id>-fabric-1.21.11] of the Mod it was given. *)
Theorem compile_returns_root (B : Backend) (σ : Store) (mod_ : nat)
    (output_dir : Path.t) (fs fs' : FS.t) (path : Path.t) :
  Fabric12111Generator.compile B σ mod_ output_dir fs = (Ok path, fs') →
  ∃ owner, mods σ !! mod_ = Some owner ∧
    path = Fabric12111Generator.root_of output_dir (ModObj.mod_id owner).
Proof.
  unfold Fabric12111Generator.compile. rewrite bind_reading.
  unfold get_mod. destruct (mods σ !! mod_) as [owner|] eqn:Hmod; [|done]. cbn [fst].
  intros H. exists owner. split; [done|].
  repeat (apply bind_ok in H as (? & ? & _ & H)).
  by injection H as <- _.
Qed.

Lemma compile_returns_root_witness :
  ∃ owner, mods tester_store !! 0 = Some owner ∧
    ["build"; "demo_mod-fabric-1.21.11"]
    = Fabric12111Generator.root_of ["build"] (ModObj.mod_id owner).
Proof.
  refine (compile_returns_root silent_backend tester_store 0 ["build"] ∅
            (Fabric12111Generator.compile silent_backend tester_store 0 ["build"] ∅).2 _ _).
  apply injective_projections; [vm_compute; reflexivity | reflexivity].
Defined.

(** ** Handlers: start-up commands, failures and nesting *)

Lemma exec_then p q : ∀ σ, exec (then_ p q) σ = (do! exec p in exec q) σ.
Proof.
  induction p as [|e|m command next IH|element event handler _ next IH]; intros σ;
    cbn [then_ exec]; rewrite ?bind_eq; try done.
  - destruct (Mod.sendConsole m command σ) as [[[]|e] σ']; [|done].
    by rewrite IH, bind_eq.
  - destruct (_ElementEventNamespace.__getattr__ _ _ _ σ) as [[[]|e] σ']; [|done].
    by rewrite IH, bind_eq.
Qed.

(** With no active context the records go to the start-up actions. *)
Lemma exec_sends_startup self commands : ∀ σ o,
  mods σ !! self = Some o →
  ModObj._action_capture_stack o = [] →
  exec (sends self commands) σ =
    (Ok (), set_mods (alter (ModObj.set_startup_actions
                               (λ acts, acts ++ map console_action commands)) self) σ).
Proof.
  induction commands as [|c commands IH]; intros σ o Hself Hstack.
  - simpl. unfold ret, set_mods. rewrite list_alter_id.
    + by rewrite store_eta.
    + intros []. unfold ModObj.set_startup_actions. simpl. by rewrite app_nil_r.
  - cbn [sends fold_right exec]. rewrite bind_eq.
    unfold Mod.sendConsole at 1. rewrite bind_eq. unfold get_mod. rewrite Hself, Hstack.
    cbn [last]. unfold update_mod. rewrite Hself.
    fold (sends self commands).
    rewrite (IH _ (ModObj.set_startup_actions (λ acts, acts ++ [console_action c]) o)).
    + unfold set_mods. simpl. rewrite list_alter_alter_eq. do 2 f_equal.
      apply list_alter_ext; [|done]. intros [] _. unfold ModObj.set_startup_actions. simpl.
      by rewrite <- app_assoc.
    + simpl. by rewrite list_lookup_alter_eq, Hself.
    + done.
Qed.

Lemma commands_from_console commands :
  _commands_from_actions (map console_action commands)
  = filter (λ c, Str.truthy c = true) commands.
Proof.
  unfold _commands_from_actions. induction commands as [|c commands IH]; [done|].
  cbn [map omap list_omap]. rewrite IH. unfold console_action at 1. cbn [assoc_get String.eqb Ascii.eqb Bool.eqb].
  rewrite filter_cons. destruct (Str.truthy c) eqn:Hc.
  - by rewrite decide_True.
  - by rewrite decide_False.
Qed.

(** X17: commands sent outside any handler reach the generator as the
    Mod's start-up commands: after such calls [_commands_from_actions]
    gives, on the Mod's [startup_actions], the commands it gave before
    followed by the new ones in call order, the empty ones left out. *)
Theorem startup_commands_reach_the_generator (σ : Store) (self : nat) (owner : ModObj.t)
    (commands : list string) :
  mods σ !! self = Some owner →
  ModObj._action_capture_stack owner = [] →
  ∃ σ' owner',
    exec (sends self commands) σ = (Ok (), σ') ∧
    mods σ' !! self = Some owner' ∧
    _commands_from_actions (ModObj.startup_actions owner')
    = _commands_from_actions (ModObj.startup_actions owner)
      ++ filter (λ c, Str.truthy c = true) commands.
Proof.
  intros Hself Hstack. rewrite (exec_sends_startup self commands σ owner) by done.
  eexists _, _. split; [done|]. split.
  - simpl. by rewrite list_lookup_alter_eq, Hself.
  - simpl. unfold _commands_from_actions. rewrite omap_app. f_equal.
    apply commands_from_console.
Qed.

Lemma startup_commands_reach_the_generator_witness :
  ∃ σ' owner',
    exec (sends 0 ["say hi"; ""; "time set day"]) tester_store = (Ok (), σ') ∧
    mods σ' !! 0 = Some owner' ∧
    _commands_from_actions (ModObj.startup_actions owner') = ["say hi"; "time set day"].
Proof.
  apply (startup_commands_reach_the_generator tester_store 0 tester_mod
           ["say hi"; ""; "time set day"]); reflexivity.
Defined.

(** X18: when the handler given to [@element.Event.<event>] raises, the
    registration lets the exception through and records nothing on the
    element: the store is the one the handler left, with the capture
    context popped again, so the elements are as the handler left them
    and every capture stack is as before the registration. *)
Theorem failed_handler_registers_nothing (σ σ' : Store) (element : nat) (o : ElementObj.t)
    (owner : ModObj.t) (event : string) (handler : proc) (e : exn) :
  elems σ !! element = Some o →
  mods σ !! ElementObj.mod_ o = Some owner →
  event ∈ EVENT_NAMES (ElementObj.cls o) →
  let actions := length (lists σ) in
  let pushed :=
    set_mods (alter (ModObj.set_stack (λ st, st ++ [actions])) (ElementObj.mod_ o))
      (set_lists (λ ls, ls ++ [[]]) σ) in
  exec handler pushed = (Raise e, σ') →
  ∃ σ'',
    _ElementEventNamespace.__getattr__ element event (exec handler) σ = (Raise e, σ'') ∧
    elems σ'' = elems σ' ∧ lists σ'' = lists σ' ∧ stacks σ'' = stacks σ.
Proof.
  intros Helem Hmod Hevent actions pushed Hrun.
  unfold _ElementEventNamespace.__getattr__. rewrite bind_eq. unfold get_elem.
  rewrite Helem, (bool_decide_eq_true_2 _ Hevent). cbn [negb].
  rewrite bind_eq, (run_action_capture_eq _ _ σ owner Hmod) by apply exec_stacks.
  fold actions. fold pushed. rewrite Hrun. cbn [fst snd].
  eexists. split; [reflexivity|]. split; [done|]. split; [done|].
  rewrite stacks_alter_stack.
  pose proof (exec_stacks handler pushed) as Hstacks. rewrite Hrun in Hstacks.
  cbn [snd] in Hstacks. rewrite Hstacks. unfold pushed.
  rewrite stacks_alter_stack. apply pop_push_stacks.
Qed.

Lemma failed_handler_registers_nothing_witness :
  ∃ σ'',
    _ElementEventNamespace.__getattr__ 0 "Cast"
      (exec (SendConsole 0 "say one" (Throw (UserError "boom")))) spell_store
    = (Raise (UserError "boom"), σ'') ∧
    elems σ'' = [foo_spell; bar_spell] ∧ lists σ'' = [[console_action "say one"]] ∧
    stacks σ'' = [[]].
Proof.
  apply (failed_handler_registers_nothing spell_store
           {| mods := [ModObj.set_stack (λ _, [0]) tester_mod];
              elems := [foo_spell; bar_spell];
              lists := [[console_action "say one"]] |}
           0 foo_spell tester_mod "Cast"
           (SendConsole 0 "say one" (Throw (UserError "boom"))) (UserError "boom")).
  - reflexivity.
  - reflexivity.
  - apply list_elem_of_In. simpl. auto.
  - reflexivity.
Defined.

(** X19: registrations nest. A handler that sends [before], registers
    an inner handler sending [inner] for an event of a second element of
    the same Mod, and then sends [after], leaves two contexts: its own
    holds the records of [before] and [after] in order and joins the
    outer event, the inner one holds the records of [inner] and joins the
    inner event; nothing goes to the start-up actions and the Mod is as
    before. *)
Theorem nested_registration (σ : Store) (self : nat) (owner : ModObj.t)
    (outer inner_element : nat) (o_outer o_inner : ElementObj.t)
    (event inner_event : string) (before inner after : list string) :
  mods σ !! self = Some owner →
  elems σ !! outer = Some o_outer → ElementObj.mod_ o_outer = self →
  elems σ !! inner_element = Some o_inner → ElementObj.mod_ o_inner = self →
  event ∈ EVENT_NAMES (ElementObj.cls o_outer) →
  inner_event ∈ EVENT_NAMES (ElementObj.cls o_inner) →
  let handler :=
    then_ (sends self before)
      (OnEvent inner_element inner_event (sends self inner) (sends self after)) in
  let actions := length (lists σ) in
  _ElementEventNamespace.__getattr__ outer event (exec handler) σ =
    (Ok (),
     {| mods := mods σ;
        elems := alter (record_handler event actions) outer
                   (alter (record_handler inner_event (S actions)) inner_element (elems σ));
        lists := lists σ ++ [map console_action (before ++ after);
                             map console_action inner] |}).
Proof.
  intros Hself Houter Hmo Hinner Hmi Hevent Hievent handler actions.
  set (pushed := set_mods (alter (ModObj.set_stack (λ st, st ++ [actions])) self)
                   (set_lists (λ ls, ls ++ [[]]) σ)).
  set (pushed_owner := ModObj.set_stack (λ st, st ++ [actions]) owner).
  assert (mods pushed !! self = Some pushed_owner) as Hpushed
    by (unfold pushed; simpl; by rewrite list_lookup_alter_eq, Hself).
  assert (exec handler pushed =
          (Ok (),
           {| mods := mods pushed;
              elems := alter (record_handler inner_event (S actions)) inner_element (elems σ);
              lists := lists σ ++ [map console_action (before ++ after);
                                   map console_action inner] |})) as Hrun.
  { unfold handler. rewrite exec_then, bind_eq.
    rewrite (exec_sends self before pushed pushed_owner
               (ModObj._action_capture_stack owner) actions []);
      [|done|done|unfold pushed; simpl; apply lookup_snoc].
    set (σ1 := set_lists _ pushed).
    assert (lists σ1 = lists σ ++ [map console_action before]) as Hlists1
      by (unfold σ1, pushed, actions; simpl; by rewrite alter_snoc).
    assert (elems σ1 = elems σ) as Helems1 by done.
    assert (mods σ1 = mods pushed) as Hmods1 by done.
    clearbody σ1.
    cbn [exec]. rewrite bind_eq.
    unfold _ElementEventNamespace.__getattr__ at 1. rewrite bind_eq. unfold get_elem.
    rewrite Helems1, Hinner, Hmi.
    rewrite (bool_decide_eq_true_2 _ Hievent). cbn [negb].
    rewrite bind_eq, (run_action_capture_sends self inner σ1 pushed_owner)
      by by rewrite Hmods1.
    unfold update_elem. cbn [elems]. rewrite Helems1, Hinner.
    set (σ2 := set_elems _ _).
    assert (lists σ2 = lists σ ++ [map console_action before; map console_action inner])
      as Hlists2 by (unfold σ2; cbn [lists set_elems]; rewrite Hlists1, <- app_assoc; done).
    assert (elems σ2 = alter (record_handler inner_event (S actions)) inner_element (elems σ))
      as Helems2.
    { unfold σ2. cbn [elems set_elems]. unfold record_handler.
      by rewrite Hlists1, length_app, Nat.add_comm. }
    assert (mods σ2 = mods pushed) as Hmods2 by (unfold σ2; cbn [mods set_elems]; done).
    clearbody σ2.
    rewrite (exec_sends self after σ2 pushed_owner
               (ModObj._action_capture_stack owner) actions (map console_action before));
      [|by rewrite Hmods2|done|].
    - unfold set_lists. rewrite Hmods2, Helems2, Hlists2. do 2 f_equal. unfold actions.
      change [map console_action before; map console_action inner]
        with ([map console_action before] ++ [map console_action inner]).
      rewrite app_assoc, (alter_app_l _ _ _ (length (lists σ)))
        by (rewrite length_app; simpl; lia).
      rewrite alter_snoc, <- app_assoc, map_app. done.
    - rewrite Hlists2. unfold actions.
      change [map console_action before; map console_action inner]
        with ([map console_action before] ++ [map console_action inner]).
      rewrite app_assoc, lookup_app_l by (rewrite length_app; simpl; lia).
      apply lookup_snoc. }
  unfold _ElementEventNamespace.__getattr__. rewrite bind_eq. unfold get_elem.
  rewrite Houter, Hmo, (bool_decide_eq_true_2 _ Hevent). cbn [negb].
  rewrite bind_eq, (run_action_capture_eq self _ σ owner Hself) by apply exec_stacks.
  fold actions. fold pushed. rewrite Hrun. cbn [fst snd].
  unfold update_elem. cbn [elems set_mods].
  destruct (alter _ inner_element (elems σ) !! outer) as [x|] eqn:Hx.
  - unfold set_elems, set_mods. cbn [mods elems lists]. do 2 f_equal.
    unfold pushed. cbn [mods set_mods set_lists]. apply pop_push_mods.
  - apply lookup_ge_None in Hx. rewrite length_alter in Hx.
    apply lookup_lt_Some in Houter. lia.
Qed.

Lemma nested_registration_witness :
  _ElementEventNamespace.__getattr__ 0 "Cast"
    (exec (then_ (sends 0 ["say one"])
             (OnEvent 1 "Cast" (sends 0 ["say inner"]) (sends 0 ["say two"])))) spell_store
  = (Ok (),
     {| mods := [tester_mod];
        elems := [ElementObj.set_events (λ _, [("Cast", [0])]) foo_spell;
                  ElementObj.set_events (λ _, [("Cast", [1])]) bar_spell];
        lists := [[console_action "say one"; console_action "say two"];
                  [console_action "say inner"]] |}).
Proof.
  apply (nested_registration spell_store 0 tester_mod 0 1 foo_spell bar_spell
           "Cast" "Cast" ["say one"] ["say inner"] ["say two"]);
    try reflexivity; apply list_elem_of_In; simpl; auto.
Defined.

(** X20: a handler is captured by the Mod that owns the element. What
    the handler sends to another Mod, which has no active context, is
    not captured: the event gets an empty context, and the records go to
    the start-up actions of that other Mod. *)
Theorem foreign_commands_are_not_captured (σ : Store) (element : nat) (o : ElementObj.t)
    (owner : ModObj.t) (other : nat) (other_owner : ModObj.t) (event : string)
    (commands : list string) :
  elems σ !! element = Some o →
  mods σ !! ElementObj.mod_ o = Some owner →
  mods σ !! other = Some other_owner →
  other ≠ ElementObj.mod_ o →
  ModObj._action_capture_stack other_owner = [] →
  event ∈ EVENT_NAMES (ElementObj.cls o) →
  _ElementEventNamespace.__getattr__ element event (exec (sends other commands)) σ =
    (Ok (),
     {| mods := alter (ModObj.set_startup_actions
                         (λ acts, acts ++ map console_action commands)) other (mods σ);
        elems := alter (record_handler event (length (lists σ))) element (elems σ);
        lists := lists σ ++ [[]] |}).
Proof.
  intros Helem Hmod Hother Hne Hstack Hevent.
  unfold _ElementEventNamespace.__getattr__. rewrite bind_eq. unfold get_elem.
  rewrite Helem, (bool_decide_eq_true_2 _ Hevent). cbn [negb].
  rewrite bind_eq, (run_action_capture_eq _ _ σ owner Hmod) by apply exec_stacks.
  set (actions := length (lists σ)).
  set (pushed := set_mods _ (set_lists _ σ)).
  rewrite (exec_sends_startup other commands pushed other_owner);
    [|unfold pushed; simpl; by rewrite list_lookup_alter_ne|done].
  cbn [fst snd]. unfold update_elem. cbn [elems set_mods pushed set_lists]. rewrite Helem.
  unfold set_elems. cbn [mods elems lists]. do 2 f_equal.
  unfold pushed, set_mods, set_lists. cbn [mods elems lists].
  rewrite (list_alter_alter_ne _ _ _ (ElementObj.mod_ o) other) by done.
  by rewrite pop_push_mods.
Qed.

Lemma foreign_commands_are_not_captured_witness :
  _ElementEventNamespace.__getattr__ 0 "Cast" (exec (sends 1 ["say hi"])) two_mods_store
  = (Ok (),
     {| mods := [tester_mod;
                 ModObj.set_startup_actions (λ _, [console_action "say hi"]) other_mod];
        elems := [ElementObj.set_events (λ _, [("Cast", [0])]) foo_spell; bar_spell];
        lists := [[]] |}).
Proof.
  apply (foreign_commands_are_not_captured two_mods_store 0 foo_spell tester_mod 1 other_mod
           "Cast" ["say hi"]); try reflexivity; try discriminate.
  apply list_elem_of_In. simpl. auto.
Defined.

(** ** Declaring and adding *)

Lemma to_manifest_read self τ : (Mod.to_manifest self τ).2 = τ.
Proof.
  unfold Mod.to_manifest. rewrite bind_eq. unfold get_mod.
  destruct (mods τ !! self) as [o|]; [|done]. rewrite bind_eq.
  pose proof (mapM_read Element.to_dict (ModObj.elements o) to_dict_read τ) as H.
  destruct (mapM Element.to_dict (ModObj.elements o) τ) as [[ds|e] τ']; simpl in *; by subst.
Qed.

(** X21: declaring an element does not add it to its Mod. The manifest
    of a Mod is the same after an element was constructed for it,
    whether the construction succeeds or raises, until [add] is called;
    and [to_manifest] itself changes nothing. *)
Theorem declared_elements_are_not_added (σ : Store) (self : nat) (cls : ElementClass)
    (kwargs : Args cls) (manifest : json) :
  (Mod.to_manifest self σ).1 = Ok manifest →
  (Mod.to_manifest self (Element.construct cls self kwargs σ).2).1 = Ok manifest ∧
  (Mod.to_manifest self σ).2 = σ.
Proof.
  intros Hmanifest. split; [|apply to_manifest_read].
  unfold Element.construct. rewrite bind_eq. unfold get_mod.
  destruct (mods σ !! self) as [o|] eqn:Hself; [|done].
  destruct (init_fields cls (ModObj.mod_id o) kwargs) as [[name properties]|e]; [|done].
  unfold Element.__init__, new_elem. cbn [snd].
  set (σ' := set_elems _ σ).
  assert (extends σ σ') as Hext by (split; [by apply prefix_app_r | done]).
  revert Hmanifest. unfold Mod.to_manifest. rewrite !bind_eq. unfold get_mod.
  change (mods σ') with (mods σ). rewrite Hself, !bind_eq.
  pose proof (mapM_read Element.to_dict (ModObj.elements o) to_dict_read σ) as H1.
  pose proof (mapM_read Element.to_dict (ModObj.elements o) to_dict_read σ') as H2.
  destruct (mapM Element.to_dict (ModObj.elements o) σ) as [[ds|e] τ] eqn:Hrun; [|done].
  assert ((mapM Element.to_dict (ModObj.elements o) σ').1 = Ok ds) as Hrun'.
  { apply (mapM_read_mono Element.to_dict _ σ σ'); [apply to_dict_read| |by rewrite Hrun].
    intros x r. by apply to_dict_mono. }
  destruct (mapM Element.to_dict (ModObj.elements o) σ') as [r' τ']. simpl in *.
  by subst.
Qed.

Lemma declared_elements_are_not_added_witness :
  (Mod.to_manifest 0
     (Element.construct Spell 0 {| SpellArgs.mana_cost := 3; SpellArgs.name := Some "Baz" |}
        spell_store).2).1
  = Ok (JDict [("author", JStr "tester"); ("generator", JStr "demo-no-item-1.0");
               ("mod_id", JStr "demo_mod"); ("name", JStr "Demo Mod");
               ("version", JStr "0.1.0"); ("startup_actions", JList []);
               ("elements", JList [])]).
Proof.
  apply (declared_elements_are_not_added spell_store 0 Spell
           {| SpellArgs.mana_cost := 3; SpellArgs.name := Some "Baz" |}).
  reflexivity.
Defined.

(** ** Registering under a new key *)

(** X22: registering a generator under a non-empty key that is not yet
    in the registry succeeds with or without [replace]; the key then
    yields that generator, every other key yields what it did before,
    and the listing is the earlier listing with the new key added. *)
Theorem fresh_registration (generator : Generator.t) (registry : gmap string Generator.t)
    (replace : bool) :
  Generator.key generator ≠ "" →
  registry !! Generator.key generator = None →
  let key := Generator.key generator in
  let outcome := register_generator generator replace registry in
  outcome.1 = Ok () ∧
  get_generator key outcome.2 = Ok generator ∧
  (∀ k, k ≠ key → get_generator k outcome.2 = get_generator k registry) ∧
  list_generators outcome.2 ≡ₚ key :: list_generators registry.
Proof.
  intros Hne Hfresh key outcome. subst outcome. unfold register_generator. fold key.
  rewrite (truthy_nonempty key Hne). cbn [negb].
  rewrite bool_decide_eq_false_2 by (unfold key; rewrite Hfresh; by intros [? ?]).
  cbn [andb fst snd]. split; [done|]. unfold get_generator. split; [|split].
  - by rewrite lookup_insert_eq.
  - intros k Hk. by rewrite lookup_insert_ne.
  - unfold list_generators. rewrite !merge_sort_Permutation, dom_insert_L.
    apply elements_union_singleton. by apply not_elem_of_dom.
Qed.

Lemma fresh_registration_witness :
  list_generators (register_generator NoItemGenerator false ∅).2 ≡ₚ
    "demo-no-item-1.0" :: list_generators ∅.
Proof.
  apply (fresh_registration NoItemGenerator ∅ false); [discriminate | reflexivity].
Defined.

(** ** Java symbols and literals *)

Example java_literal_examples :
  let quoted body := Str.of_chars (double_quote :: body ++ [double_quote]) in
  read_java_literal (quoted (Str.chars "say hi")) = Some (map Str.code (Str.chars "say hi")) ∧
  read_java_literal (quoted [backslash; "n"%char]) = Some [10%N] ∧
  read_java_literal (quoted [backslash; "1"%char; "0"%char; "1"%char]) = Some [65%N] ∧
  read_java_literal (quoted [backslash; "4"%char; "0"%char; "0"%char]) = Some [32%N; 48%N] ∧
  read_java_literal (quoted (backslash :: Str.chars "u0041")) = Some [65%N] ∧
  read_java_literal (quoted (backslash :: backslash :: Str.chars "u0041"))
    = Some (92%N :: map Str.code (Str.chars "u0041")) ∧
  read_java_literal (quoted (backslash :: Str.chars "u000a")) = None ∧
  read_java_literal (quoted [backslash; "q"%char]) = None ∧
  read_java_literal (quoted ["010"%char]) = None ∧
  read_java_literal (quoted [double_quote]) = None ∧
  read_java_literal (quoted [backslash]) = None.
Proof. repeat split; vm_compute; reflexivity. Qed.

(** [_java_string] escapes character by character. *)
Lemma java_string_chars value :
  Str.chars (_java_string value)
  = double_quote :: flat_map java_escape (Str.chars value) ++ [double_quote].
Proof.
  unfold _java_string, replace_char_with. cbv zeta.
  change (Str.chars (String double_quote ?s)) with (double_quote :: Str.chars s).
  rewrite chars_app, !chars_of_chars. f_equal. f_equal.
  change (Str.chars (String backslash (String double_quote "")))
    with [backslash; double_quote].
  change (Str.chars (String backslash (String backslash ""))) with [backslash; backslash].
  induction (Str.chars value) as [|c l IH]; [done|].
  cbn [flat_map]. rewrite flat_map_app, IH. f_equal.
  unfold java_escape. destruct (Ascii.eqb_spec c backslash) as [->|Hb]; [done|].
  cbn [flat_map app]. by destruct (Ascii.eqb c double_quote).
Qed.

(** No Unicode escape arises: the first pass leaves the escaped text as
    it is. *)
Lemma unicode_escapes_escaped c rest :
  unicode_escapes Plain (java_escape c ++ rest)
  = option_map (app (map Str.code (java_escape c))) (unicode_escapes Plain rest).
Proof.
  unfold java_escape. destruct (Ascii.eqb_spec c backslash) as [->|Hb].
  - cbn [app unicode_escapes]. change (Ascii.eqb backslash backslash) with true.
    change (Ascii.eqb backslash "u") with false. cbv iota.
    by destruct (unicode_escapes Plain rest).
  - destruct (Ascii.eqb_spec c double_quote) as [->|Hq].
    + cbn [app unicode_escapes]. change (Ascii.eqb backslash backslash) with true.
      change (Ascii.eqb double_quote "u") with false. cbv iota.
      by destruct (unicode_escapes Plain rest).
    + cbn [app unicode_escapes]. destruct (Ascii.eqb_spec c backslash); [done|].
      by destruct (unicode_escapes Plain rest).
Qed.

Lemma unicode_escapes_body l rest :
  unicode_escapes Plain (flat_map java_escape l ++ rest)
  = option_map (app (map Str.code (flat_map java_escape l))) (unicode_escapes Plain rest).
Proof.
  induction l as [|c l IH];
    [cbn [flat_map app map]; by destruct (unicode_escapes Plain rest)|].
  cbn [flat_map]. rewrite <- app_assoc, unicode_escapes_escaped, IH.
  destruct (unicode_escapes Plain rest); [|done]. cbn [option_map].
  by rewrite map_app, <- app_assoc.
Qed.

(** The second pass reads each escaped character back, and stops at a
    line terminator. *)
Lemma string_characters_escaped c rest :
  string_characters Text (map Str.code (java_escape c) ++ rest)
  = if is_line_terminator c then None
    else option_map (cons (Str.code c)) (string_characters Text rest).
Proof. destruct c as [[] [] [] [] [] [] [] []]; reflexivity. Qed.

Lemma string_characters_body l :
  string_characters Text (map Str.code (flat_map java_escape l) ++ [34%N])
  = if existsb is_line_terminator l then None else Some (map Str.code l).
Proof.
  induction l as [|c l IH]; [done|].
  cbn [flat_map existsb map]. rewrite map_app, <- app_assoc, string_characters_escaped, IH.
  destruct (is_line_terminator c); [done|]. cbn [orb].
  by destruct (existsb is_line_terminator l).
Qed.

(** X23: what [_java_string] writes for a text is a Java string literal
    exactly when the text holds no line feed and no carriage return, and
    the literal then denotes the text, character by character: quotes and
    backslashes are escaped, and no Unicode escape arises from a
    backslash followed by [u]. For a text with a line terminator the
    result is not a Java literal. *)
Theorem java_string_denotes_its_text (value : string) :
  read_java_literal (_java_string value)
  = if existsb is_line_terminator (Str.chars value) then None
    else Some (map Str.code (Str.chars value)).
Proof.
  unfold read_java_literal. rewrite java_string_chars.
  cbn [unicode_escapes]. change (Ascii.eqb double_quote backslash) with false. cbv iota.
  rewrite unicode_escapes_body. cbn [unicode_escapes].
  change (Ascii.eqb double_quote backslash) with false. cbv iota.
  cbn [option_map]. change (Str.code double_quote =? 34)%N with true. cbv iota.
  apply string_characters_body.
Qed.
Example java_symbol_examples :
  _java_const "ruby_block" = "RUBY_BLOCK" ∧
  _java_const "gems/ruby.ore" = "GEMS_RUBY_ORE" ∧
  _java_const "__" = "UNNAMED" ∧
  _java_const (String "201" ("t" ++ String "233" " 9")) = "T_9" ∧
  _java_const "a--b" = "A_B" ∧
  Str.chars (_java_string (Str.of_chars [double_quote; backslash; "a"%char]))
  = [double_quote; backslash; double_quote; backslash; backslash; "a"%char; double_quote].
Proof. repeat split; vm_compute; reflexivity. Qed.

Lemma sub_runs_Forall (Q : ascii → Prop) p c b l :
  Q c → (∀ x, p x = false → Q x) → Forall Q (Re.sub_runs_chars p [c] b l).
Proof.
  intros Hc Hp. revert b. induction l as [|x l IH]; intros b; cbn [Re.sub_runs_chars]; [done|].
  destruct (p x) eqn:Hx.
  - destruct b; cbn [app]; [apply IH|]. constructor; [done | apply IH].
  - constructor; [by apply Hp | apply IH].
Qed.

Lemma strip_ends p l :
  from_option p false (head (Str.strip_chars p l)) = false ∧
  from_option p false (last (Str.strip_chars p l)) = false.
Proof.
  split.
  - destruct (Str.strip_chars p l) as [|c r] eqn:Hs; [done|].
    simpl. by apply strip_head in Hs.
  - destruct (Str.strip_chars p l) as [|c r] eqn:Hs; [done|].
    destruct (exists_last (l:=c :: r)) as (f & d & Heq); [done|]. rewrite Heq in *.
    rewrite last_snoc. simpl. by apply strip_last in Hs.
Qed.

Lemma one_of_underscore c : Str.one_of "_" c = Ascii.eqb c "_".
Proof. unfold Str.one_of. simpl. apply orb_false_r. Qed.

Lemma package_safe_chars value :
  Str.chars (_package_safe value "") =
  Str.strip_chars (Str.one_of "_")
    (Re.sub_runs_chars (λ c, negb (command_literal_class c)) ["_"%char] false
       (map Str.lower_char (Str.chars value))).
Proof.
  unfold _package_safe, Str.strip_set, Re.sub_class_plus, Str.lower.
  rewrite !chars_of_chars.
  assert (∀ s, Str.or_else s "" = s) as -> by by intros [].
  apply chars_of_chars.
Qed.

(** X24: a package fragment that [_package_safe] derives from the value
    (not the fallback) is non-empty and over [[a-z0-9_]], and neither
    starts nor ends with an underscore. *)
Theorem package_safe_shape (value fallback : string) :
  _package_safe value "" ≠ "" →
  let out := _package_safe value fallback in
  Re.fullmatch (Re.Plus (Re.Cls command_literal_class)) out = true ∧
  from_option (λ c, Ascii.eqb c "_") false (head (Str.chars out)) = false ∧
  from_option (λ c, Ascii.eqb c "_") false (last (Str.chars out)) = false.
Proof.
  intros Hne out.
  assert (out = _package_safe value "") as ->.
  { subst out. unfold _package_safe in *. destruct (Str.strip_set _ _); done. }
  rewrite package_safe_chars. set (l := Re.sub_runs_chars _ _ _ _).
  split.
  - apply ReFacts.accepts_matches, matches_plus_cls. split.
    + by apply chars_nonempty.
    + rewrite package_safe_chars. apply strip_Forall, sub_runs_Forall; [done|].
      intros x Hx. by apply negb_false_iff in Hx.
  - destruct (strip_ends (Str.one_of "_") l) as [Hh Hl].
    split.
    + destruct (head _) as [c|]; [|done]. cbn [from_option] in *.
      by rewrite one_of_underscore in Hh.
    + destruct (last _) as [c|]; [|done]. cbn [from_option] in *.
      by rewrite one_of_underscore in Hl.
Qed.

Lemma package_safe_shape_witness :
  Re.fullmatch (Re.Plus (Re.Cls command_literal_class)) (_package_safe "My Mod!" "generated")
  = true.
Proof. apply (package_safe_shape "My Mod!" "generated"). vm_compute. discriminate. Defined.

Lemma upper_alnum c :
  alnum_class c = true ∨ c = "_"%char → java_const_class (upper_char c) = true.
Proof.
  intros [H| ->]; [|done]. revert H.
  destruct c as [[] [] [] [] [] [] [] []]; vm_compute; congruence.
Qed.

Lemma upper_underscore c : Ascii.eqb (upper_char c) "_" = Ascii.eqb c "_".
Proof. destruct c as [[] [] [] [] [] [] [] []]; reflexivity. Qed.

(** X25: the constant [_java_const] derives for a name is non-empty and
    over [[A-Z0-9_]], and it neither starts nor ends with an underscore
    (the fallback [UNNAMED] included). *)
Theorem java_const_shape (value : string) :
  let out := _java_const value in
  Re.fullmatch (Re.Plus (Re.Cls java_const_class)) out = true ∧
  from_option (λ c, Ascii.eqb c "_") false (head (Str.chars out)) = false ∧
  from_option (λ c, Ascii.eqb c "_") false (last (Str.chars out)) = false.
Proof.
  intros out. subst out. unfold _java_const.
  set (kept := Str.strip_set "_" _).
  destruct (upper kept) as [|c s] eqn:Hupper; [by vm_compute|].
  rewrite or_else_nonempty by done. rewrite <- Hupper.
  assert (Str.chars (upper kept) = map upper_char (Str.chars kept)) as Hchars
    by apply chars_of_chars.
  assert (Str.chars kept =
          Str.strip_chars (Str.one_of "_")
            (Re.sub_runs_chars (λ c, negb (alnum_class c)) ["_"%char] false (Str.chars value)))
    as Hkept.
  { unfold kept, Str.strip_set, Re.sub_class_plus. by rewrite !chars_of_chars. }
  split; [|split].
  - apply ReFacts.accepts_matches, matches_plus_cls. split.
    + apply chars_nonempty. by rewrite Hupper.
    + rewrite Hchars. apply Forall_map. rewrite Hkept.
      apply strip_Forall, sub_runs_Forall.
      * by apply upper_alnum; right.
      * intros x Hx. apply upper_alnum. left. by apply negb_false_iff in Hx.
  - rewrite Hchars, Hkept.
    destruct (strip_ends (Str.one_of "_")
                (Re.sub_runs_chars (λ c, negb (alnum_class c)) ["_"%char] false
                   (Str.chars value))) as [Hh _].
    destruct (Str.strip_chars _ _) as [|x r]; [done|]. cbn [map head from_option] in *.
    rewrite one_of_underscore in Hh. by rewrite upper_underscore.
  - rewrite Hchars, Hkept.
    destruct (strip_ends (Str.one_of "_")
                (Re.sub_runs_chars (λ c, negb (alnum_class c)) ["_"%char] false
                   (Str.chars value))) as [_ Hl].
    destruct (last (Str.strip_chars _ _)) as [x|] eqn:Hlast.
    + apply last_Some in Hlast as [f Hf]. rewrite Hf, map_app. cbn [map].
      rewrite last_snoc. cbn [from_option] in *.
      rewrite one_of_underscore in Hl. by rewrite upper_underscore.
    + apply last_None in Hlast. by rewrite Hlast.
Qed.

Lemma split_runs_pieces (p : ascii → bool) l : ∀ cur b,
  Forall (λ c, p c = false) cur →
  Forall (λ w, Forall (λ c, p c = false) (Str.chars w)) (split_runs_chars p cur b l).
Proof.
  induction l as [|c l IH]; intros cur b Hcur; cbn [split_runs_chars].
  - constructor; [|done]. rewrite chars_of_chars. by apply Forall_rev.
  - destruct (p c) eqn:Hc.
    + destruct b; [by apply IH|]. constructor.
      * rewrite chars_of_chars. by apply Forall_rev.
      * by apply IH.
    + apply IH. by constructor.
Qed.

Lemma join_chars (Q : ascii → Prop) sep words :
  Forall Q (Str.chars sep) → Forall (λ w, Forall Q (Str.chars w)) words →
  Forall Q (Str.chars (join sep words)).
Proof.
  intros Hsep Hwords. induction Hwords as [|w ws Hw Hws IH]; [done|].
  cbn [join]. destruct ws as [|w' ws]; [done|].
  rewrite !chars_app. apply Forall_app. split; [done|]. apply Forall_app. by split.
Qed.

Lemma Forall_kept {A} (Q : A → Prop) (P : A → Prop) `{∀ x, Decision (P x)} (l : list A) :
  Forall Q l → Forall Q (filter P l).
Proof.
  intros Hl. induction Hl as [|x l Hx _ IH]; [done|].
  rewrite filter_cons. destruct (decide (P x)); [by constructor | done].
Qed.

Lemma upper_keeps_alnum c : alnum_class c = true → alnum_class (upper_char c) = true.
Proof. destruct c as [[] [] [] [] [] [] [] []]; vm_compute; congruence. Qed.

(** X26: the class-name stem [_camel] derives is never empty and holds
    letters and digits only, so nothing of the separators, blanks or
    punctuation of the value reaches the Java class name. *)
Theorem camel_shape (value : string) :
  Re.fullmatch (Re.Plus (Re.Cls alnum_class)) (_camel value) = true.
Proof.
  apply ReFacts.accepts_matches, matches_plus_cls. unfold _camel. cbv zeta.
  set (parts := filter _ _). set (joined := join "" _).
  destruct joined as [|c s] eqn:Hjoined; [split; [done | by apply forallb_Forall]|].
  rewrite or_else_nonempty by done. split; [done|]. rewrite <- Hjoined. unfold joined.
  apply join_chars; [done|]. apply Forall_map.
  assert (Forall (λ w, Forall (λ c, alnum_class c = true) (Str.chars w)) parts) as Hparts.
  { unfold parts. apply Forall_kept.
    eapply Forall_impl; [apply (split_runs_pieces (λ c, negb (alnum_class c))); done|].
    intros w Hw. eapply Forall_impl; [exact Hw|]. intros x Hx. by apply negb_false_iff in Hx. }
  eapply Forall_impl; [exact Hparts|]. intros [|x w] Hw; [done|].
  change (Str.chars (String (upper_char x) w)) with (upper_char x :: Str.chars w).
  change (Str.chars (String x w)) with (x :: Str.chars w) in Hw.
  apply Forall_cons in Hw as [Hx Hw]. constructor; [by apply upper_keeps_alnum | done].
Qed.

Lemma case_keeps_words c :
  Str.one_of "_/.-" c = false →
  is_separator (upper_char c) = false ∧ is_separator (Str.lower_char c) = false.
Proof. destruct c as [[] [] [] [] [] [] [] []]; vm_compute; split; congruence. Qed.

(** X27: a display name [_display_name] derives from an identifier is
    never empty and holds none of the separators [_], [/], [.], [-]:
    they become the blanks between its words. *)
Theorem display_name_shape (identifier : string) :
  _display_name identifier ≠ "" ∧
  Forall (λ c, is_separator c = false) (Str.chars (_display_name identifier)).
Proof.
  unfold _display_name. cbv zeta. set (joined := join " " _).
  destruct joined as [|c s] eqn:Hjoined; [split; [done | simpl; repeat constructor]|].
  rewrite or_else_nonempty by done. split; [done|]. rewrite <- Hjoined. unfold joined.
  apply join_chars; [simpl; repeat constructor|]. apply Forall_map, Forall_kept.
  eapply Forall_impl; [apply (split_runs_pieces (Str.one_of "_/.-")); done|].
  intros [|x w] Hw; [done|]. unfold capitalize.
  change (Str.chars (String (upper_char x) (Str.lower w)))
    with (upper_char x :: Str.chars (Str.lower w)).
  change (Str.chars (String x w)) with (x :: Str.chars w) in Hw.
  apply Forall_cons in Hw as [Hx Hw]. constructor.
  - exact (proj1 (case_keeps_words x Hx)).
  - unfold Str.lower. rewrite chars_of_chars. apply Forall_map.
    eapply Forall_impl; [exact Hw|]. intros y Hy. exact (proj2 (case_keeps_words y Hy)).
Qed.

(** ** Loot tables *)

Lemma write_block_loot_table_ok (B : Backend) (data_dir : Path.t) (mod_id : string)
    (block : ElementObj.t) (fs fs' : FS.t) :
  Fabric12111Generator._write_block_loot_tables B data_dir mod_id [block] fs = (Ok (), fs') →
  fs' = <[Path.resolve (loot_table_file data_dir mod_id "loot_table" block) :=
            json_text B (block_loot_table mod_id block)]>
          (<[Path.resolve (loot_table_file data_dir mod_id "loot_tables" block) :=
               json_text B (block_loot_table mod_id block)]> fs).
Proof.
  unfold Fabric12111Generator._write_block_loot_tables. cbn [forM_]. intros H.
  apply bind_ok in H as ([] & fs2 & H & Hret). injection Hret as <-.
  apply bind_ok in H as ([] & fs1 & Hcurrent & Hlegacy).
  apply write_file_ok in Hcurrent, Hlegacy. by subst.
Qed.

(** X28: [_write_block_loot_tables] writes the loot table of every block
    twice, under [loot_tables/blocks] and under the older
    [loot_table/blocks]. When the writer returns for a list of blocks,
    both files of a block hold its loot table, the same text, unless a
    later block of the list has a name that leads to one of these two
    files (block names may hold [/] and [..]); in that case the two
    files can differ, as they do for [ruby_block] followed by
    [stray_block]. *)
Theorem block_loot_table_is_written_twice (B : Backend) (data_dir : Path.t)
    (mod_id : string) (before after : list ElementObj.t) (block : ElementObj.t)
    (fs fs' : FS.t) :
  Fabric12111Generator._write_block_loot_tables B data_dir mod_id
    (before ++ block :: after) fs = (Ok (), fs') →
  let current := Path.resolve (loot_table_file data_dir mod_id "loot_tables" block) in
  let legacy := Path.resolve (loot_table_file data_dir mod_id "loot_table" block) in
  let text := json_text B (block_loot_table mod_id block) in
  (Forall (λ later, ∀ folder, folder = "loot_tables" ∨ folder = "loot_table" →
              Path.resolve (loot_table_file data_dir mod_id folder later) ≠ current ∧
              Path.resolve (loot_table_file data_dir mod_id folder later) ≠ legacy) after →
   fs' !! current = Some text ∧ fs' !! legacy = Some text) ∧
  (Fabric12111Generator._write_block_loot_tables showing_backend ["data"] "demo_mod"
     [ruby_block; stray_block] ∅).2
     !! ["data"; "demo_mod"; "loot_tables"; "blocks"; "ruby_block.json"]
  ≠ (Fabric12111Generator._write_block_loot_tables showing_backend ["data"] "demo_mod"
       [ruby_block; stray_block] ∅).2
      !! ["data"; "demo_mod"; "loot_table"; "blocks"; "ruby_block.json"].
Proof.
  intros Hrun current legacy text. split; [|by vm_compute].
  intros Hlater.
  pose (step := λ later : ElementObj.t,
          (do! Fabric12111Generator._write_json B
                 (loot_table_file data_dir mod_id "loot_tables" later)
                 (block_loot_table mod_id later) in
           Fabric12111Generator._write_json B
             (loot_table_file data_dir mod_id "loot_table" later)
             (block_loot_table mod_id later)) : IO unit).
  assert (∀ later fsa fsb,
            step later fsa = (Ok (), fsb) →
            fsb = <[Path.resolve (loot_table_file data_dir mod_id "loot_table" later) :=
                      json_text B (block_loot_table mod_id later)]>
                    (<[Path.resolve (loot_table_file data_dir mod_id "loot_tables" later) :=
                         json_text B (block_loot_table mod_id later)]> fsa)) as Hstep.
  { intros later fsa fsb H. apply write_block_loot_table_ok.
    change ((do! step later in ret ()) fsa = (Ok (), fsb)).
    by rewrite bind_eq, H. }
  change (forM_ (before ++ block :: after) step fs = (Ok (), fs')) in Hrun.
  apply forM_ok_app in Hrun as (fs1 & fs2 & _ & Hblock & Hafter).
  apply Hstep in Hblock. fold current legacy text in Hblock.
  assert (fs2 !! current = Some text ∧ fs2 !! legacy = Some text) as [Hc Hl].
  { subst fs2. split; [|apply lookup_insert_eq].
    destruct (decide (legacy = current)) as [->|Hne]; [apply lookup_insert_eq|].
    rewrite lookup_insert_ne by done. apply lookup_insert_eq. }
  assert (∀ p, p = current ∨ p = legacy → fs' !! p = fs2 !! p) as Hkept.
  { intros p Hp.
    apply (forM_frame step
             (λ later q, ∀ folder, folder = "loot_tables" ∨ folder = "loot_table" →
                Path.resolve (loot_table_file data_dir mod_id folder later) ≠ q)
             after); [|exact Hafter|].
    - intros later fsa fsb q Hwrite Hkeep. apply Hstep in Hwrite as ->.
      rewrite !lookup_insert_ne; [done|apply Hkeep; by left|apply Hkeep; by right].
    - eapply Forall_impl; [exact Hlater|]. intros later Hboth folder Hfolder.
      destruct (Hboth folder Hfolder) as [? ?]. by destruct Hp as [->| ->]. }
  split; (rewrite Hkept; [done|]); auto.
Qed.

Lemma block_loot_table_is_written_twice_witness :
  ∃ text,
    (Fabric12111Generator._write_block_loot_tables showing_backend ["data"] "demo_mod"
       [ruby_block] ∅).2
      !! ["data"; "demo_mod"; "loot_tables"; "blocks"; "ruby_block.json"] = Some text ∧
    (Fabric12111Generator._write_block_loot_tables showing_backend ["data"] "demo_mod"
       [ruby_block] ∅).2
      !! ["data"; "demo_mod"; "loot_table"; "blocks"; "ruby_block.json"] = Some text.
Proof.
  eexists.
  apply (block_loot_table_is_written_twice showing_backend ["data"] "demo_mod" [] []
           ruby_block ∅).
  - apply injective_projections; [vm_compute; reflexivity | reflexivity].
  - constructor.
Defined.
